(** * Odisha School Portal: list routes, student detail, fetch cache, poller

    A shallow embedding of the request handlers of the REST API
    (routes/students.js, routes/schools.js), of the client's loads, fetch
    cache, pagination state and pagination bar (web/js/app.js), and of the
    dashboard poller and the life cycle of its manager
    (web/js/dashboard.js).

    Conventions of the model.
    - JavaScript numbers are [NaN], the two infinities, or a mathematical
      integer: the handlers only subtract, multiply and take the ceiling of a
      quotient, which is exact on integers in the safe range.  Signed zero is
      not distinguished.
    - Strings are sequences of code units 0..255.
    - The database engine is not part of the repository.  [Sql] gives the
      fragment of SQL that the routes send a reading: a lexer, a parser for
      the statement shapes of the routes, and an evaluator over tables held
      as lists of rows. *)

From Stdlib Require Import ZArith List String Ascii Bool Lia Sorted Permutation.
From stdpp Require Import base option gmap strings list.

Local Open Scope string_scope.
Local Open Scope list_scope.

(** ** Results of fallible steps: a thrown exception or a rejected promise
    carries a message. *)

Inductive result (A : Type) : Type :=
| Ok (a : A)
| Err (msg : string).
Arguments Ok {A} a.
Arguments Err {A} msg.

Definition rbind {A B} (r : result A) (k : A -> result B) : result B :=
  match r with
  | Ok a => k a
  | Err m => Err m
  end.

Notation "'do' x <- r ; k" := (rbind r (fun x => k))
  (at level 10, x name, r at level 100, k at level 200).

Fixpoint rmap_list {A B} (f : A -> result B) (l : list A) : result (list B) :=
  match l with
  | [] => Ok []
  | a :: l' => do b <- f a; do bs <- rmap_list f l'; Ok (b :: bs)
  end.

Fixpoint rfilter {A} (f : A -> result bool) (l : list A) : result (list A) :=
  match l with
  | [] => Ok []
  | a :: l' =>
      do keep <- f a; do rest <- rfilter f l';
      Ok (if keep then a :: rest else rest)
  end.

(** ** Characters and decimal numerals *)

Definition nl : string := String (ascii_of_nat 10) "".

(** A template literal that spans several source lines. *)
Definition lines (ls : list string) : string := String.concat nl ls.

Definition is_digit (c : ascii) : bool :=
  let n := nat_of_ascii c in (48 <=? n)%nat && (n <=? 57)%nat.

Definition digit_val (c : ascii) : Z := Z.of_nat (nat_of_ascii c) - 48.

(** WhiteSpace and LineTerminator code units below 256. *)
Definition is_js_space (c : ascii) : bool :=
  let n := nat_of_ascii c in
  ((9 <=? n)%nat && (n <=? 13)%nat) || (n =? 32)%nat || (n =? 160)%nat.

(** The characters that [.] refuses in a regular expression without the
    [s] flag (those below 256). *)
Definition is_line_terminator (c : ascii) : bool :=
  let n := nat_of_ascii c in (n =? 10)%nat || (n =? 13)%nat.

Fixpoint digits_of_pos_fuel (fuel : nat) (n : nat) (acc : string) : string :=
  match fuel with
  | O => acc
  | S fuel' =>
      let acc' := String (ascii_of_nat (48 + n mod 10)) acc in
      if (n <? 10)%nat then acc' else digits_of_pos_fuel fuel' (n / 10) acc'
  end.

(** [String(n)] for a natural number, as in [`$${++paramCount}`]. *)
Definition dec_of_nat (n : nat) : string := digits_of_pos_fuel (S n) n "".

Definition dec_of_Z (z : Z) : string :=
  if (z <? 0)%Z then "-" +:+ dec_of_nat (Z.to_nat (- z))
  else dec_of_nat (Z.to_nat z).

Fixpoint drop_while (p : ascii -> bool) (s : string) : string :=
  match s with
  | String c s' => if p c then drop_while p s' else s
  | EmptyString => s
  end.

Fixpoint string_rev_onto (s acc : string) : string :=
  match s with
  | String c s' => string_rev_onto s' (String c acc)
  | EmptyString => acc
  end.

Definition str_rev (s : string) : string := string_rev_onto s "".

Definition trim_start (s : string) : string := drop_while is_js_space s.
Definition trim (s : string) : string :=
  str_rev (trim_start (str_rev (trim_start s))).

(** Reads a run of decimal digits; [None] when a character is not a digit. *)
Fixpoint all_digits_val (s : string) (acc : Z) : option Z :=
  match s with
  | EmptyString => Some acc
  | String c s' =>
      if is_digit c then all_digits_val s' (10 * acc + digit_val c)%Z else None
  end.

(** Longest prefix of decimal digits, with the number of digits read. *)
Fixpoint digit_prefix_val (s : string) (acc : Z) (seen : bool) : option Z :=
  match s with
  | String c s' =>
      if is_digit c then digit_prefix_val s' (10 * acc + digit_val c)%Z true
      else if seen then Some acc else None
  | EmptyString => if seen then Some acc else None
  end.

Definition hex_val (c : ascii) : option Z :=
  let n := nat_of_ascii c in
  if is_digit c then Some (digit_val c)
  else if (97 <=? n)%nat && (n <=? 102)%nat then Some (Z.of_nat n - 87)%Z
  else if (65 <=? n)%nat && (n <=? 70)%nat then Some (Z.of_nat n - 55)%Z
  else None.

Fixpoint hex_prefix_val (s : string) (acc : Z) (seen : bool) : option Z :=
  match s with
  | String c s' =>
      match hex_val c with
      | Some d => hex_prefix_val s' (16 * acc + d)%Z true
      | None => if seen then Some acc else None
      end
  | EmptyString => if seen then Some acc else None
  end.

(** ** JavaScript values *)

Module Js.

Inductive num : Type :=
| NaN
| PInf
| NInf
| Int (z : Z).

(** The values a handler meets in [req.query] and in its own locals. *)
Inductive value : Type :=
| Undefined
| Str (s : string)
| Num (n : num).

(** Destructuring default: [const { page = 1 } = req.query]. *)
Definition default (v d : value) : value :=
  match v with
  | Undefined => d
  | _ => v
  end.

(** ToBoolean, as used by [if (school_id)]. *)
Definition truthy (v : value) : bool :=
  match v with
  | Undefined => false
  | Str s => negb (String.eqb s "")
  | Num NaN => false
  | Num (Int z) => negb (z =? 0)%Z
  | Num _ => true
  end.

(** StringToNumber on the integer fragment: optional white space, optional
    sign, decimal digits; the empty string is 0.  Fractions, exponents,
    the prefixes [0x], [0o], [0b] and [Infinity] are not read: the
    statements about a page or a limit are made for decimal numerals within
    the safe integers and for strings that cannot start a number. *)
Definition string_to_number (s : string) : num :=
  match trim s with
  | EmptyString => Int 0
  | String c rest =>
      let signed (neg : bool) (body : string) :=
        match body with
        | EmptyString => NaN
        | _ => match all_digits_val body 0 with
               | Some z => Int (if neg then - z else z)
               | None => NaN
               end
        end in
      if Ascii.eqb c "-" then signed true rest
      else if Ascii.eqb c "+" then signed false rest
      else signed false (String c rest)
  end.

Definition to_number (v : value) : num :=
  match v with
  | Undefined => NaN
  | Str s => string_to_number s
  | Num n => n
  end.

Definition neg (a : num) : num :=
  match a with
  | NaN => NaN
  | PInf => NInf
  | NInf => PInf
  | Int z => Int (- z)
  end.

Definition add (a b : num) : num :=
  match a, b with
  | NaN, _ | _, NaN => NaN
  | PInf, NInf | NInf, PInf => NaN
  | PInf, _ | _, PInf => PInf
  | NInf, _ | _, NInf => NInf
  | Int x, Int y => Int (x + y)
  end.

(** [a - b] *)
Definition sub (a b : num) : num := add a (neg b).

Definition sign_inf (positive : bool) : num := if positive then PInf else NInf.

Definition is_neg (a : num) : bool :=
  match a with
  | NInf => true
  | Int z => (z <? 0)%Z
  | _ => false
  end.

Definition is_zero (a : num) : bool :=
  match a with
  | Int 0 => true
  | _ => false
  end.

(** [a * b] *)
Definition mul (a b : num) : num :=
  match a, b with
  | NaN, _ | _, NaN => NaN
  | Int x, Int y => Int (x * y)
  | _, _ =>
      if is_zero a || is_zero b then NaN
      else sign_inf (Bool.eqb (is_neg a) (is_neg b))
  end.

(** [Math.ceil(a / b)] *)
Definition ceil_div (a b : num) : num :=
  match a, b with
  | NaN, _ | _, NaN => NaN
  | Int x, Int y =>
      if (y =? 0)%Z then
        if (x =? 0)%Z then NaN else sign_inf (0 <? x)%Z
      else Int (- ((- x) / y))
  | Int _, _ => Int 0
  | _, Int y =>
      if (y =? 0)%Z then a else sign_inf (Bool.eqb (is_neg a) (is_neg b))
  | _, _ => NaN
  end.

(** [parseInt(s)] on a string: leading white space, a sign, then either
    [0x] and hexadecimal digits or the longest run of decimal digits. *)
Definition parse_int_string (s : string) : num :=
  let t := trim_start s in
  let '(negative, body) :=
    match t with
    | String c rest =>
        if Ascii.eqb c "-" then (true, rest)
        else if Ascii.eqb c "+" then (false, rest)
        else (false, t)
    | EmptyString => (false, t)
    end in
  let magnitude :=
    match body with
    | String "0" (String x rest) =>
        if Ascii.eqb x "x" || Ascii.eqb x "X" then hex_prefix_val rest 0 false
        else digit_prefix_val body 0 false
    | _ => digit_prefix_val body 0 false
    end in
  match magnitude with
  | Some z => Int (if negative then - z else z)
  | None => NaN
  end.

(** [parseInt(v)]: the argument is first converted to a string.  The result
    is exact; beyond [Number.MAX_SAFE_INTEGER] the source rounds to a
    double. *)
Definition parseInt (v : value) : num :=
  match v with
  | Undefined => NaN
  | Str s => parse_int_string s
  | Num (Int z) => Int z
  | Num _ => NaN
  end.

(** A string that cannot be a numeric literal: after white space it is not
    empty and does not start with a digit, a sign, a dot or the [I] of
    [Infinity]. *)
Definition starts_non_numeric (s : string) : bool :=
  match trim s with
  | EmptyString => false
  | String c _ =>
      negb (is_digit c || Ascii.eqb c "-" || Ascii.eqb c "+" || Ascii.eqb c "."
            || Ascii.eqb c "I")
  end.

(** ToString, as in the template literal [`%${search}%`]. *)
Definition to_string (v : value) : string :=
  match v with
  | Undefined => "undefined"
  | Str s => s
  | Num NaN => "NaN"
  | Num PInf => "Infinity"
  | Num NInf => "-Infinity"
  | Num (Int z) => dec_of_Z z
  end.

(** Strips [lit] from the front of [s]. *)
Fixpoint strip_prefix (lit s : string) : option string :=
  match lit with
  | EmptyString => Some s
  | String a lit' =>
      match s with
      | String b s' => if Ascii.eqb a b then strip_prefix lit' s' else None
      | EmptyString => None
      end
  end.

(** [.*?lit] at the front of [s]: the shortest run of characters other than
    line terminators that is followed by [lit]; returns what follows. *)
Fixpoint lazy_dots_then (lit s : string) : option string :=
  match strip_prefix lit s with
  | Some rest => Some rest
  | None =>
      match s with
      | String c s' =>
          if is_line_terminator c then None else lazy_dots_then lit s'
      | EmptyString => None
      end
  end.

(** [s.replace(/OPENING.*?CLOSING/, repl)]: the leftmost match is replaced,
    and a string without a match is returned as it is. *)
Fixpoint replace_lazy (opening closing repl s : string) : string :=
  let here :=
    match strip_prefix opening s with
    | Some after => lazy_dots_then closing after
    | None => None
    end in
  match here with
  | Some rest => repl +:+ rest
  | None =>
      match s with
      | String c s' => String c (replace_lazy opening closing repl s')
      | EmptyString => EmptyString
      end
  end.

End Js.

(** ** The database engine

    A reading of the SQL the routes send: statement text is cut into tokens,
    parsed into a [select], checked against the catalog with the bound
    parameters (the errors the engine reports before it reads a row), and
    evaluated over the tables. *)

Module Sql.

Inductive token : Type :=
| TWord (w : string)
| TLit (s : string)
| TLParen
| TRParen
| TComma
| TEq
| TConcat.

Definition is_word_char (c : ascii) : bool :=
  let n := nat_of_ascii c in
  ((65 <=? n)%nat && (n <=? 90)%nat) || ((97 <=? n)%nat && (n <=? 122)%nat)
  || is_digit c || (n =? 95)%nat || (n =? 46)%nat || (n =? 42)%nat
  || (n =? 36)%nat.

Definition is_sql_space (c : ascii) : bool :=
  let n := nat_of_ascii c in ((9 <=? n)%nat && (n <=? 13)%nat) || (n =? 32)%nat.

Inductive lex_state : Type :=
| LIdle
| LWord (w : string)
| LQuote (w : string).

Definition flush (st : lex_state) : list token :=
  match st with
  | LWord w => [TWord w]
  | _ => []
  end.

Definition emit (ts : list token) (r : option (list token)) : option (list token) :=
  match r with
  | Some l => Some (ts ++ l)
  | None => None
  end.

Definition snoc (w : string) (c : ascii) : string := w +:+ String c "".

Fixpoint lex (st : lex_state) (s : string) : option (list token) :=
  match s with
  | EmptyString =>
      match st with
      | LQuote _ => None
      | _ => Some (flush st)
      end
  | String c s' =>
      match st with
      | LQuote w =>
          if Ascii.eqb c "'" then emit [TLit w] (lex LIdle s')
          else lex (LQuote (snoc w c)) s'
      | _ =>
          if is_word_char c then
            lex (LWord (snoc (match st with LWord w => w | _ => "" end) c)) s'
          else if is_sql_space c then emit (flush st) (lex LIdle s')
          else if Ascii.eqb c "(" then emit (flush st ++ [TLParen]) (lex LIdle s')
          else if Ascii.eqb c ")" then emit (flush st ++ [TRParen]) (lex LIdle s')
          else if Ascii.eqb c "," then emit (flush st ++ [TComma]) (lex LIdle s')
          else if Ascii.eqb c "=" then emit (flush st ++ [TEq]) (lex LIdle s')
          else if Ascii.eqb c "'" then emit (flush st) (lex (LQuote "") s')
          else if Ascii.eqb c "|" then
            match s' with
            | String d s'' =>
                if Ascii.eqb d "|" then emit (flush st ++ [TConcat]) (lex LIdle s'')
                else None
            | EmptyString => None
            end
          else None
      end
  end.

(** *** Abstract syntax of the statements the routes send *)

Inductive item : Type :=
| ICol (col : string) (alias : option string)
| IStar (qual : string)
| ICountStar
| IAgeYears (col : string) (alias : string).

Record join : Type := {
  j_table : string;
  j_alias : string;
  j_left : string;
  j_right : string
}.

Inductive operand : Type :=
| OCol (col : string)
| OLit (s : string).

Inductive cond : Type :=
| CEq (col : string) (p : nat)
| CSearch (lhs : list operand) (p1 : nat) (col2 : string) (p2 : nat).

Inductive bound : Type :=
| BParam (p : nat)
| BConst (z : Z).

Record select : Type := {
  sel_items : list item;
  sel_table : string;
  sel_alias : string;
  sel_joins : list join;
  sel_where : list cond;
  sel_order : list (string * bool);
  sel_limit : option bound;
  sel_offset : option bound
}.

(** *** Parser *)

Definition is_kw (k : string) (t : token) : bool :=
  match t with
  | TWord w => String.eqb w k
  | _ => false
  end.

Definition keywords : list string :=
  ["SELECT"; "FROM"; "JOIN"; "ON"; "WHERE"; "AND"; "OR"; "ILIKE"; "ORDER";
   "BY"; "DESC"; "LIMIT"; "OFFSET"; "as"].

Definition is_keyword (w : string) : bool :=
  existsb (String.eqb w) keywords.

(** A word that names a table, an alias or a column. *)
Definition ident (t : token) : option string :=
  match t with
  | TWord w => if is_keyword w then None else Some w
  | _ => None
  end.

(** [$n] *)
Definition placeholder (t : token) : option nat :=
  match t with
  | TWord (String c ds) =>
      if Ascii.eqb c "$" then
        match ds with
        | EmptyString => None
        | _ => option_map Z.to_nat (all_digits_val ds 0)
        end
      else None
  | _ => None
  end.

Fixpoint split_dot (s : string) : option (string * string) :=
  match s with
  | EmptyString => None
  | String c s' =>
      if Ascii.eqb c "." then Some ("", s')
      else match split_dot s' with
           | Some (a, b) => Some (String c a, b)
           | None => None
           end
  end.

Definition parse_item (ts : list token) : option (item * list token) :=
  match ts with
  | TWord f :: TLParen :: TWord a :: TRParen :: rest =>
      if String.eqb f "COUNT" && String.eqb a "*" then Some (ICountStar, rest)
      else None
  | TWord f :: TLParen :: TWord y :: TWord fr :: TWord g :: TLParen :: TWord c
      :: TRParen :: TRParen :: TWord kas :: TWord al :: rest =>
      if String.eqb f "EXTRACT" && String.eqb y "YEAR" && String.eqb fr "FROM"
         && String.eqb g "AGE" && String.eqb kas "as"
      then Some (IAgeYears c al, rest) else None
  | TWord c :: rest =>
      if is_keyword c then None
      else
        match split_dot c with
        | Some (q, "*") => Some (IStar q, rest)
        | _ =>
            match rest with
            | TWord kas :: TWord al :: rest' =>
                if String.eqb kas "as" then Some (ICol c (Some al), rest')
                else Some (ICol c None, rest)
            | _ => Some (ICol c None, rest)
            end
        end
  | _ => None
  end.

Fixpoint parse_items (fuel : nat) (ts : list token) : option (list item * list token) :=
  match fuel with
  | O => None
  | S fuel' =>
      match parse_item ts with
      | Some (it, TComma :: rest) =>
          match parse_items fuel' rest with
          | Some (its, rest') => Some (it :: its, rest')
          | None => None
          end
      | Some (it, rest) => Some ([it], rest)
      | None => None
      end
  end.

Fixpoint parse_joins (fuel : nat) (ts : list token) : option (list join * list token) :=
  match fuel with
  | O => None
  | S fuel' =>
      match ts with
      | TWord kj :: TWord t :: TWord a :: TWord kon :: TWord l :: TEq :: TWord r :: rest =>
          if String.eqb kj "JOIN" then
            if String.eqb kon "ON" && negb (is_keyword t) && negb (is_keyword a) then
              match parse_joins fuel' rest with
              | Some (js, rest') =>
                  Some ({| j_table := t; j_alias := a; j_left := l; j_right := r |} :: js, rest')
              | None => None
              end
            else None
          else Some ([], ts)
      | _ => Some ([], ts)
      end
  end.

Fixpoint parse_operands (fuel : nat) (ts : list token) : option (list operand * list token) :=
  match fuel with
  | O => None
  | S fuel' =>
      let first :=
        match ts with
        | TWord c :: rest => if is_keyword c then None else Some (OCol c, rest)
        | TLit s :: rest => Some (OLit s, rest)
        | _ => None
        end in
      match first with
      | Some (o, TConcat :: rest) =>
          match parse_operands fuel' rest with
          | Some (os, rest') => Some (o :: os, rest')
          | None => None
          end
      | Some (o, rest) => Some ([o], rest)
      | None => None
      end
  end.

Definition parse_cond (fuel : nat) (ts : list token) : option (cond * list token) :=
  match ts with
  | TLParen :: rest =>
      match parse_operands fuel rest with
      | Some (lhs, k1 :: ph1 :: k2 :: c2 :: k3 :: ph2 :: TRParen :: rest') =>
          if is_kw "ILIKE" k1 && is_kw "OR" k2 && is_kw "ILIKE" k3 then
            match placeholder ph1, ident c2, placeholder ph2 with
            | Some p1, Some col2, Some p2 => Some (CSearch lhs p1 col2 p2, rest')
            | _, _, _ => None
            end
          else None
      | _ => None
      end
  | c :: TEq :: ph :: rest =>
      match ident c, placeholder ph with
      | Some col, Some p => Some (CEq col p, rest)
      | _, _ => None
      end
  | _ => None
  end.

Fixpoint parse_conds (fuel : nat) (ts : list token) : option (list cond * list token) :=
  match fuel with
  | O => None
  | S fuel' =>
      match parse_cond fuel' ts with
      | Some (c, k :: rest) =>
          if is_kw "AND" k then
            match parse_conds fuel' rest with
            | Some (cs, rest') => Some (c :: cs, rest')
            | None => None
            end
          else Some ([c], k :: rest)
      | Some (c, []) => Some ([c], [])
      | None => None
      end
  end.

Fixpoint parse_keys (fuel : nat) (ts : list token) : option (list (string * bool) * list token) :=
  match fuel with
  | O => None
  | S fuel' =>
      match ts with
      | c :: rest =>
          match ident c with
          | Some col =>
              let '(desc, rest1) :=
                match rest with
                | k :: rest' => if is_kw "DESC" k then (true, rest') else (false, rest)
                | [] => (false, rest)
                end in
              match rest1 with
              | TComma :: rest2 =>
                  match parse_keys fuel' rest2 with
                  | Some (ks, rest3) => Some ((col, desc) :: ks, rest3)
                  | None => None
                  end
              | _ => Some ([(col, desc)], rest1)
              end
          | None => None
          end
      | [] => None
      end
  end.

Definition parse_bound (t : token) : option bound :=
  match placeholder t with
  | Some p => Some (BParam p)
  | None =>
      match t with
      | TWord (String c ds) => option_map BConst (all_digits_val (String c ds) 0)
      | _ => None
      end
  end.

(** An optional clause [KW arg]. *)
Definition parse_opt_bound (kw : string) (ts : list token)
  : option (option bound * list token) :=
  match ts with
  | k :: t :: rest =>
      if is_kw kw k then
        match parse_bound t with
        | Some b => Some (Some b, rest)
        | None => None
        end
      else Some (None, ts)
  | _ => Some (None, ts)
  end.

Definition parse_select (ts : list token) : option select :=
  let fuel := length ts in
  match ts with
  | ks :: ts1 =>
      if is_kw "SELECT" ks then
        match parse_items fuel ts1 with
        | Some (items, kf :: TWord table :: ts2) =>
            if is_kw "FROM" kf && negb (is_keyword table) then
              let '(alias, ts3) :=
                match ts2 with
                | TWord a :: rest => if is_keyword a then (table, ts2) else (a, rest)
                | _ => (table, ts2)
                end in
              match parse_joins fuel ts3 with
              | Some (joins, kw :: ts4) =>
                  if is_kw "WHERE" kw then
                    match parse_conds fuel ts4 with
                    | Some (conds, ts5) =>
                        let order :=
                          match ts5 with
                          | ko :: kb :: rest =>
                              if is_kw "ORDER" ko then
                                if is_kw "BY" kb then parse_keys fuel rest else None
                              else Some ([], ts5)
                          | _ => Some ([], ts5)
                          end in
                        match order with
                        | Some (keys, ts6) =>
                            match parse_opt_bound "LIMIT" ts6 with
                            | Some (lim, ts7) =>
                                match parse_opt_bound "OFFSET" ts7 with
                                | Some (off, []) =>
                                    Some {| sel_items := items; sel_table := table;
                                            sel_alias := alias; sel_joins := joins;
                                            sel_where := conds; sel_order := keys;
                                            sel_limit := lim; sel_offset := off |}
                                | _ => None
                                end
                            | None => None
                            end
                        | None => None
                        end
                    | None => None
                    end
                  else None
              | _ => None
              end
            else None
        | _ => None
        end
      else None
  | [] => None
  end.

Definition parse (text : string) : option select :=
  match lex LIdle text with
  | Some ts => parse_select ts
  | None => None
  end.

(** *** Tables and values *)

Inductive kind : Type :=
| KInt
| KText
| KDate.

(** A date is held as the number [yyyymmdd], so that dates are ordered as
    their numbers are. *)
Inductive sqlval : Type :=
| VNull
| VInt (z : Z)
| VText (s : string)
| VDate (ymd : Z).

(** A row, and what the driver hands to JavaScript as [result.rows[i]]:
    column names with their values. *)
Definition row : Type := list (string * sqlval).

Record table : Type := {
  t_columns : list (string * kind);
  t_rows : list row
}.

Record database : Type := {
  db_tables : list (string * table);
  db_today : Z
}.

Fixpoint assoc {A} (k : string) (l : list (string * A)) : option A :=
  match l with
  | [] => None
  | (k', a) :: l' => if String.eqb k k' then Some a else assoc k l'
  end.

Definition rows_of (db : database) (t : string) : list row :=
  match assoc t (db_tables db) with
  | Some tb => t_rows tb
  | None => []
  end.

(** *** Bound parameters *)

(** The text the driver sends for a parameter; [None] is SQL NULL. *)
Definition bind (v : Js.value) : option string :=
  match v with
  | Js.Undefined => None
  | Js.Str s => Some s
  | Js.Num Js.NaN => Some "NaN"
  | Js.Num Js.PInf => Some "Infinity"
  | Js.Num Js.NInf => Some "-Infinity"
  | Js.Num (Js.Int z) => Some (dec_of_Z z)
  end.

(** [$p] among the bound parameters. *)
Definition param (params : list Js.value) (p : nat) : option Js.value :=
  match p with
  | O => None
  | S i => nth_error params i
  end.

Definition param_text (params : list Js.value) (p : nat) : option string :=
  match param params p with
  | Some v => bind v
  | None => None
  end.

(** Integer input: white space, an optional sign, decimal digits.  From
    version 16 the engine also reads the prefixes [0x], [0o], [0b] and
    underscores between digits; a text is refused by every version when
    [never_integer] holds of it. *)
Definition int_of_text (s : string) : option Z :=
  let t := str_rev (drop_while is_sql_space (str_rev (drop_while is_sql_space s))) in
  let signed (negative : bool) (body : string) :=
    match body with
    | EmptyString => None
    | _ => option_map (fun z => if negative then (- z)%Z else z) (all_digits_val body 0)
    end in
  match t with
  | EmptyString => None
  | String c rest =>
      if Ascii.eqb c "-" then signed true rest
      else if Ascii.eqb c "+" then signed false rest
      else signed false t
  end.

(** A text that no version of the engine reads as an integer: after white
    space it is empty, or starts with something else than a digit or a
    sign. *)
Definition never_integer (s : string) : bool :=
  match drop_while is_sql_space s with
  | EmptyString => true
  | String c _ => negb (is_digit c || Ascii.eqb c "-" || Ascii.eqb c "+")
  end.


(** *** Checks made before any row is read *)

Definition scope : Type := list (string * list (string * kind)).

Definition resolve (sc : scope) (ref : string) : result kind :=
  match split_dot ref with
  | Some (q, c) =>
      match assoc q sc with
      | Some cols =>
          match assoc c cols with
          | Some k => Ok k
          | None => Err "column does not exist"
          end
      | None => Err "missing FROM-clause entry"
      end
  | None =>
      match List.filter (fun e => match assoc ref (snd e) with
                                  | Some _ => true
                                  | None => false
                                  end) sc with
      | [(_, cols)] =>
          match assoc ref cols with
          | Some k => Ok k
          | None => Err "column does not exist"
          end
      | [] => Err "column does not exist"
      | _ => Err "column reference is ambiguous"
      end
  end.

Definition columns_of (db : database) (t : string) : result (list (string * kind)) :=
  match assoc t (db_tables db) with
  | Some tb => Ok (t_columns tb)
  | None => Err "relation does not exist"
  end.

Fixpoint scope_of_joins (db : database) (js : list join) : result scope :=
  match js with
  | [] => Ok []
  | j :: js' =>
      do cols <- columns_of db (j_table j);
      do rest <- scope_of_joins db js';
      Ok ((j_alias j, cols) :: rest)
  end.

Definition scope_of (db : database) (q : select) : result scope :=
  do cols <- columns_of db (sel_table q);
  do rest <- scope_of_joins db (sel_joins q);
  Ok ((sel_alias q, cols) :: rest).

Definition check_item (sc : scope) (only : bool) (it : item) : result unit :=
  match it with
  | ICol c _ => do _ <- resolve sc c; Ok tt
  | IStar q =>
      match assoc q sc with
      | Some _ => Ok tt
      | None => Err "missing FROM-clause entry"
      end
  | ICountStar => if only then Ok tt else Err "column must appear in the GROUP BY clause"
  | IAgeYears c _ =>
      do k <- resolve sc c;
      match k with
      | KDate => Ok tt
      | _ => Err "function age does not exist"
      end
  end.

(** The parameter [$p] read as a value of the kind of the column it is
    compared with.  The range of the column's type is not checked: an id is
    taken within the 32-bit range, see [fits_integer]. *)
Definition check_param_cast (params : list Js.value) (p : nat) (k : kind) : result unit :=
  match param params p with
  | None => Err "there is no parameter"
  | Some v =>
      match bind v, k with
      | None, _ => Ok tt
      | Some _, KText => Ok tt
      | Some t, KInt =>
          match int_of_text t with
          | Some _ => Ok tt
          | None => Err "invalid input syntax for type integer"
          end
      | Some _, KDate => Err "invalid input syntax for type date"
      end
  end.

Definition check_operand (sc : scope) (o : operand) : result unit :=
  match o with
  | OCol c => do _ <- resolve sc c; Ok tt
  | OLit _ => Ok tt
  end.

Definition check_text_column (sc : scope) (c : string) : result unit :=
  do k <- resolve sc c;
  match k with
  | KText => Ok tt
  | _ => Err "operator does not exist"
  end.

Definition check_cond (sc : scope) (params : list Js.value) (c : cond) : result unit :=
  match c with
  | CEq col p => do k <- resolve sc col; check_param_cast params p k
  | CSearch lhs p1 col2 p2 =>
      do _ <- match lhs with
              | [OCol c1] => check_text_column sc c1
              | _ => do _ <- rmap_list (check_operand sc) lhs; Ok tt
              end;
      do _ <- check_text_column sc col2;
      do _ <- check_param_cast params p1 KText;
      check_param_cast params p2 KText
  end.

Definition int8_max : Z := 9223372036854775807.

(** The value of [LIMIT] or [OFFSET]; [None] is NULL, which sets no bound. *)
Definition check_bound (what : string) (params : list Js.value) (b : option bound)
  : result (option Z) :=
  match b with
  | None => Ok None
  | Some (BConst z) => Ok (Some z)
  | Some (BParam p) =>
      match param params p with
      | None => Err "there is no parameter"
      | Some v =>
          match bind v with
          | None => Ok None
          | Some t =>
              match int_of_text t with
              | None => Err "invalid input syntax for type bigint"
              | Some z =>
                  if (z <? 0)%Z then Err (what +:+ " must not be negative")
                  else if (int8_max <? z)%Z then Err "value out of range for type bigint"
                  else Ok (Some z)
              end
          end
      end
  end.

Definition cond_params (c : cond) : list nat :=
  match c with
  | CEq _ p => [p]
  | CSearch _ p1 _ p2 => [p1; p2]
  end.

Definition bound_params (b : option bound) : list nat :=
  match b with
  | Some (BParam p) => [p]
  | _ => []
  end.

Definition placeholders (q : select) : list nat :=
  flat_map cond_params (sel_where q) ++ bound_params (sel_limit q)
  ++ bound_params (sel_offset q).

(** The statement names exactly the parameters [$1 .. $n] that are bound. *)
Definition check_arity (q : select) (params : list Js.value) : result unit :=
  let used := placeholders q in
  if forallb (fun p => (1 <=? p)%nat && (p <=? length params)%nat) used
     && forallb (fun i => existsb (Nat.eqb (S i)) used) (seq 0 (length params))
  then Ok tt
  else Err "bind message supplies the wrong number of parameters".

Definition check_join (sc : scope) (j : join) : result unit :=
  do _ <- resolve sc (j_left j); do _ <- resolve sc (j_right j); Ok tt.

Definition is_count (q : select) : bool :=
  match sel_items q with
  | [ICountStar] => true
  | _ => false
  end.

Record plan : Type := {
  pl_scope : scope;
  pl_limit : option Z;
  pl_offset : option Z
}.

Definition check (db : database) (q : select) (params : list Js.value) : result plan :=
  do sc <- scope_of db q;
  do _ <- check_arity q params;
  do _ <- rmap_list (check_join sc) (sel_joins q);
  do _ <- rmap_list (check_item sc (is_count q)) (sel_items q);
  do _ <- rmap_list (check_cond sc params) (sel_where q);
  do _ <- rmap_list (resolve sc) (map fst (sel_order q));
  do lim <- check_bound "LIMIT" params (sel_limit q);
  do off <- check_bound "OFFSET" params (sel_offset q);
  Ok {| pl_scope := sc; pl_limit := lim; pl_offset := off |}.

(** *** Evaluation over the rows *)

(** The rows in hand while a joined row is built: alias and row. *)
Definition env : Type := list (string * row).

(** The value of a column in a row; a column the row lacks reads as NULL. *)
Definition column (c : string) (r : row) : sqlval :=
  match assoc c r with
  | Some v => v
  | None => VNull
  end.

Definition has_column (c : string) (ar : string * row) : bool :=
  match assoc c (snd ar) with
  | Some _ => true
  | None => false
  end.

Definition eval_col (e : env) (ref : string) : sqlval :=
  match split_dot ref with
  | Some (q, c) =>
      match assoc q e with
      | Some r => column c r
      | None => VNull
      end
  | None =>
      match List.find (has_column ref) e with
      | Some (_, r) => column ref r
      | None => VNull
      end
  end.

(** [a = b] between two columns, where NULL equals nothing. *)
Definition sql_eq (a b : sqlval) : bool :=
  match a, b with
  | VInt x, VInt y => (x =? y)%Z
  | VText x, VText y => String.eqb x y
  | VDate x, VDate y => (x =? y)%Z
  | _, _ => false
  end.

(** [column = $p] against the text of the parameter. *)
Definition eq_param (v : sqlval) (t : option string) : bool :=
  match t, v with
  | Some t, VInt z =>
      match int_of_text t with
      | Some n => (z =? n)%Z
      | None => false
      end
  | Some t, VText s => String.eqb s t
  | _, _ => false
  end.

Definition text_of (v : sqlval) : option string :=
  match v with
  | VNull => None
  | VInt z => Some (dec_of_Z z)
  | VText s => Some s
  | VDate d => Some (dec_of_Z d)
  end.

(** [a || b || ...]: NULL when an operand is NULL. *)
Fixpoint concat_operands (e : env) (os : list operand) : option string :=
  match os with
  | [] => Some ""
  | o :: os' =>
      let here :=
        match o with
        | OCol c => text_of (eval_col e c)
        | OLit s => Some s
        end in
      match here, concat_operands e os' with
      | Some a, Some b => Some (a +:+ b)
      | _, _ => None
      end
  end.

Definition lower (c : ascii) : ascii :=
  let n := nat_of_ascii c in
  if (65 <=? n)%nat && (n <=? 90)%nat then ascii_of_nat (n + 32) else c.

(** [LIKE]: [%] stands for any run of characters, [_] for any one
    character, and a backslash takes the next pattern character as it is. *)
Fixpoint like (p : list ascii) : list ascii -> bool :=
  match p with
  | [] => fun s => match s with [] => true | _ => false end
  | c :: p' =>
      if Ascii.eqb c "%" then
        fix star (s : list ascii) : bool :=
          like p' s || match s with
                       | [] => false
                       | _ :: s' => star s'
                       end
      else if Ascii.eqb c "_" then
        fun s => match s with [] => false | _ :: s' => like p' s' end
      else if Ascii.eqb c "\" then
        match p' with
        | [] => fun _ => false
        | d :: p'' =>
            fun s => match s with
                     | [] => false
                     | x :: s' => Ascii.eqb d x && like p'' s'
                     end
        end
      else
        fun s => match s with
                 | [] => false
                 | x :: s' => Ascii.eqb c x && like p' s'
                 end
  end.

(** [text ILIKE pattern]; NULL on either side matches nothing. *)
Definition ilike (text pattern : option string) : bool :=
  match text, pattern with
  | Some t, Some p =>
      like (map lower (list_ascii_of_string p)) (map lower (list_ascii_of_string t))
  | _, _ => false
  end.

Definition eval_cond (params : list Js.value) (e : env) (c : cond) : bool :=
  match c with
  | CEq col p => eq_param (eval_col e col) (param_text params p)
  | CSearch lhs p1 col2 p2 =>
      ilike (concat_operands e lhs) (param_text params p1)
      || ilike (text_of (eval_col e col2)) (param_text params p2)
  end.

Definition join_step (db : database) (envs : list env) (j : join) : list env :=
  flat_map (fun e =>
    flat_map (fun r =>
      let e' := e ++ [(j_alias j, r)] in
      if sql_eq (eval_col e' (j_left j)) (eval_col e' (j_right j)) then [e'] else [])
      (rows_of db (j_table j))) envs.

(** [FROM t a JOIN ... ON ...] *)
Definition from_rows (db : database) (q : select) : list env :=
  fold_left (join_step db)
    (sel_joins q)
    (map (fun r => [(sel_alias q, r)]) (rows_of db (sel_table q))).

(** [... WHERE c1 AND c2 ...] *)
Definition matching (db : database) (q : select) (params : list Js.value) : list env :=
  List.filter (fun e => forallb (eval_cond params e) (sel_where q)) (from_rows db q).

Definition kind_rank (v : sqlval) : Z :=
  match v with
  | VInt _ => 0
  | VText _ => 1
  | VDate _ => 2
  | VNull => 3
  end.

(** The order of [ORDER BY ... ASC]; NULL sorts after every value.  Text
    is compared by code units, where the engine uses the collation of the
    database. *)
Definition val_cmp (a b : sqlval) : comparison :=
  match a, b with
  | VInt x, VInt y => (x ?= y)%Z
  | VText x, VText y => String.compare x y
  | VDate x, VDate y => (x ?= y)%Z
  | _, _ => (kind_rank a ?= kind_rank b)%Z
  end.

Fixpoint env_le (keys : list (string * bool)) (a b : env) : bool :=
  match keys with
  | [] => true
  | (col, desc) :: keys' =>
      let c := val_cmp (eval_col a col) (eval_col b col) in
      match (if desc then CompOpp c else c) with
      | Lt => true
      | Gt => false
      | Eq => env_le keys' a b
      end
  end.

Fixpoint insert_sorted {A} (le : A -> A -> bool) (x : A) (l : list A) : list A :=
  match l with
  | [] => [x]
  | y :: l' => if le x y then x :: l else y :: insert_sorted le x l'
  end.

Definition sort_by {A} (le : A -> A -> bool) (l : list A) : list A :=
  fold_right (insert_sorted le) [] l.

Definition order_rows (q : select) (envs : list env) : list env :=
  match sel_order q with
  | [] => envs
  | keys => sort_by (env_le keys) envs
  end.

(** [OFFSET o] then [LIMIT l]. *)
Definition window {A} (lim off : option Z) (l : list A) : list A :=
  let after := match off with
               | Some o => skipn (Z.to_nat o) l
               | None => l
               end in
  match lim with
  | Some n => firstn (Z.to_nat n) after
  | None => after
  end.

(** The whole years from the date [a] to the later date [b]. *)
Definition whole_years (a b : Z) : Z :=
  b / 10000 - a / 10000 - (if (b mod 10000 <? a mod 10000)%Z then 1 else 0).

(** [EXTRACT(YEAR FROM AGE(d))]: the whole years from [d] to today, with
    the sign of the interval; the engine returns a numeric, which the driver
    hands over as text. *)
Definition age_years (today : Z) (v : sqlval) : sqlval :=
  match v with
  | VDate d =>
      VText (dec_of_Z (if (d <=? today)%Z then whole_years d today
                       else - whole_years today d))
  | _ => VNull
  end.

Definition base_name (ref : string) : string :=
  match split_dot ref with
  | Some (_, c) => c
  | None => ref
  end.

Definition project_item (db : database) (sc : scope) (e : env) (it : item) : row :=
  match it with
  | ICol c alias =>
      [(match alias with Some a => a | None => base_name c end, eval_col e c)]
  | IStar q =>
      match assoc q sc with
      | Some cols => map (fun ck => (fst ck, eval_col e (q +:+ "." +:+ fst ck))) cols
      | None => []
      end
  | ICountStar => []
  | IAgeYears c alias => [(alias, age_years (db_today db) (eval_col e c))]
  end.

Definition project (db : database) (sc : scope) (q : select) (e : env) : row :=
  flat_map (project_item db sc e) (sel_items q).

Definition run (db : database) (q : select) (params : list Js.value) (pl : plan)
  : list row :=
  let found := matching db q params in
  if is_count q then
    window (pl_limit pl) (pl_offset pl)
      [[("count", VText (dec_of_nat (length found)))]]
  else
    map (project db (pl_scope pl) q)
      (window (pl_limit pl) (pl_offset pl) (order_rows q found)).

(** [pool.query(text, params)]: the rows, or the error the promise is
    rejected with. *)
Definition pool_query (db : database) (text : string) (params : list Js.value)
  : result (list row) :=
  match parse text with
  | None => Err "syntax error"
  | Some q => do pl <- check db q params; Ok (run db q params pl)
  end.


Definition table_columns (db : database) (t : string) : list (string * kind) :=
  match assoc t (db_tables db) with
  | Some tb => t_columns tb
  | None => []
  end.


(** A statement without ordering and bounds. *)
Definition plain (q : select) : Prop :=
  sel_order q = [] /\ sel_limit q = None /\ sel_offset q = None.

Definition in_range (n : nat) (p : nat) : Prop := (1 <= p <= n)%nat.

(** The statement with [ORDER BY keys LIMIT $n+1 OFFSET $n+2] appended. *)
Definition with_window (q : select) (keys : list (string * bool)) (n : nat) : select :=
  {| sel_items := sel_items q; sel_table := sel_table q; sel_alias := sel_alias q;
     sel_joins := sel_joins q; sel_where := sel_where q; sel_order := keys;
     sel_limit := Some (BParam (S n)); sel_offset := Some (BParam (S (S n))) |}.

End Sql.

(** ** The REST handlers *)

Record pagination : Type := {
  pg_page : Js.num;
  pg_limit : Js.num;
  pg_total : Js.num;
  pg_pages : Js.num
}.

(** What a handler passes to [res.json], with the status it sets. *)
Inductive response : Type :=
| ListOk (data : list Sql.row) (p : pagination)
    (* 200 { success: true, data, pagination } *)
| DetailOk (data : Sql.row) (recent_attendance : list Sql.row)
    (* 200 { success: true, data: { ...row, recent_attendance } } *)
| Failure (status : nat) (error : string).
    (* status { success: false, error } *)

(** [try { body } catch (error) { res.status(500).json(...) }] *)
Definition catch (error : string) (body : result response) : response :=
  match body with
  | Ok r => r
  | Err _ => Failure 500 error
  end.

(** [obj.name] on a row object: the last column of that name, or
    [undefined]. *)
Definition property (r : Sql.row) (name : string) : option Sql.sqlval :=
  Sql.assoc name (rev r).

(** [parseInt(obj.name)]: [undefined], [null] and a date all read as NaN. *)
Definition parseInt_property (v : option Sql.sqlval) : Js.num :=
  match v with
  | Some (Sql.VText s) => Js.parseInt (Js.Str s)
  | Some (Sql.VInt z) => Js.parseInt (Js.Num (Js.Int z))
  | _ => Js.NaN
  end.

(** [rows[0].name]; reading a property of [undefined] throws. *)
Definition first_row_property (rows : list Sql.row) (name : string)
  : result (option Sql.sqlval) :=
  match rows with
  | r :: _ => Ok (property r name)
  | [] => Err ("Cannot read properties of undefined (reading '" +:+ name +:+ "')")
  end.

(** The three locals of a list route: [query], [params], [paramCount]. *)
Record builder : Type := {
  query : string;
  params : list Js.value;
  paramCount : nat
}.

(** [if (v) { query += ` AND col = $${++paramCount}`; params.push(v); }],
    with [clause] the text before the number. *)
Definition and_equals (clause : string) (v : Js.value) (b : builder) : builder :=
  if Js.truthy v then
    let n := S (paramCount b) in
    {| query := query b +:+ clause +:+ dec_of_nat n;
       params := params b ++ [v];
       paramCount := n |}
  else b.

(** [if (search) { query += ` AND (lhs ILIKE $${++paramCount} OR rhs ILIKE
    $${++paramCount})`; params.push(`%${search}%`, `%${search}%`); }] *)
Definition and_search (lhs rhs : string) (search : Js.value) (b : builder) : builder :=
  if Js.truthy search then
    let n1 := S (paramCount b) in
    let n2 := S n1 in
    let pattern := Js.Str ("%" +:+ Js.to_string search +:+ "%") in
    {| query := query b +:+ lhs +:+ dec_of_nat n1 +:+ rhs +:+ dec_of_nat n2 +:+ ")";
       params := params b ++ [pattern; pattern];
       paramCount := n2 |}
  else b.

(** [query.replace(/SELECT.*?FROM/, count_select)], where [count_select]
    is the text of a select list that counts, up to its FROM. *)
Definition countQuery (q : string) : string :=
  Js.replace_lazy "SELECT" "FROM" "SELECT COUNT(*) FROM" q.

(** The part the two list routes share, from [// Count total] to
    [res.json]: [order] is the text appended before the number of the
    [LIMIT] parameter. *)
Definition count_and_page (db : Sql.database) (b : builder) (order : string)
    (page limit : Js.value) (offset : Js.num) : result response :=
  do countResult <- Sql.pool_query db (countQuery (query b)) (params b);
  do count <- first_row_property countResult "count";
  let totalCount := parseInt_property count in
  let n1 := S (paramCount b) in
  let n2 := S n1 in
  let query' := query b +:+ order +:+ dec_of_nat n1 +:+ " OFFSET $" +:+ dec_of_nat n2 in
  let params' := params b ++ [limit; Js.Num offset] in
  do rows <- Sql.pool_query db query' params';
  Ok (ListOk rows
        {| pg_page := Js.parseInt page;
           pg_limit := Js.parseInt limit;
           pg_total := totalCount;
           pg_pages := Js.ceil_div totalCount (Js.to_number limit) |}).

(** [(page - 1) * limit] *)
Definition offset_of (page limit : Js.value) : Js.num :=
  Js.mul (Js.sub (Js.to_number page) (Js.Int 1)) (Js.to_number limit).

Definition type_error : string :=
  "Cannot read properties of undefined (reading 'count')".

(** The steps of a list route once its two statements are read: the check
    of the statement, the rows it matches, the two bounds, the page. *)
Definition list_steps (db : Sql.database) (q0 : Sql.select)
    (keys : list (string * bool)) (ps : list Js.value) (page limit : Js.value)
  : result response :=
  do pl <- Sql.check db q0 ps;
  match Sql.matching db q0 ps with
  | [] => Err type_error
  | _ :: _ =>
      do lim <- Sql.check_bound "LIMIT" [limit] (Some (Sql.BParam 1));
      do off <- Sql.check_bound "OFFSET" [Js.Num (offset_of page limit)]
                  (Some (Sql.BParam 1));
      Ok (ListOk
            (map (Sql.project db (Sql.pl_scope pl) q0)
               (Sql.window lim off
                  (Sql.sort_by (Sql.env_le keys) (Sql.matching db q0 ps))))
            {| pg_page := Js.parseInt page; pg_limit := Js.parseInt limit;
               pg_total := Js.NaN; pg_pages := Js.NaN |})
  end.

(** *** routes/students.js *)

Module Students.

(** [req.query] *)
Record query_string : Type := {
  page : Js.value;
  limit : Js.value;
  school_id : Js.value;
  class_number : Js.value;
  section : Js.value;
  status : Js.value;
  search : Js.value
}.

Definition select_from_where : string :=
  lines ["";
         "      SELECT s.student_id, s.admission_no, s.roll_no, s.first_name, s.last_name,";
         "             s.gender, s.date_of_birth, s.class_number, s.section, s.category,";
         "             s.guardian_name, s.guardian_phone, s.status,";
         "             sc.name as school_name, d.name as district_name";
         "      FROM students s";
         "      JOIN schools sc ON sc.school_id = s.school_id";
         "      JOIN blocks b ON b.block_id = sc.block_id";
         "      JOIN districts d ON d.district_id = b.district_id";
         "      WHERE s.status = $1";
         "    "].

Definition order_clause : string := " ORDER BY s.last_name, s.first_name LIMIT $".

(** The statement and parameters before the count is taken. *)
Definition filters (q : query_string) : builder :=
  let status := Js.default (status q) (Js.Str "Active") in
  let b := {| query := select_from_where; params := [status]; paramCount := 1 |} in
  let b := and_equals " AND s.school_id = $" (school_id q) b in
  let b := and_equals " AND s.class_number = $" (class_number q) b in
  let b := and_equals " AND s.section = $" (section q) b in
  and_search " AND (s.first_name || ' ' || s.last_name ILIKE $"
             " OR s.admission_no ILIKE $" (search q) b.

(** [router.get('/', ...)] *)
Definition get_list (db : Sql.database) (q : query_string) : response :=
  catch "Failed to fetch students"
    (let page := Js.default (page q) (Js.Num (Js.Int 1)) in
     let limit := Js.default (limit q) (Js.Num (Js.Int 50)) in
     let offset := offset_of page limit in
     count_and_page db (filters q) order_clause page limit offset).




(** What the engine reads in the list statement, given the conditions after
    the first. *)
Definition statement (conds : list Sql.cond) : Sql.select :=
  {| Sql.sel_items :=
       map (fun c => Sql.ICol c None)
         ["s.student_id"; "s.admission_no"; "s.roll_no"; "s.first_name";
          "s.last_name"; "s.gender"; "s.date_of_birth"; "s.class_number";
          "s.section"; "s.category"; "s.guardian_name"; "s.guardian_phone";
          "s.status"]
       ++ [Sql.ICol "sc.name" (Some "school_name");
           Sql.ICol "d.name" (Some "district_name")];
     Sql.sel_table := "students";
     Sql.sel_alias := "s";
     Sql.sel_joins :=
       [{| Sql.j_table := "schools"; Sql.j_alias := "sc";
           Sql.j_left := "sc.school_id"; Sql.j_right := "s.school_id" |};
        {| Sql.j_table := "blocks"; Sql.j_alias := "b";
           Sql.j_left := "b.block_id"; Sql.j_right := "sc.block_id" |};
        {| Sql.j_table := "districts"; Sql.j_alias := "d";
           Sql.j_left := "d.district_id"; Sql.j_right := "b.district_id" |}];
     Sql.sel_where := Sql.CEq "s.status" 1 :: conds;
     Sql.sel_order := [];
     Sql.sel_limit := None;
     Sql.sel_offset := None |}.

Definition order_keys : list (string * bool) :=
  [("s.last_name", false); ("s.first_name", false)].

(** The request with other [page] and [limit] parameters. *)
Definition with_paging (q : query_string) (p l : Js.value) : query_string :=
  {| page := p; limit := l; school_id := school_id q;
     class_number := class_number q; section := section q;
     status := status q; search := search q |}.

(** The search condition, with the number of its first parameter. *)
Definition search_cond (n : nat) : Sql.cond :=
  Sql.CSearch [Sql.OCol "s.first_name"; Sql.OLit " "; Sql.OCol "s.last_name"] n
    "s.admission_no" (S n).









End Students.

(** *** routes/schools.js *)

Module Schools.

Record query_string : Type := {
  page : Js.value;
  limit : Js.value;
  district_id : Js.value;
  block_id : Js.value;
  status : Js.value;
  search : Js.value
}.

Definition select_from_where : string :=
  lines ["";
         "      SELECT s.school_id, s.school_code, s.name, s.address, s.phone, s.email,";
         "             s.total_students, s.total_teachers, s.status, s.established_year,";
         "             s.facilities, d.name as district_name, b.name as block_name";
         "      FROM schools s";
         "      JOIN blocks b ON b.block_id = s.block_id";
         "      JOIN districts d ON d.district_id = b.district_id";
         "      WHERE s.status = $1";
         "    "].

Definition order_clause : string := " ORDER BY s.name LIMIT $".

Definition filters (q : query_string) : builder :=
  let status := Js.default (status q) (Js.Str "Active") in
  let b := {| query := select_from_where; params := [status]; paramCount := 1 |} in
  let b := and_equals " AND d.district_id = $" (district_id q) b in
  let b := and_equals " AND b.block_id = $" (block_id q) b in
  and_search " AND (s.name ILIKE $" " OR s.school_code ILIKE $" (search q) b.

(** [router.get('/', ...)] *)
Definition get_list (db : Sql.database) (q : query_string) : response :=
  catch "Failed to fetch schools"
    (let page := Js.default (page q) (Js.Num (Js.Int 1)) in
     let limit := Js.default (limit q) (Js.Num (Js.Int 20)) in
     let offset := offset_of page limit in
     count_and_page db (filters q) order_clause page limit offset).

(** What the engine reads in the list statement, given the conditions after
    the first. *)
Definition statement (conds : list Sql.cond) : Sql.select :=
  {| Sql.sel_items :=
       map (fun c => Sql.ICol c None)
         ["s.school_id"; "s.school_code"; "s.name"; "s.address"; "s.phone";
          "s.email"; "s.total_students"; "s.total_teachers"; "s.status";
          "s.established_year"; "s.facilities"]
       ++ [Sql.ICol "d.name" (Some "district_name");
           Sql.ICol "b.name" (Some "block_name")];
     Sql.sel_table := "schools";
     Sql.sel_alias := "s";
     Sql.sel_joins :=
       [{| Sql.j_table := "blocks"; Sql.j_alias := "b";
           Sql.j_left := "b.block_id"; Sql.j_right := "s.block_id" |};
        {| Sql.j_table := "districts"; Sql.j_alias := "d";
           Sql.j_left := "d.district_id"; Sql.j_right := "b.district_id" |}];
     Sql.sel_where := Sql.CEq "s.status" 1 :: conds;
     Sql.sel_order := [];
     Sql.sel_limit := None;
     Sql.sel_offset := None |}.

Definition order_keys : list (string * bool) := [("s.name", false)].

(** The request with other [page] and [limit] parameters. *)
Definition with_paging (q : query_string) (p l : Js.value) : query_string :=
  {| page := p; limit := l; district_id := district_id q;
     block_id := block_id q; status := status q; search := search q |}.

(** The search condition, with the number of its first parameter. *)
Definition search_cond (n : nat) : Sql.cond :=
  Sql.CSearch [Sql.OCol "s.name"] n "s.school_code" (S n).

End Schools.

(** ** The browser side

    One browser tab: the portal object of web/js/app.js, the dashboard
    manager of web/js/dashboard.js, the parts of the document they read and
    write, the clock and the network.  An async method is run to its end
    before the next event is taken; the time its requests take is added to
    the clock.  What is written into an element is recorded as the data it
    was rendered from, not as markup text. *)

Module Client.

(** A parsed response body. *)
Definition payload : Type := string.

(** A value of [this.cache]. *)
Record cache_entry : Type := {
  data : payload;
  timestamp : Z
}.

(** What [fetch] and [response.json()] will give. *)
Inductive outcome : Type :=
| NetworkError (message : string)
| Http (ok : bool) (status : nat) (statusText : string) (body : option payload).

Record reply : Type := {
  latency : N;
  answer : outcome
}.

(** The closures handed to [setTimeout] and [setInterval]. *)
Inductive callback : Type :=
| InitDone        (* init: hideLoadingScreen, loadDashboard, startRealTimeSync *)
| SyncTick        (* startRealTimeSync *)
| PollTick        (* setupRealTimeUpdates *)
| RetryUpdate     (* handleUpdateError: this.updateDashboardData() *)
| SyncColorReset. (* updateSyncStatus *)

Record timer : Type := {
  delay : Z;
  repeating : bool;
  action : callback
}.

(** What an element shows. *)
Inductive markup : Type :=
| Text (s : string)
| LastSyncAt (time : Z)
| KpiCards (stats : payload)
| SystemStatus (stats : payload)
| SchoolRows (response : payload)
| StudentRows (response : payload)
| PageControls (section : string) (response : payload)
| AnalyticsCards.

Record world : Type := {
  (* the environment *)
  clock : Z;
  replies : list reply;
  requests : list string;
  hostname : string;
  (* the portal object *)
  API_BASE : string;
  currentPage : gmap string Js.value;
  cache : gmap string cache_entry;
  (* the dashboard manager *)
  realTimeUpdates : bool;
  intervalId : option nat;
  (* the document *)
  nav_items : gset string;
  active_nav : option string;
  active_content : option string;
  content : gmap string markup;
  inputs : gmap string string;
  loading : gset string;
  hidden : gset string;
  sync_color : string;
  (* the event loop *)
  timers : list timer;
  console : list string
}.

Definition with_env (w : world) (c : Z) (rs : list reply) (qs : list string) : world :=
  {| clock := c; replies := rs; requests := qs; hostname := hostname w;
     API_BASE := API_BASE w; currentPage := currentPage w; cache := cache w;
     realTimeUpdates := realTimeUpdates w; intervalId := intervalId w;
     nav_items := nav_items w; active_nav := active_nav w;
     active_content := active_content w; content := content w;
     inputs := inputs w; loading := loading w; hidden := hidden w;
     sync_color := sync_color w; timers := timers w; console := console w |}.

Definition with_currentPage (w : world) (m : gmap string Js.value) : world :=
  {| clock := clock w; replies := replies w; requests := requests w;
     hostname := hostname w; API_BASE := API_BASE w; currentPage := m;
     cache := cache w; realTimeUpdates := realTimeUpdates w;
     intervalId := intervalId w; nav_items := nav_items w;
     active_nav := active_nav w; active_content := active_content w;
     content := content w; inputs := inputs w; loading := loading w;
     hidden := hidden w; sync_color := sync_color w; timers := timers w;
     console := console w |}.

Definition with_cache (w : world) (m : gmap string cache_entry) : world :=
  {| clock := clock w; replies := replies w; requests := requests w;
     hostname := hostname w; API_BASE := API_BASE w;
     currentPage := currentPage w; cache := m;
     realTimeUpdates := realTimeUpdates w; intervalId := intervalId w;
     nav_items := nav_items w; active_nav := active_nav w;
     active_content := active_content w; content := content w;
     inputs := inputs w; loading := loading w; hidden := hidden w;
     sync_color := sync_color w; timers := timers w; console := console w |}.

Definition with_nav (w : world) (nav sect : option string) : world :=
  {| clock := clock w; replies := replies w; requests := requests w;
     hostname := hostname w; API_BASE := API_BASE w;
     currentPage := currentPage w; cache := cache w;
     realTimeUpdates := realTimeUpdates w; intervalId := intervalId w;
     nav_items := nav_items w; active_nav := nav; active_content := sect;
     content := content w; inputs := inputs w; loading := loading w;
     hidden := hidden w; sync_color := sync_color w; timers := timers w;
     console := console w |}.

Definition with_content (w : world) (m : gmap string markup) : world :=
  {| clock := clock w; replies := replies w; requests := requests w;
     hostname := hostname w; API_BASE := API_BASE w;
     currentPage := currentPage w; cache := cache w;
     realTimeUpdates := realTimeUpdates w; intervalId := intervalId w;
     nav_items := nav_items w; active_nav := active_nav w;
     active_content := active_content w; content := m; inputs := inputs w;
     loading := loading w; hidden := hidden w; sync_color := sync_color w;
     timers := timers w; console := console w |}.

Definition with_classes (w : world) (l h : gset string) : world :=
  {| clock := clock w; replies := replies w; requests := requests w;
     hostname := hostname w; API_BASE := API_BASE w;
     currentPage := currentPage w; cache := cache w;
     realTimeUpdates := realTimeUpdates w; intervalId := intervalId w;
     nav_items := nav_items w; active_nav := active_nav w;
     active_content := active_content w; content := content w;
     inputs := inputs w; loading := l; hidden := h;
     sync_color := sync_color w; timers := timers w; console := console w |}.

Definition with_sync_color (w : world) (c : string) : world :=
  {| clock := clock w; replies := replies w; requests := requests w;
     hostname := hostname w; API_BASE := API_BASE w;
     currentPage := currentPage w; cache := cache w;
     realTimeUpdates := realTimeUpdates w; intervalId := intervalId w;
     nav_items := nav_items w; active_nav := active_nav w;
     active_content := active_content w; content := content w;
     inputs := inputs w; loading := loading w; hidden := hidden w;
     sync_color := c; timers := timers w; console := console w |}.

Definition with_timers (w : world) (ts : list timer) (id : option nat) : world :=
  {| clock := clock w; replies := replies w; requests := requests w;
     hostname := hostname w; API_BASE := API_BASE w;
     currentPage := currentPage w; cache := cache w;
     realTimeUpdates := realTimeUpdates w; intervalId := id;
     nav_items := nav_items w; active_nav := active_nav w;
     active_content := active_content w; content := content w;
     inputs := inputs w; loading := loading w; hidden := hidden w;
     sync_color := sync_color w; timers := ts; console := console w |}.

Definition with_console (w : world) (c : list string) : world :=
  {| clock := clock w; replies := replies w; requests := requests w;
     hostname := hostname w; API_BASE := API_BASE w;
     currentPage := currentPage w; cache := cache w;
     realTimeUpdates := realTimeUpdates w; intervalId := intervalId w;
     nav_items := nav_items w; active_nav := active_nav w;
     active_content := active_content w; content := content w;
     inputs := inputs w; loading := loading w; hidden := hidden w;
     sync_color := sync_color w; timers := timers w; console := c |}.

(** Time passing between two events. *)
Definition advance (ms : N) (w : world) : world :=
  with_env w (clock w + Z.of_N ms) (replies w) (requests w).

(** *** Code that reads and writes the tab, and may throw *)

Definition M (A : Type) : Type := world -> world * result A.

Definition ret {A} (a : A) : M A := fun w => (w, Ok a).

Definition throw {A} (msg : string) : M A := fun w => (w, Err msg).

Definition bind {A B} (m : M A) (k : A -> M B) : M B :=
  fun w =>
    match m w with
    | (w', Ok a) => k a w'
    | (w', Err e) => (w', Err e)
    end.

Notation "'let*' x := m 'in' k" := (bind m (fun x => k))
  (at level 10, x name, m at level 100, k at level 200).
Notation "m ;; k" := (bind m (fun _ => k))
  (at level 100, k at level 200, right associativity).

(** [try { body } catch (error) { handler(error) }] *)
Definition try_catch {A} (body : M A) (handler : string -> M A) : M A :=
  fun w =>
    match body w with
    | (w', Ok a) => (w', Ok a)
    | (w', Err e) => handler e w'
    end.

(** [try { body } finally { cleanup }] *)
Definition finally {A} (body : M A) (cleanup : M unit) : M A :=
  fun w =>
    match body w with
    | (w', r) =>
        match cleanup w' with
        | (w'', Ok _) => (w'', r)
        | (w'', Err e) => (w'', Err e)
        end
    end.

Definition get {A} (f : world -> A) : M A := fun w => (w, Ok (f w)).
Definition modify (f : world -> world) : M unit := fun w => (f w, Ok tt).

Definition log (line : string) : M unit :=
  modify (fun w => with_console w (console w ++ [line])).

(** [document.getElementById(id).innerHTML = m], which throws when there
    is no such element. *)
Definition set_content (id : string) (m : markup) : M unit :=
  fun w =>
    match content w !! id with
    | Some _ => (with_content w (<[id := m]> (content w)), Ok tt)
    | None => (w, Err "Cannot set properties of null")
    end.

(** [document.getElementById(id)?.value] *)
Definition input_value (id : string) : M (option string) :=
  get (fun w => inputs w !! id).

Definition setTimeout (cb : callback) (ms : Z) : M unit :=
  modify (fun w =>
    with_timers w (timers w ++ [{| delay := ms; repeating := false; action := cb |}])
      (intervalId w)).

(** [setInterval]; the id it returns is the position of the timer. *)
Definition setInterval (cb : callback) (ms : Z) : M nat :=
  fun w =>
    (with_timers w (timers w ++ [{| delay := ms; repeating := true; action := cb |}])
       (intervalId w),
     Ok (S (length (timers w)))).

(** *** web/js/app.js *)

Fixpoint includes (needle hay : string) : bool :=
  match Js.strip_prefix needle hay with
  | Some _ => true
  | None =>
      match hay with
      | String _ hay' => includes needle hay'
      | EmptyString => false
      end
  end.

Definition getApiBase (host : string) : string :=
  if String.eqb host "localhost" || includes "github.dev" host
  then "http://localhost:3000/api"
  else "https://your-api-domain.com/api".

(** [fetchApi(endpoint)] *)
Definition fetchApi (endpoint : string) : M payload :=
  fun w =>
    let url := API_BASE w +:+ endpoint in
    match replies w with
    | [] => (with_env w (clock w) [] (requests w ++ [url]), Err "Failed to fetch")
    | r :: rest =>
        let w' := with_env w (clock w + Z.of_N (latency r)) rest (requests w ++ [url]) in
        match answer r with
        | NetworkError msg => (w', Err msg)
        | Http ok status statusText body =>
            if ok then
              match body with
              | Some p => (w', Ok p)
              | None => (w', Err "Unexpected end of JSON input")
              end
            else (w', Err ("HTTP " +:+ dec_of_nat status +:+ ": " +:+ statusText))
        end
    end.

(** [fetchWithCache(endpoint, ttl = 30000)] *)
Definition fetchWithCache (endpoint : string) (ttl : Z) : M payload :=
  let cacheKey := endpoint in
  let* cached := get (fun w => cache w !! cacheKey) in
  let* now := get clock in
  let fresh :=
    match cached with
    | Some c => (now - timestamp c <? ttl)%Z
    | None => false
    end in
  match cached, fresh with
  | Some c, true => ret (data c)
  | _, _ =>
      let* d := fetchApi endpoint in
      modify (fun w =>
        with_cache w (<[cacheKey := {| data := d; timestamp := clock w |}]> (cache w)));;
      ret d
  end.

Definition default_ttl : Z := 30000.

Definition setLoadingState (section : string) (isLoading : bool) : M unit :=
  fun w =>
    match content w !! section with
    | Some _ =>
        (with_classes w
           (if isLoading then {[section]} ∪ loading w else loading w ∖ {[section]})
           (hidden w), Ok tt)
    | None => (w, Err "Cannot read properties of null (reading 'classList')")
    end.

(** [handleError(message, error)] *)
Definition handleError (message error : string) : M unit :=
  log (message +:+ " " +:+ error).

Definition updateLastSync : M unit :=
  let* now := get clock in set_content "lastSync" (LastSyncAt now).

(** [Promise.all([a, b])] of two calls that each start at once: both run,
    and the first failure is the one reported.  The two calls are run one
    after the other: the requests are in the order of the source, and the
    times stored with the cache entries are those of a sequential run. *)
Definition both {A B} (a : M A) (b : M B) : M (A * B) :=
  fun w =>
    match a w with
    | (w1, ra) =>
        match b w1 with
        | (w2, rb) =>
            (w2, match ra, rb with
                 | Ok x, Ok y => Ok (x, y)
                 | Err e, _ => Err e
                 | _, Err e => Err e
                 end)
        end
    end.

Definition loadDashboard : M unit :=
  finally
    (try_catch
       (setLoadingState "dashboard" true;;
        let* sk := both (fetchWithCache "/dashboard/stats" default_ttl)
                        (fetchWithCache "/dashboard/kpis" default_ttl) in
        set_content "kpiGrid" (KpiCards (fst sk));;
        set_content "systemStatus" (SystemStatus (fst sk));;
        updateLastSync)
       (handleError "Failed to load dashboard"))
    (setLoadingState "dashboard" false).

Definition hex_digit (n : nat) : ascii :=
  ascii_of_nat (if (n <? 10)%nat then 48 + n else 55 + n).

Definition percent (n : nat) : string :=
  String "%" (String (hex_digit (n / 16)) (String (hex_digit (n mod 16)) "")).

(** The form encoding of [URLSearchParams]: letters, digits and [*-._] stay,
    a space becomes [+], every other byte of the UTF-8 form is escaped. *)
Fixpoint form_encode (s : string) : string :=
  match s with
  | EmptyString => EmptyString
  | String c s' =>
      let n := nat_of_ascii c in
      let here :=
        if Sql.is_word_char c && negb (n =? 36)%nat || (n =? 45)%nat then String c ""
        else if (n =? 32)%nat then "+"
        else if (n <? 128)%nat then percent n
        else percent (192 + n / 64) +:+ percent (128 + n mod 64) in
      here +:+ form_encode s'
  end.

Fixpoint search_params (ps : list (string * string)) : string :=
  match ps with
  | [] => ""
  | [(k, v)] => form_encode k +:+ "=" +:+ form_encode v
  | (k, v) :: ps' => form_encode k +:+ "=" +:+ form_encode v +:+ "&" +:+ search_params ps'
  end.

(** [if (v) params.append(name, v)] for the value of an input that may be
    missing. *)
Definition append_if (name : string) (v : option string) (ps : list (string * string))
  : list (string * string) :=
  match v with
  | Some s => if String.eqb s "" then ps else ps ++ [(name, s)]
  | None => ps
  end.

Definition page_of (w : world) (section : string) : string :=
  match currentPage w !! section with
  | Some v => Js.to_string v
  | None => "undefined"
  end.

(** The two list loads.  [renderSchoolsTable] and [renderPagination] are
    taken as two writes of the response body.  A rendering that throws on
    the body (see [renderPagination]) throws inside the same [try], so the
    request sent, the cache and the way a load ends are as in the source;
    what the two elements hold after a load is not. *)
Definition loadSchools : M unit :=
  finally
    (try_catch
       (setLoadingState "schools" true;;
        let* page := get (fun w => page_of w "schools") in
        let params := [("page", page); ("limit", "20")] in
        let* search := input_value "schoolSearch" in
        let params := append_if "search" search params in
        let* district := input_value "districtFilter" in
        let params := append_if "district_id" district params in
        let* response := fetchApi ("/schools?" +:+ search_params params) in
        set_content "schoolsTableBody" (SchoolRows response);;
        set_content "schoolsPagination" (PageControls "schools" response))
       (handleError "Failed to load schools"))
    (setLoadingState "schools" false).

Definition loadStudents : M unit :=
  finally
    (try_catch
       (setLoadingState "students" true;;
        let* page := get (fun w => page_of w "students") in
        let params := [("page", page); ("limit", "50")] in
        let* search := input_value "studentSearch" in
        let params := append_if "search" search params in
        let* school := input_value "schoolFilter" in
        let params := append_if "school_id" school params in
        let* classNum := input_value "classFilter" in
        let params := append_if "class_number" classNum params in
        let* response := fetchApi ("/students?" +:+ search_params params) in
        set_content "studentsTableBody" (StudentRows response);;
        set_content "studentsPagination" (PageControls "students" response))
       (handleError "Failed to load students"))
    (setLoadingState "students" false).

Definition loadAnalytics : M unit :=
  set_content "performanceMetrics" AnalyticsCards;;
  set_content "dataQuality" AnalyticsCards.

(** [changePage(section, newPage)] *)
Definition changePage (section : string) (newPage : Js.value) : M unit :=
  modify (fun w => with_currentPage w (<[section := newPage]> (currentPage w)));;
  if String.eqb section "schools" then loadSchools
  else if String.eqb section "students" then loadStudents
  else ret tt.

Definition searchSchools : M unit :=
  modify (fun w =>
    with_currentPage w (<["schools" := Js.Num (Js.Int 1)]> (currentPage w)));;
  loadSchools.

Definition searchStudents : M unit :=
  modify (fun w =>
    with_currentPage w (<["students" := Js.Num (Js.Int 1)]> (currentPage w)));;
  loadStudents.

(** [showSection(sectionName)] *)
Definition showSection (sectionName : string) : M unit :=
  modify (fun w => with_nav w None (active_content w));;
  let* known := get (fun w => bool_decide (sectionName ∈ nav_items w)) in
  (if known then modify (fun w => with_nav w (Some sectionName) None)
   else throw "Cannot read properties of null (reading 'classList')");;
  let* present := get (fun w => content w !! sectionName) in
  match present with
  | None => throw "Cannot read properties of null (reading 'classList')"
  | Some _ =>
      modify (fun w => with_nav w (active_nav w) (Some sectionName));;
      if String.eqb sectionName "dashboard" then loadDashboard
      else if String.eqb sectionName "schools" then loadSchools
      else if String.eqb sectionName "students" then loadStudents
      else if String.eqb sectionName "analytics" then loadAnalytics
      else ret tt
  end.

(** [document.querySelector('.nav-item.active').dataset.section] *)
Definition active_section : M string :=
  let* nav := get active_nav in
  match nav with
  | Some s => ret s
  | None => throw "Cannot read properties of null (reading 'dataset')"
  end.

Definition refreshCurrentSection : M unit :=
  let* activeSection := active_section in
  modify (fun w => with_cache w ∅);;
  showSection activeSection.

Definition startRealTimeSync : M unit :=
  let* _ := setInterval SyncTick 30000 in ret tt.

Definition hideLoadingScreen : M unit :=
  modify (fun w =>
    with_classes w (loading w) ({["loadingScreen"]} ∪ hidden w ∖ {["mainApp"]})).

(** *** web/js/dashboard.js *)

Definition isOnDashboard : M bool :=
  get (fun w => match active_nav w with
                | Some s => String.eqb s "dashboard"
                | None => false
                end).

(** The animation of the cards and of the counters is left out, and with it
    the timers it sets. *)
Definition updateKPIsAnimated : M unit :=
  try_catch
    (let* stats := fetchWithCache "/dashboard/stats" 5000 in ret tt)
    (fun error => log ("KPI update failed: " +:+ error)).

Definition updateChartsData : M unit :=
  try_catch
    (let* kpiData := fetchWithCache "/dashboard/kpis" 10000 in ret tt)
    (fun error => log ("Chart update failed: " +:+ error)).

Definition updateSystemMetrics : M unit :=
  try_catch (ret tt)
    (fun error => log ("System metrics update failed: " +:+ error)).

(** [updateSyncStatus(timestamp)] *)
Definition updateSyncStatus (timestamp : Z) : M unit :=
  let* syncElement := get (fun w => content w !! "lastSync") in
  match syncElement with
  | Some _ =>
      set_content "lastSync" (LastSyncAt timestamp);;
      modify (fun w => with_sync_color w "#10b981");;
      setTimeout SyncColorReset 2000
  | None => ret tt
  end.

Definition sync_failed : string := "Sync failed - Retrying...".

(** [handleUpdateError(error)] *)
Definition handleUpdateError (error : string) : M unit :=
  log ("Dashboard update error: " +:+ error);;
  let* syncElement := get (fun w => content w !! "lastSync") in
  (match syncElement with
   | Some _ =>
       set_content "lastSync" (Text sync_failed);;
       modify (fun w => with_sync_color w "#ef4444")
   | None => ret tt
   end);;
  setTimeout RetryUpdate 10000.

(** The statements inside the [try] of [updateDashboardData]. *)
Definition update_cycle : M unit :=
  let* timestamp := get clock in
  log "Real-time update";;
  updateKPIsAnimated;;
  updateChartsData;;
  updateSystemMetrics;;
  updateSyncStatus timestamp.

(** [updateDashboardData()], over the statements of its [try] block. *)
Definition updateDashboardData_of (cycle : M unit) : M unit :=
  try_catch cycle
    (fun error => log ("Real-time update failed: " +:+ error);; handleUpdateError error).

Definition updateDashboardData : M unit := updateDashboardData_of update_cycle.

(** *** Events *)

(** What a timer does when it fires. *)
Definition fire (cb : callback) : M unit :=
  match cb with
  | InitDone => hideLoadingScreen;; loadDashboard;; startRealTimeSync
  | SyncTick =>
      let* s := active_section in
      if String.eqb s "dashboard" then loadDashboard else ret tt
  | PollTick =>
      let* enabled := get realTimeUpdates in
      let* on := isOnDashboard in
      if enabled && on then updateDashboardData else ret tt
  | RetryUpdate => updateDashboardData
  | SyncColorReset => modify (fun w => with_sync_color w "#64748b")
  end.

(** What the user and the event loop can do to the tab. *)
Inductive event : Type :=
| ClickNav (section : string)
| ClickRefresh
| ClickSearchSchools
| ClickSearchStudents
| KeypressSchoolSearch (key : string)
| KeypressStudentSearch (key : string)
| ClickPageControl (section : string) (newPage : Js.value)
| TimerFires (cb : callback)
| TimePasses (ms : N).

Definition handle (e : event) : M unit :=
  match e with
  | ClickNav section => showSection section
  | ClickRefresh => refreshCurrentSection
  | ClickSearchSchools => searchSchools
  | ClickSearchStudents => searchStudents
  | KeypressSchoolSearch key =>
      if String.eqb key "Enter" then searchSchools else ret tt
  | KeypressStudentSearch key =>
      if String.eqb key "Enter" then searchStudents else ret tt
  | ClickPageControl section newPage => changePage section newPage
  | TimerFires cb => fire cb
  | TimePasses ms => modify (advance ms)
  end.

(** *** Notions used in the statements about the tab *)

(** [m] never changes the field [f] of the world. *)
Definition keeps {A B} (f : world -> B) (m : M A) : Prop :=
  forall w, f (m w).1 = f w.

(** The field [currentPage] after an event. *)
Definition currentPage_after (e : event) (w : world) : gmap string Js.value :=
  match e with
  | ClickPageControl section newPage => <[section := newPage]> (currentPage w)
  | ClickSearchSchools => <["schools" := Js.Num (Js.Int 1)]> (currentPage w)
  | ClickSearchStudents => <["students" := Js.Num (Js.Int 1)]> (currentPage w)
  | KeypressSchoolSearch key =>
      if String.eqb key "Enter"
      then <["schools" := Js.Num (Js.Int 1)]> (currentPage w) else currentPage w
  | KeypressStudentSearch key =>
      if String.eqb key "Enter"
      then <["students" := Js.Num (Js.Int 1)]> (currentPage w) else currentPage w
  | _ => currentPage w
  end.

(** The entry of [endpoint], if there is one, is at least [ttl] old. *)
Definition stale (endpoint : string) (ttl : Z) (w : world) : Prop :=
  match cache w !! endpoint with
  | Some c => (ttl <= clock w - timestamp c)%Z
  | None => True
  end.

(** The timer that [handleUpdateError] sets. *)
Definition retry_timer : timer :=
  {| delay := 10000; repeating := false; action := RetryUpdate |}.

(** The timer that [updateSyncStatus] sets. *)
Definition color_reset : timer :=
  {| delay := 2000; repeating := false; action := SyncColorReset |}.

End Client.

(** ** The page controls of web/js/app.js *)

(** A number field of a parsed response body; [null] is what [res.json]
    writes for NaN and for the infinities. *)
Inductive json_number : Type :=
| JNull
| JNum (z : Z).

Definition json_of (n : Js.num) : json_number :=
  match n with
  | Js.Int z => JNum z
  | _ => JNull
  end.

(** ToNumber, as applied by [-], [+], [<=], [>=], [Math.max] and
    [Math.min] to a field that is a number or [null]. *)
Definition number_of (j : json_number) : Z :=
  match j with
  | JNull => 0
  | JNum z => z
  end.

(** [i === page] for a number [i]. *)
Definition strict_eq (i : Z) (j : json_number) : bool :=
  match j with
  | JNum z => (i =? z)%Z
  | JNull => false
  end.

(** A button of the pagination bar, with the page its [onclick] passes to
    [app.changePage]. *)
Inductive control : Type :=
| Previous (disabled : bool) (newPage : Z)
| PageButton (active : bool) (newPage : Z)
| Next (disabled : bool) (newPage : Z).

Definition newPage_of (c : control) : Z :=
  match c with
  | Previous _ n | PageButton _ n | Next _ n => n
  end.

(** A disabled button fires no click. *)
Definition clickable (c : control) : bool :=
  match c with
  | Previous d _ | Next d _ => negb d
  | PageButton _ _ => true
  end.

Definition is_active (c : control) : bool :=
  match c with
  | PageButton a _ => a
  | _ => false
  end.

(** [for (let i = startPage; i <= endPage; i++)] *)
Definition pages_between (startPage endPage : Z) : list Z :=
  map (fun k => (startPage + Z.of_nat k)%Z) (seq 0 (Z.to_nat (endPage - startPage + 1))).

(** [renderPagination(section, pagination)]: the buttons and the total that
    are written into the container, or the error thrown before the write. *)
Definition renderPagination (page pages total : json_number)
  : result (list control * Z) :=
  let previous := Previous (number_of page <=? 1)%Z (number_of page - 1) in
  let startPage := Z.max 1 (number_of page - 2) in
  let endPage := Z.min (number_of pages) (number_of page + 2) in
  let numbers :=
    map (fun i => PageButton (strict_eq i page) i) (pages_between startPage endPage) in
  let next := Next (number_of pages <=? number_of page)%Z (number_of page + 1) in
  match total with
  | JNull => Err "Cannot read properties of null (reading 'toLocaleString')"
  | JNum t => Ok (previous :: numbers ++ [next], t)
  end.

(** ** The life cycle of the dashboard manager, web/js/dashboard.js *)

Module Manager.

(** The manager's [intervalId], the poll intervals and the notification
    intervals that are set and not cleared, the keys of [this.charts] that
    hold a chart, and the number of timer ids the page has handed out; an id
    is positive. *)
Record state : Type := {
  intervalId : option nat;
  polling : gset nat;
  notifying : gset nat;
  charts : gset string;
  issued : nat
}.

(** [new DashboardManager(app)] before [init()] *)
Definition created (n : nat) : state :=
  {| intervalId := None; polling := ∅; notifying := ∅; charts := ∅; issued := n |}.

(** [if (this.intervalId) clearInterval(this.intervalId)] *)
Definition clear_own (st : state) : gset nat :=
  match intervalId st with
  | Some (S n) => polling st ∖ {[S n]}
  | _ => polling st
  end.

(** [setupRealTimeUpdates()] *)
Definition setupRealTimeUpdates (st : state) : state :=
  let id := S (issued st) in
  {| intervalId := Some id; polling := {[id]} ∪ clear_own st;
     notifying := notifying st; charts := charts st; issued := id |}.

(** [setupAdvancedCharts()]: the three charts are made when the page has a
    [.charts-section]; the attendance chart is not made again when its
    canvas is there. *)
Definition setupAdvancedCharts (container existingCanvas : bool) (st : state) : state :=
  let c1 := if container then {["performance"]} ∪ charts st else charts st in
  let c2 := if existingCanvas then c1
            else if container then {["attendance"]} ∪ c1 else c1 in
  let c3 := if container then {["district"]} ∪ c2 else c2 in
  {| intervalId := intervalId st; polling := polling st;
     notifying := notifying st; charts := c3; issued := issued st |}.

(** [setupWebSocket()], that is [simulateWebSocketUpdates()]: the id of
    its interval is not kept. *)
Definition simulateWebSocketUpdates (st : state) : state :=
  let id := S (issued st) in
  {| intervalId := intervalId st; polling := polling st;
     notifying := {[id]} ∪ notifying st; charts := charts st; issued := id |}.

(** [init()] *)
Definition init (container existingCanvas : bool) (st : state) : state :=
  simulateWebSocketUpdates
    (setupAdvancedCharts container existingCanvas (setupRealTimeUpdates st)).

(** [destroy()] *)
Definition destroy (st : state) : state :=
  {| intervalId := intervalId st; polling := clear_own st;
     notifying := notifying st; charts := ∅; issued := issued st |}.

(** A timer set by other code of the page. *)
Definition other_timer (st : state) : state :=
  {| intervalId := intervalId st; polling := polling st;
     notifying := notifying st; charts := charts st; issued := S (issued st) |}.

Inductive call : Type :=
| Init (container existingCanvas : bool)
| Setup
| Destroy
| OtherTimer.

Definition step (st : state) (c : call) : state :=
  match c with
  | Init container existingCanvas => init container existingCanvas st
  | Setup => setupRealTimeUpdates st
  | Destroy => destroy st
  | OtherTimer => other_timer st
  end.

Definition run (calls : list call) (st : state) : state := fold_left step calls st.

(** The chart methods that [updateChartsData] calls. *)
Inductive chart_update : Type :=
| UpdateEnrollmentChart
| UpdateAttendanceChart.

(** The statements of [updateChartsData] after its fetch: the calls made,
    in order, and how the [try] block ends; the class has no method
    [updateDistrictChart]. *)
Definition chart_updates (st : state) : list chart_update * result unit :=
  let enrollment :=
    if bool_decide ("enrollment" ∈ charts st) then [UpdateEnrollmentChart] else [] in
  let attendance :=
    if bool_decide ("attendance" ∈ charts st) then [UpdateAttendanceChart] else [] in
  (enrollment ++ attendance,
   if bool_decide ("district" ∈ charts st)
   then Err "this.updateDistrictChart is not a function"
   else Ok tt).

(** The handler of [DOMContentLoaded]: the start time is stored when none
    is. *)
Definition remember_start (stored : option string) (now : Z) : option string :=
  match stored with
  | Some s => if String.eqb s "" then Some (dec_of_Z now) else Some s
  | None => Some (dec_of_Z now)
  end.

(** [getUptime()] *)
Definition getUptime (stored : option string) (now : Z) : Js.num :=
  let startTime :=
    match stored with
    | Some s => if String.eqb s "" then Js.Num (Js.Int now) else Js.Str s
    | None => Js.Num (Js.Int now)
    end in
  Js.sub (Js.Int now) (Js.parseInt startTime).

End Manager.

(** ** Notions used in the statements about the routes *)

(** The number of rows and the envelope of a list response. *)
Definition length_and_envelope (r : response) : option (nat * pagination) :=
  match r with
  | ListOk data p => Some (length data, p)
  | _ => None
  end.



(** ** Notions used in the statements about numerals and listings *)

(** Every character of the string satisfies [p]. *)
Fixpoint all_chars (p : ascii -> bool) (s : string) : bool :=
  match s with
  | EmptyString => true
  | String c s' => p c && all_chars p s'
  end.

(** The last decimal digit of [n], as a character. *)
Definition digit_char (n : nat) : ascii := ascii_of_nat (48 + n mod 10).

(** The shape of a decimal numeral. *)
Inductive numeral : string -> Prop :=
| numeral_one c : is_digit c = true -> numeral (String c "")
| numeral_more c s d :
    is_digit c = true -> all_chars is_digit s = true -> is_digit d = true ->
    numeral (String c (s +:+ String d "")).

(** [Number.MAX_SAFE_INTEGER] *)
Definition max_safe_integer : Z := 9007199254740991.

(** The rows the data statement of a list route would give without its
    LIMIT and OFFSET, in the order of its ORDER BY; empty when the engine
    refuses the statement. *)
Definition listing (db : Sql.database) (text : string) (ps : list Js.value)
    (keys : list (string * bool)) : list Sql.row :=
  match Sql.parse text with
  | Some q =>
      match Sql.check db q ps with
      | Ok pl =>
          map (Sql.project db (Sql.pl_scope pl) q)
            (Sql.sort_by (Sql.env_le keys) (Sql.matching db q ps))
      | Err _ => []
      end
  | None => []
  end.

Definition schools_listing (db : Sql.database) (q : Schools.query_string) : list Sql.row :=
  listing db (query (Schools.filters q)) (params (Schools.filters q)) Schools.order_keys.

Definition students_listing (db : Sql.database) (q : Students.query_string) : list Sql.row :=
  listing db (query (Students.filters q)) (params (Students.filters q)) Students.order_keys.

(** The envelope the list routes send for page [p] and limit [l]. *)
Definition envelope (p l : Z) : pagination :=
  {| pg_page := Js.Int p; pg_limit := Js.Int l; pg_total := Js.NaN; pg_pages := Js.NaN |}.

(** The page [p] of [l] rows of a listing. *)
Definition page_of_rows {A} (p l : Z) (rows : list A) : list A :=
  firstn (Z.to_nat l) (skipn (Z.to_nat ((p - 1) * l)) rows).

(** The text of the status a list request asks for. *)
Definition schools_status (q : Schools.query_string) : option string :=
  Sql.bind (Js.default (Schools.status q) (Js.Str "Active")).

Definition students_status (q : Students.query_string) : option string :=
  Sql.bind (Js.default (Students.status q) (Js.Str "Active")).

(** What [s.first_name || ' ' || s.last_name] is on a returned row; NULL
    when either name is. *)
Definition students_full_name (r : Sql.row) : option string :=
  match Sql.text_of (Sql.column "first_name" r), Sql.text_of (Sql.column "last_name" r) with
  | Some a, Some b => Some (a +:+ " " +:+ b)
  | _, _ => None
  end.

(** The pattern a search text is bound as. *)
Definition search_pattern (s : string) : option string := Some ("%" +:+ s +:+ "%").

(** ** Sample databases

    A catalog with the columns the routes name, and a few rows, for the
    statements that are checked on concrete requests. *)

Module Sample.

Import Sql.

Definition ints (names : list string) : list (string * kind) :=
  map (fun n => (n, KInt)) names.

Definition texts (names : list string) : list (string * kind) :=
  map (fun n => (n, KText)) names.

Definition district_columns : list (string * kind) :=
  ints ["district_id"] ++ texts ["name"].

Definition block_columns : list (string * kind) :=
  ints ["block_id"] ++ texts ["name"] ++ ints ["district_id"].

Definition school_columns : list (string * kind) :=
  ints ["school_id"] ++ texts ["school_code"; "name"; "address"; "phone"; "email"]
  ++ ints ["total_students"; "total_teachers"] ++ texts ["status"]
  ++ ints ["established_year"] ++ texts ["facilities"] ++ ints ["block_id"].

Definition student_columns : list (string * kind) :=
  ints ["student_id"] ++ texts ["admission_no"] ++ ints ["roll_no"]
  ++ texts ["first_name"; "last_name"; "gender"] ++ [("date_of_birth", KDate)]
  ++ ints ["class_number"]
  ++ texts ["section"; "category"; "guardian_name"; "guardian_phone"; "status"]
  ++ ints ["school_id"].

Definition attendance_columns : list (string * kind) :=
  ints ["student_id"] ++ [("attendance_date", KDate)] ++ texts ["status"].

Definition district (id : Z) (name : string) : row :=
  [("district_id", VInt id); ("name", VText name)].

Definition block (id : Z) (name : string) (district_id : Z) : row :=
  [("block_id", VInt id); ("name", VText name); ("district_id", VInt district_id)].

Definition school (id : Z) (code name status : string) (block_id : Z) : row :=
  [("school_id", VInt id); ("school_code", VText code); ("name", VText name);
   ("address", VNull); ("phone", VNull); ("email", VNull);
   ("total_students", VInt 0); ("total_teachers", VInt 0);
   ("status", VText status); ("established_year", VNull);
   ("facilities", VNull); ("block_id", VInt block_id)].

Definition student (id : Z) (admission first last : string) (born school_id : Z) : row :=
  [("student_id", VInt id); ("admission_no", VText admission); ("roll_no", VNull);
   ("first_name", VText first); ("last_name", VText last); ("gender", VNull);
   ("date_of_birth", VDate born); ("class_number", VInt 5);
   ("section", VText "A"); ("category", VNull); ("guardian_name", VNull);
   ("guardian_phone", VNull); ("status", VText "Active");
   ("school_id", VInt school_id)].

Definition attendance (student_id day : Z) (status : string) : row :=
  [("student_id", VInt student_id); ("attendance_date", VDate day);
   ("status", VText status)].

(** One district and one block, with the given schools, students and
    attendance records. *)
Definition portal (schools students records : list row) : database :=
  {| db_tables :=
       [("districts", {| t_columns := district_columns;
                         t_rows := [district 1 "Khurda"] |});
        ("blocks", {| t_columns := block_columns;
                      t_rows := [block 1 "Bhubaneswar" 1] |});
        ("schools", {| t_columns := school_columns; t_rows := schools |});
        ("students", {| t_columns := student_columns; t_rows := students |});
        ("student_attendance", {| t_columns := attendance_columns;
                                  t_rows := records |})];
     db_today := 20240615 |}.

Definition three_schools : list row :=
  [school 1 "SC001" "Zenith Vidyalaya" "Active" 1;
   school 2 "SC002" "Adarsha High School" "Active" 1;
   school 3 "SC003" "Old Town School" "Inactive" 1].

(** Forty-five schools with [Public] in their names, and two without. *)
Definition public_schools : list row :=
  map (fun i => school (Z.of_nat i) ("PS" +:+ dec_of_nat i)
                  ("Public School " +:+ dec_of_nat i) "Active" 1)
      (seq 1 45)
  ++ [school 100 "SC100" "Zenith Vidyalaya" "Active" 1;
      school 101 "SC101" "Adarsha High School" "Active" 1].


Definition two_students : list row :=
  [student 7 "ADM007" "Asha" "Das" 20120820 1;
   student 8 "ADM008" "Bikash" "Rout" 20110301 2].

(** Twelve days of attendance for student 7, not in order of date, and one
    record for student 8. *)
Definition records : list row :=
  map (fun d => attendance 7 (20240600 + Z.of_nat d)
                  (if Nat.even d then "Present" else "Absent"))
      [3; 1; 12; 5; 8; 2; 11; 4; 10; 6; 9; 7]%nat
  ++ [attendance 8 20240612 "Present"].

Definition no_query : Schools.query_string :=
  {| Schools.page := Js.Undefined; Schools.limit := Js.Undefined;
     Schools.district_id := Js.Undefined; Schools.block_id := Js.Undefined;
     Schools.status := Js.Undefined; Schools.search := Js.Undefined |}.

Definition search_for (text : string) : Schools.query_string :=
  {| Schools.page := Js.Undefined; Schools.limit := Js.Undefined;
     Schools.district_id := Js.Undefined; Schools.block_id := Js.Undefined;
     Schools.status := Js.Undefined; Schools.search := Js.Str text |}.

Definition no_student_query : Students.query_string :=
  {| Students.page := Js.Undefined; Students.limit := Js.Undefined;
     Students.school_id := Js.Undefined; Students.class_number := Js.Undefined;
     Students.section := Js.Undefined; Students.status := Js.Undefined;
     Students.search := Js.Undefined |}.

(** A tab on the dashboard: every element the scripts write to is there,
    the schools list is on page 3, and the network will give [answers]. *)
Definition tab (answers : list Client.reply) : Client.world :=
  {| Client.clock := 1000;
     Client.replies := answers;
     Client.requests := [];
     Client.hostname := "localhost";
     Client.API_BASE := Client.getApiBase "localhost";
     Client.currentPage :=
       <["schools" := Js.Num (Js.Int 3)]> (<["students" := Js.Num (Js.Int 1)]> ∅);
     Client.cache := ∅;
     Client.realTimeUpdates := true;
     Client.intervalId := None;
     Client.nav_items := {["dashboard"; "schools"; "students"; "analytics"]};
     Client.active_nav := Some "dashboard";
     Client.active_content := Some "dashboard";
     Client.content :=
       list_to_map
         (map (fun id => (id, Client.Text ""))
            ["dashboard"; "schools"; "students"; "analytics"; "lastSync";
             "kpiGrid"; "systemStatus"; "schoolsTableBody"; "schoolsPagination";
             "studentsTableBody"; "studentsPagination"; "performanceMetrics";
             "dataQuality"]);
     Client.inputs := ∅;
     Client.loading := ∅;
     Client.hidden := ∅;
     Client.sync_color := "#64748b";
     Client.timers := [];
     Client.console := [] |}.

(** The same tab with text typed into some of its inputs. *)
Definition tab_with (answers : list Client.reply) (typed : list (string * string))
  : Client.world :=
  {| Client.clock := Client.clock (tab answers);
     Client.replies := answers;
     Client.requests := [];
     Client.hostname := Client.hostname (tab answers);
     Client.API_BASE := Client.API_BASE (tab answers);
     Client.currentPage := Client.currentPage (tab answers);
     Client.cache := ∅;
     Client.realTimeUpdates := true;
     Client.intervalId := None;
     Client.nav_items := Client.nav_items (tab answers);
     Client.active_nav := Some "dashboard";
     Client.active_content := Some "dashboard";
     Client.content := Client.content (tab answers);
     Client.inputs := list_to_map typed;
     Client.loading := ∅;
     Client.hidden := ∅;
     Client.sync_color := "#64748b";
     Client.timers := [];
     Client.console := [] |}.

(** The tab 30 s later, holding a stats entry that is 28960 ms old. *)
Definition tab_with_old_stats (answers : list Client.reply) : Client.world :=
  Client.with_cache (Client.advance 30000 (tab answers))
    (<["/dashboard/stats" := {| Client.data := "old"; Client.timestamp := 2040 |}]> ∅).

Definition ok_reply (ms : N) (body : string) : Client.reply :=
  {| Client.latency := ms; Client.answer := Client.Http true 200 "OK" (Some body) |}.

Definition failed_reply (ms : N) : Client.reply :=
  {| Client.latency := ms; Client.answer := Client.NetworkError "Failed to fetch" |}.

End Sample.

(** ** Facts about fallible maps *)

Lemma rbind_ok {A B} (r : result A) (k : A -> result B) (b : B) :
  rbind r k = Ok b -> exists a, r = Ok a /\ k a = Ok b.
Proof. destruct r as [a|m]; simpl; intros H; [eauto | discriminate]. Qed.

Lemma rbind_ret {A B} (a : A) (k : A -> result B) : rbind (Ok a) k = k a.
Proof. reflexivity. Qed.

Lemma rmap_list_ok {A B} (f : A -> result B) (l : list A) (bs : list B) :
  rmap_list f l = Ok bs -> Forall (fun a => exists b, f a = Ok b) l.
Proof.
  revert bs. induction l as [|a l IH]; intros bs H; [constructor|].
  simpl in H. apply rbind_ok in H as (b & Hb & H).
  apply rbind_ok in H as (bs' & Hbs & _).
  constructor; [eauto | eapply IH; eauto].
Qed.

Lemma rmap_list_all {A B} (f : A -> result B) (l : list A) :
  Forall (fun a => exists b, f a = Ok b) l -> exists bs, rmap_list f l = Ok bs.
Proof.
  induction 1 as [|a l (b & Hb) _ (bs & Hbs)]; simpl; [eauto|].
  rewrite Hb, Hbs. simpl. eauto.
Qed.

Lemma rmap_list_ext {A B} (f g : A -> result B) (l : list A) :
  Forall (fun a => f a = g a) l -> rmap_list f l = rmap_list g l.
Proof.
  induction 1 as [|a l Ha _ IH]; simpl; [reflexivity|].
  rewrite Ha, IH. reflexivity.
Qed.

(** ** Bound parameters of a longer list *)

Lemma param_app (ps extra : list Js.value) (p : nat) :
  (p <= length ps)%nat -> Sql.param (ps ++ extra) p = Sql.param ps p.
Proof.
  destruct p as [|i]; unfold Sql.param; intros H; [reflexivity|].
  apply nth_error_app1. simpl in H. lia.
Qed.

Lemma param_text_app (ps extra : list Js.value) (p : nat) :
  (p <= length ps)%nat -> Sql.param_text (ps ++ extra) p = Sql.param_text ps p.
Proof. intros H. unfold Sql.param_text. rewrite param_app by exact H. reflexivity. Qed.

Lemma param_last2 (ps : list Js.value) (l o : Js.value) :
  Sql.param (ps ++ [l; o]) (S (length ps)) = Some l
  /\ Sql.param (ps ++ [l; o]) (S (S (length ps))) = Some o.
Proof.
  unfold Sql.param. split.
  - rewrite nth_error_app2 by lia. rewrite Nat.sub_diag. reflexivity.
  - rewrite nth_error_app2 by lia.
    replace (S (length ps) - length ps)%nat with 1%nat by lia. reflexivity.
Qed.


Lemma check_cond_app sc ps extra c :
  Forall (Sql.in_range (length ps)) (Sql.cond_params c) ->
  Sql.check_cond sc (ps ++ extra) c = Sql.check_cond sc ps c.
Proof.
  destruct c as [col p | lhs p1 col2 p2]; simpl; intros H.
  - inversion H as [|? ? [_ Hp] _]; subst.
    unfold Sql.check_param_cast. rewrite param_app by exact Hp. reflexivity.
  - inversion H as [|? ? [_ H1] H']; subst.
    inversion H' as [|? ? [_ H2] _]; subst.
    unfold Sql.check_param_cast. rewrite !param_app by assumption. reflexivity.
Qed.

Lemma eval_cond_app ps extra e c :
  Forall (Sql.in_range (length ps)) (Sql.cond_params c) ->
  Sql.eval_cond (ps ++ extra) e c = Sql.eval_cond ps e c.
Proof.
  destruct c as [col p | lhs p1 col2 p2]; simpl; intros H.
  - inversion H as [|? ? [_ Hp] _]; subst.
    rewrite param_text_app by exact Hp. reflexivity.
  - inversion H as [|? ? [_ H1] H']; subst.
    inversion H' as [|? ? [_ H2] _]; subst.
    rewrite !param_text_app by assumption. reflexivity.
Qed.

Lemma Forall_flat_map {A B} (P : B -> Prop) (f : A -> list B) (l : list A) :
  Forall P (flat_map f l) <-> Forall (fun a => Forall P (f a)) l.
Proof.
  induction l as [|a l IH]; simpl.
  - split; constructor.
  - rewrite List.Forall_app, IH. split.
    + intros [H1 H2]. constructor; assumption.
    + intros H. inversion H; subst. split; assumption.
Qed.

(** ** The arity check *)

Lemma check_arity_ok q ps :
  Sql.check_arity q ps = Ok tt ->
  Forall (Sql.in_range (length ps)) (Sql.placeholders q)
  /\ (forall i, (i < length ps)%nat -> In (S i) (Sql.placeholders q)).
Proof.
  unfold Sql.check_arity.
  destruct (forallb _ (Sql.placeholders q)) eqn:H1; simpl; [|discriminate].
  destruct (forallb _ (seq 0 (length ps))) eqn:H2; [|discriminate].
  intros _. split.
  - apply List.Forall_forall. intros p Hp.
    rewrite forallb_forall in H1. specialize (H1 p Hp).
    apply andb_true_iff in H1 as [Ha Hb].
    apply Nat.leb_le in Ha, Hb. split; assumption.
  - intros i Hi. rewrite forallb_forall in H2.
    specialize (H2 i). rewrite in_seq in H2.
    specialize (H2 ltac:(lia)). apply existsb_exists in H2 as (x & Hx & Heq).
    destruct x as [|x]; [discriminate|].
    apply Nat.eqb_eq in Heq. subst x. exact Hx.
Qed.

Lemma check_arity_intro q ps :
  Forall (Sql.in_range (length ps)) (Sql.placeholders q) ->
  (forall i, (i < length ps)%nat -> In (S i) (Sql.placeholders q)) ->
  Sql.check_arity q ps = Ok tt.
Proof.
  intros H1 H2. unfold Sql.check_arity.
  assert (forallb (fun p => (1 <=? p)%nat && (p <=? length ps)%nat) (Sql.placeholders q) = true) as ->.
  { apply forallb_forall. intros p Hp. rewrite List.Forall_forall in H1.
    destruct (H1 p Hp) as [Ha Hb].
    apply andb_true_iff. split; apply Nat.leb_le; assumption. }
  assert (forallb (fun i => existsb (Nat.eqb (S i)) (Sql.placeholders q)) (seq 0 (length ps)) = true) as ->.
  { apply forallb_forall. intros i Hi. apply in_seq in Hi.
    apply existsb_exists. exists (S i). split; [apply H2; lia | apply Nat.eqb_refl]. }
  reflexivity.
Qed.

Lemma check_arity_unit q ps (u : unit) : Sql.check_arity q ps = Ok u -> Sql.check_arity q ps = Ok tt.
Proof. destruct u. exact id. Qed.


Lemma placeholders_window q keys n :
  Sql.plain q ->
  Sql.placeholders (Sql.with_window q keys n) = Sql.placeholders q ++ [S n; S (S n)].
Proof.
  intros (_ & Hl & Ho). unfold Sql.placeholders. simpl. rewrite Hl, Ho. simpl.
  rewrite app_nil_r. reflexivity.
Qed.

Lemma placeholders_conds q :
  Sql.plain q -> Sql.placeholders q = flat_map Sql.cond_params (Sql.sel_where q).
Proof.
  intros (_ & Hl & Ho). unfold Sql.placeholders. rewrite Hl, Ho. simpl.
  rewrite app_nil_r. reflexivity.
Qed.

(** The check of the statement with its window, from the check without. *)
Lemma check_window db q keys ps l o pl :
  Sql.plain q ->
  Sql.check db q ps = Ok pl ->
  (exists ks, rmap_list (Sql.resolve (Sql.pl_scope pl)) (map fst keys) = Ok ks) ->
  Sql.check db (Sql.with_window q keys (length ps)) (ps ++ [l; o]) =
    (do lim <- Sql.check_bound "LIMIT" [l] (Some (Sql.BParam 1));
     do off <- Sql.check_bound "OFFSET" [o] (Some (Sql.BParam 1));
     Ok {| Sql.pl_scope := Sql.pl_scope pl; Sql.pl_limit := lim; Sql.pl_offset := off |}).
Proof.
  intros Hplain Hcheck (ks & Hkeys).
  unfold Sql.check in Hcheck.
  apply rbind_ok in Hcheck as (sc & Hsc & Hcheck).
  apply rbind_ok in Hcheck as (u & Har & Hcheck).
  apply rbind_ok in Hcheck as (js & Hjs & Hcheck).
  apply rbind_ok in Hcheck as (its & Hits & Hcheck).
  apply rbind_ok in Hcheck as (cs & Hcs & Hcheck).
  apply rbind_ok in Hcheck as (os & Hos & Hcheck).
  apply rbind_ok in Hcheck as (lim0 & Hlim0 & Hcheck).
  apply rbind_ok in Hcheck as (off0 & Hoff0 & Hcheck).
  injection Hcheck as <-. simpl in Hkeys.
  apply check_arity_unit in Har. apply check_arity_ok in Har as [Hrange Hcover].
  unfold Sql.check.
  change (Sql.scope_of db (Sql.with_window q keys (length ps))) with (Sql.scope_of db q).
  rewrite Hsc. rewrite rbind_ret.
  rewrite (check_arity_intro (Sql.with_window q keys (length ps)) (ps ++ [l; o])).
  2:{ rewrite placeholders_window by exact Hplain. rewrite length_app. simpl.
      apply List.Forall_app. split.
      - eapply List.Forall_impl; [|exact Hrange]. unfold Sql.in_range. intros; lia.
      - constructor; [unfold Sql.in_range; lia|].
        constructor; [unfold Sql.in_range; lia|]. constructor. }
  2:{ rewrite placeholders_window by exact Hplain. rewrite length_app. simpl.
      intros i Hi. apply in_or_app.
      destruct (Nat.lt_ge_cases i (length ps)) as [Hlt|Hge].
      - left. apply Hcover. exact Hlt.
      - right. simpl. lia. }
  rewrite rbind_ret.
  change (Sql.sel_joins (Sql.with_window q keys (length ps))) with (Sql.sel_joins q).
  rewrite Hjs. rewrite rbind_ret.
  change (Sql.is_count (Sql.with_window q keys (length ps))) with (Sql.is_count q).
  change (Sql.sel_items (Sql.with_window q keys (length ps))) with (Sql.sel_items q).
  rewrite Hits. rewrite rbind_ret.
  change (Sql.sel_where (Sql.with_window q keys (length ps))) with (Sql.sel_where q).
  rewrite (rmap_list_ext (Sql.check_cond sc (ps ++ [l; o])) (Sql.check_cond sc ps)).
  2:{ rewrite placeholders_conds in Hrange by exact Hplain.
      apply Forall_flat_map in Hrange.
      eapply List.Forall_impl; [|exact Hrange]. intros c Hc. apply check_cond_app. exact Hc. }
  rewrite Hcs. rewrite rbind_ret.
  change (Sql.sel_order (Sql.with_window q keys (length ps))) with keys.
  rewrite Hkeys. rewrite rbind_ret.
  change (Sql.sel_limit (Sql.with_window q keys (length ps))) with (Some (Sql.BParam (S (length ps)))).
  change (Sql.sel_offset (Sql.with_window q keys (length ps))) with (Some (Sql.BParam (S (S (length ps))))).
  destruct (param_last2 ps l o) as [Hl Ho].
  unfold Sql.check_bound. rewrite Hl, Ho. reflexivity.
Qed.

Lemma matching_window db q keys ps extra :
  Sql.plain q ->
  Forall (Sql.in_range (length ps)) (Sql.placeholders q) ->
  Sql.matching db (Sql.with_window q keys (length ps)) (ps ++ extra) = Sql.matching db q ps.
Proof.
  intros Hplain Hrange. unfold Sql.matching.
  change (Sql.from_rows db (Sql.with_window q keys (length ps))) with (Sql.from_rows db q).
  change (Sql.sel_where (Sql.with_window q keys (length ps))) with (Sql.sel_where q).
  rewrite placeholders_conds in Hrange by exact Hplain.
  apply Forall_flat_map in Hrange.
  apply filter_ext. intros e.
  induction Hrange as [|c cs Hc _ IH]; simpl; [reflexivity|].
  rewrite eval_cond_app by exact Hc. rewrite IH. reflexivity.
Qed.


Lemma check_plain_bounds db q ps pl :
  Sql.plain q -> Sql.check db q ps = Ok pl ->
  Sql.pl_limit pl = None /\ Sql.pl_offset pl = None.
Proof.
  intros (_ & Hl & Ho) Hcheck. unfold Sql.check in Hcheck.
  repeat (apply rbind_ok in Hcheck as (? & ? & Hcheck)).
  injection Hcheck as <-. simpl.
  rewrite Hl in *. rewrite Ho in *. simpl in *.
  split; congruence.
Qed.

Lemma check_items db q ps pl :
  Sql.check db q ps = Ok pl ->
  exists its, rmap_list (Sql.check_item (Sql.pl_scope pl) (Sql.is_count q)) (Sql.sel_items q) = Ok its.
Proof.
  intros Hcheck. unfold Sql.check in Hcheck.
  repeat (apply rbind_ok in Hcheck as (? & ? & Hcheck)).
  injection Hcheck as <-. simpl. eauto.
Qed.

Lemma check_in_range db q ps pl :
  Sql.check db q ps = Ok pl -> Forall (Sql.in_range (length ps)) (Sql.placeholders q).
Proof.
  intros Hcheck. unfold Sql.check in Hcheck.
  apply rbind_ok in Hcheck as (sc & Hsc & Hcheck).
  apply rbind_ok in Hcheck as (u & Har & Hcheck).
  apply check_arity_unit in Har. apply check_arity_ok in Har as [Hrange _]. exact Hrange.
Qed.

Lemma run_plain db q ps pl :
  Sql.plain q -> Sql.is_count q = false ->
  Sql.pl_limit pl = None -> Sql.pl_offset pl = None ->
  Sql.run db q ps pl = map (Sql.project db (Sql.pl_scope pl) q) (Sql.matching db q ps).
Proof.
  intros (Ho & _ & _) Hc Hl Hoff. unfold Sql.run, Sql.order_rows, Sql.window.
  rewrite Hc, Hl, Hoff, Ho. reflexivity.
Qed.


(** What a list route does, in terms of the engine's steps. *)
Lemma count_and_page_eq db b order page limit offset q0 keys :
  countQuery (query b) = query b ->
  Sql.parse (query b) = Some q0 ->
  Sql.parse (query b +:+ order +:+ dec_of_nat (S (paramCount b))
             +:+ " OFFSET $" +:+ dec_of_nat (S (S (paramCount b))))
    = Some (Sql.with_window q0 keys (paramCount b)) ->
  paramCount b = length (params b) ->
  Sql.plain q0 -> Sql.is_count q0 = false -> keys <> [] ->
  (forall sc e, property (Sql.project db sc q0 e) "count" = None) ->
  (forall sc its, rmap_list (Sql.check_item sc false) (Sql.sel_items q0) = Ok its ->
                  exists ks, rmap_list (Sql.resolve sc) (map fst keys) = Ok ks) ->
  count_and_page db b order page limit offset =
    (do pl <- Sql.check db q0 (params b);
     match Sql.matching db q0 (params b) with
     | [] => Err type_error
     | _ :: _ =>
         do lim <- Sql.check_bound "LIMIT" [limit] (Some (Sql.BParam 1));
         do off <- Sql.check_bound "OFFSET" [Js.Num offset] (Some (Sql.BParam 1));
         Ok (ListOk
               (map (Sql.project db (Sql.pl_scope pl) q0)
                  (Sql.window lim off
                     (Sql.sort_by (Sql.env_le keys) (Sql.matching db q0 (params b)))))
               {| pg_page := Js.parseInt page; pg_limit := Js.parseInt limit;
                  pg_total := Js.NaN; pg_pages := Js.NaN |})
     end).
Proof.
  intros Hcount Hparse Hparse' Hpc Hplain Hnc Hkeys Hprop Hres.
  unfold count_and_page. rewrite Hcount. unfold Sql.pool_query.
  rewrite Hparse, Hparse'.
  destruct (Sql.check db q0 (params b)) as [pl|m] eqn:Hcheck; [|reflexivity].
  rewrite !rbind_ret.
  destruct (check_plain_bounds _ _ _ _ Hplain Hcheck) as [Hl Ho].
  rewrite run_plain by assumption.
  destruct (Sql.matching db q0 (params b)) as [|e es] eqn:Hm; [reflexivity|].
  cbn [map first_row_property]. rewrite rbind_ret, Hprop.
  cbn [parseInt_property].
  rewrite Hpc.
  destruct (check_items _ _ _ _ Hcheck) as (its & Hits). rewrite Hnc in Hits.
  rewrite (check_window db q0 keys (params b) limit (Js.Num offset) pl Hplain Hcheck (Hres _ _ Hits)).
  destruct (Sql.check_bound "LIMIT" [limit] _) as [lim|]; [|reflexivity].
  rewrite rbind_ret.
  destruct (Sql.check_bound "OFFSET" [Js.Num offset] _) as [off|]; [|reflexivity].
  rewrite !rbind_ret.
  unfold Sql.run.
  change (Sql.is_count (Sql.with_window q0 keys (length (params b)))) with (Sql.is_count q0).
  rewrite Hnc. cbn [Sql.pl_limit Sql.pl_offset Sql.pl_scope].
  rewrite matching_window by (try assumption; eapply check_in_range; eassumption).
  rewrite Hm.
  unfold Sql.order_rows. cbn [Sql.sel_order Sql.with_window].
  destruct keys as [|k keys']; [congruence|].
  reflexivity.
Qed.


Ltac compute_lhs :=
  lazymatch goal with
  | |- ?l = _ =>
      let v := eval vm_compute in l in
      replace l with v by (vm_compute; reflexivity)
  end.

Lemma students_count_unchanged (q : Students.query_string) :
  countQuery (query (Students.filters q)) = query (Students.filters q).
Proof.
  unfold Students.filters, and_equals, and_search.
  destruct (Js.truthy (Students.school_id q)), (Js.truthy (Students.class_number q)),
    (Js.truthy (Students.section q)), (Js.truthy (Students.search q));
    cbn [query params paramCount]; vm_compute; reflexivity.
Qed.

Lemma students_shape (q : Students.query_string) :
  let b := Students.filters q in
  exists conds,
    Sql.parse (query b) = Some (Students.statement conds)
    /\ Sql.parse (query b +:+ Students.order_clause +:+ dec_of_nat (S (paramCount b))
                  +:+ " OFFSET $" +:+ dec_of_nat (S (S (paramCount b))))
       = Some (Sql.with_window (Students.statement conds) Students.order_keys (paramCount b))
    /\ paramCount b = length (params b).
Proof.
  unfold Students.filters, and_equals, and_search.
  destruct (Js.truthy (Students.school_id q)), (Js.truthy (Students.class_number q)),
    (Js.truthy (Students.section q)), (Js.truthy (Students.search q));
    cbn [query params paramCount]; eexists; (split; [|split]);
    try (compute_lhs; reflexivity); reflexivity.
Qed.

Lemma schools_count_unchanged (q : Schools.query_string) :
  countQuery (query (Schools.filters q)) = query (Schools.filters q).
Proof.
  unfold Schools.filters, and_equals, and_search.
  destruct (Js.truthy (Schools.district_id q)), (Js.truthy (Schools.block_id q)),
    (Js.truthy (Schools.search q));
    cbn [query params paramCount]; vm_compute; reflexivity.
Qed.

Lemma schools_shape (q : Schools.query_string) :
  let b := Schools.filters q in
  exists conds,
    Sql.parse (query b) = Some (Schools.statement conds)
    /\ Sql.parse (query b +:+ Schools.order_clause +:+ dec_of_nat (S (paramCount b))
                  +:+ " OFFSET $" +:+ dec_of_nat (S (S (paramCount b))))
       = Some (Sql.with_window (Schools.statement conds) Schools.order_keys (paramCount b))
    /\ paramCount b = length (params b).
Proof.
  unfold Schools.filters, and_equals, and_search.
  destruct (Js.truthy (Schools.district_id q)), (Js.truthy (Schools.block_id q)),
    (Js.truthy (Schools.search q));
    cbn [query params paramCount]; eexists; (split; [|split]);
    try (compute_lhs; reflexivity); reflexivity.
Qed.


Lemma check_item_col sc c a u :
  Sql.check_item sc false (Sql.ICol c a) = Ok u -> exists k, Sql.resolve sc c = Ok k.
Proof. simpl. destruct (Sql.resolve sc c) as [k|]; [eauto | discriminate]. Qed.

Lemma items_resolve sc items its c a :
  rmap_list (Sql.check_item sc false) items = Ok its ->
  In (Sql.ICol c a) items -> exists k, Sql.resolve sc c = Ok k.
Proof.
  intros H Hin. apply rmap_list_ok in H. rewrite List.Forall_forall in H.
  destruct (H _ Hin) as (u & Hu). eapply check_item_col; eauto.
Qed.

Lemma students_get_list_eq db q :
  exists conds,
    Sql.parse (query (Students.filters q)) = Some (Students.statement conds) /\
    Students.get_list db q =
      catch "Failed to fetch students"
        (list_steps db (Students.statement conds) Students.order_keys
           (params (Students.filters q))
           (Js.default (Students.page q) (Js.Num (Js.Int 1)))
           (Js.default (Students.limit q) (Js.Num (Js.Int 50)))).
Proof.
  destruct (students_shape q) as (conds & Hp & Hp' & Hpc).
  exists conds. split; [exact Hp|].
  unfold Students.get_list. f_equal.
  apply count_and_page_eq with (keys := Students.order_keys); try assumption.
  - apply students_count_unchanged.
  - repeat split.
  - reflexivity.
  - discriminate.
  - intros sc e. reflexivity.
  - intros sc its H.
    destruct (items_resolve sc _ its "s.last_name" None H) as (k1 & H1); [simpl; tauto|].
    destruct (items_resolve sc _ its "s.first_name" None H) as (k2 & H2); [simpl; tauto|].
    exists [k1; k2]. simpl. rewrite H1, H2. reflexivity.
Qed.

Lemma schools_get_list_eq db q :
  exists conds,
    Sql.parse (query (Schools.filters q)) = Some (Schools.statement conds) /\
    Schools.get_list db q =
      catch "Failed to fetch schools"
        (list_steps db (Schools.statement conds) Schools.order_keys
           (params (Schools.filters q))
           (Js.default (Schools.page q) (Js.Num (Js.Int 1)))
           (Js.default (Schools.limit q) (Js.Num (Js.Int 20)))).
Proof.
  destruct (schools_shape q) as (conds & Hp & Hp' & Hpc).
  exists conds. split; [exact Hp|].
  unfold Schools.get_list. f_equal.
  apply count_and_page_eq with (keys := Schools.order_keys); try assumption.
  - apply schools_count_unchanged.
  - repeat split.
  - reflexivity.
  - discriminate.
  - intros sc e. reflexivity.
  - intros sc its H.
    destruct (items_resolve sc _ its "s.name" None H) as (k1 & H1); [simpl; tauto|].
    exists [k1]. simpl. rewrite H1. reflexivity.
Qed.

Lemma list_steps_cases db q0 keys ps page limit error :
  match catch error (list_steps db q0 keys ps page limit) with
  | ListOk _ pg => pg_total pg = Js.NaN /\ pg_pages pg = Js.NaN
  | DetailOk _ _ => False
  | Failure st e => st = 500%nat /\ e = error
  end.
Proof.
  unfold list_steps.
  destruct (Sql.check db q0 ps) as [pl|]; [|simpl; auto].
  rewrite rbind_ret.
  destruct (Sql.matching db q0 ps); [simpl; auto|].
  destruct (Sql.check_bound "LIMIT" _ _); [|simpl; auto].
  rewrite rbind_ret.
  destruct (Sql.check_bound "OFFSET" _ _); simpl; auto.
Qed.

(** C3, the defect: for every request of either list route the count
    statement is the data statement, unchanged, and every response is either
    the 500 of the catch or a 200 whose [total] is NaN. *)
Theorem total_is_never_a_count (db : Sql.database) :
  (forall q, countQuery (query (Students.filters q)) = query (Students.filters q))
  /\ (forall q, countQuery (query (Schools.filters q)) = query (Schools.filters q))
  /\ (forall q,
        match Students.get_list db q with
        | ListOk _ pg => pg_total pg = Js.NaN
        | DetailOk _ _ => False
        | Failure st e => st = 500%nat /\ e = "Failed to fetch students"
        end)
  /\ (forall q,
        match Schools.get_list db q with
        | ListOk _ pg => pg_total pg = Js.NaN
        | DetailOk _ _ => False
        | Failure st e => st = 500%nat /\ e = "Failed to fetch schools"
        end).
Proof.
  split; [exact students_count_unchanged|].
  split; [exact schools_count_unchanged|].
  split; intros q.
  - destruct (students_get_list_eq db q) as (conds & _ & ->).
    pose proof (list_steps_cases db (Students.statement conds) Students.order_keys
      (params (Students.filters q)) (Js.default (Students.page q) (Js.Num (Js.Int 1)))
      (Js.default (Students.limit q) (Js.Num (Js.Int 50))) "Failed to fetch students") as H.
    destruct (catch _ _); tauto.
  - destruct (schools_get_list_eq db q) as (conds & _ & ->).
    pose proof (list_steps_cases db (Schools.statement conds) Schools.order_keys
      (params (Schools.filters q)) (Js.default (Schools.page q) (Js.Num (Js.Int 1)))
      (Js.default (Schools.limit q) (Js.Num (Js.Int 20))) "Failed to fetch schools") as H.
    destruct (catch _ _); tauto.
Qed.

(** ** Decimal numerals read back *)


Lemma append_cons (x : ascii) (a b : string) : String x a +:+ b = String x (a +:+ b).
Proof. reflexivity. Qed.

Lemma append_nil_l (b : string) : "" +:+ b = b.
Proof. reflexivity. Qed.

Lemma all_chars_app p s t : all_chars p (s +:+ t) = all_chars p s && all_chars p t.
Proof.
  induction s as [|c s IH]; [reflexivity|].
  rewrite append_cons. simpl. rewrite IH. apply andb_assoc.
Qed.

Lemma append_assoc (a b c : string) : (a +:+ b) +:+ c = a +:+ (b +:+ c).
Proof.
  induction a as [|x a IH]; [reflexivity|].
  rewrite !append_cons, IH. reflexivity.
Qed.

Lemma append_nil_r (s : string) : s +:+ "" = s.
Proof.
  induction s as [|c s IH]; [reflexivity|]. rewrite append_cons, IH. reflexivity.
Qed.

Lemma rev_onto_spec s acc : string_rev_onto s acc = string_rev_onto s "" +:+ acc.
Proof.
  revert acc. induction s as [|c s IH]; intros acc; simpl; [reflexivity|].
  rewrite (IH (String c acc)), (IH (String c "")).
  rewrite append_assoc. reflexivity.
Qed.

Lemma str_rev_cons c s : str_rev (String c s) = str_rev s +:+ String c "".
Proof. unfold str_rev. simpl. apply rev_onto_spec. Qed.

Lemma str_rev_app s t : str_rev (s +:+ t) = str_rev t +:+ str_rev s.
Proof.
  induction s as [|c s IH].
  - rewrite append_nil_l. change (str_rev "") with "". rewrite append_nil_r. reflexivity.
  - rewrite append_cons, !str_rev_cons, IH, append_assoc. reflexivity.
Qed.

Lemma str_rev_involutive s : str_rev (str_rev s) = s.
Proof.
  induction s as [|c s IH]; [reflexivity|].
  rewrite str_rev_cons, str_rev_app, IH. reflexivity.
Qed.

Lemma drop_while_stop (p : ascii -> bool) (c : ascii) (s : string) :
  p c = false -> drop_while p (String c s) = String c s.
Proof. intros H. simpl. rewrite H. reflexivity. Qed.

(** A string that neither starts nor ends with a character of [p] is its
    own trimmed form. *)
Lemma trim_both_fixed (p : ascii -> bool) (c d : ascii) (s : string) :
  p c = false -> p d = false ->
  str_rev (drop_while p (str_rev (drop_while p (String c (s +:+ String d "")))))
  = String c (s +:+ String d "").
Proof.
  intros Hc Hd. rewrite (drop_while_stop p c) by exact Hc.
  rewrite str_rev_cons, str_rev_app.
  change (str_rev (String d "")) with (String d "").
  rewrite !append_cons, append_nil_l.
  rewrite (drop_while_stop p d) by exact Hd.
  rewrite str_rev_cons, str_rev_app, str_rev_involutive.
  change (str_rev (String c "")) with (String c "").
  rewrite append_cons, append_nil_l. reflexivity.
Qed.

Lemma trim_one_fixed (p : ascii -> bool) (c : ascii) :
  p c = false ->
  str_rev (drop_while p (str_rev (drop_while p (String c "")))) = String c "".
Proof.
  intros Hc. rewrite (drop_while_stop p c) by exact Hc.
  change (str_rev (String c "")) with (String c "").
  rewrite (drop_while_stop p c) by exact Hc. reflexivity.
Qed.


Lemma digit_char_is_digit n : is_digit (digit_char n) = true.
Proof.
  unfold is_digit, digit_char.
  pose proof (Nat.mod_upper_bound n 10 ltac:(lia)) as H.
  rewrite nat_ascii_embedding by lia.
  apply andb_true_iff. split; apply Nat.leb_le; lia.
Qed.

Lemma digit_char_val n : digit_val (digit_char n) = Z.of_nat (n mod 10).
Proof.
  unfold digit_val, digit_char.
  pose proof (Nat.mod_upper_bound n 10 ltac:(lia)) as H.
  rewrite nat_ascii_embedding by lia. lia.
Qed.

Lemma digits_step fuel n acc :
  digits_of_pos_fuel (S fuel) n acc
  = if (n <? 10)%nat then String (digit_char n) acc
    else digits_of_pos_fuel fuel (n / 10) (String (digit_char n) acc).
Proof. reflexivity. Qed.

Lemma digits_onto fuel n acc :
  digits_of_pos_fuel fuel n acc = digits_of_pos_fuel fuel n "" +:+ acc.
Proof.
  revert n acc. induction fuel as [|f IH]; intros n acc; [reflexivity|].
  rewrite !digits_step. destruct (n <? 10)%nat; [reflexivity|].
  rewrite (IH _ (String _ acc)), (IH _ (String _ "")).
  rewrite append_assoc. reflexivity.
Qed.

Lemma all_digits_val_digit n s a :
  all_digits_val (String (digit_char n) s) a
  = all_digits_val s (10 * a + Z.of_nat (n mod 10))%Z.
Proof.
  change (all_digits_val (String (digit_char n) s) a)
    with (if is_digit (digit_char n)
          then all_digits_val s (10 * a + digit_val (digit_char n))%Z else None).
  rewrite digit_char_is_digit, digit_char_val. reflexivity.
Qed.

Lemma all_digits_val_app s t a :
  all_digits_val (s +:+ t) a
  = match all_digits_val s a with
    | Some v => all_digits_val t v
    | None => None
    end.
Proof.
  revert a. induction s as [|c s IH]; intros a; [reflexivity|].
  rewrite append_cons. simpl. destruct (is_digit c); [apply IH | reflexivity].
Qed.

(** The digits of [n]: a digit string that ends with the last digit of [n]
    and reads back as [n]. *)
Lemma digits_read_back fuel n :
  (n < fuel)%nat ->
  exists body k,
    digits_of_pos_fuel fuel n "" = body +:+ String (digit_char n) ""
    /\ all_chars is_digit body = true
    /\ (0 <= k)%Z
    /\ forall a, all_digits_val (digits_of_pos_fuel fuel n "") a
                 = Some (a * 10 ^ k + Z.of_nat n)%Z.
Proof.
  revert n. induction fuel as [|f IH]; intros n Hn; [lia|].
  rewrite digits_step.
  destruct (n <? 10)%nat eqn:E.
  - apply Nat.ltb_lt in E. exists "", 1%Z.
    split; [reflexivity|]. split; [reflexivity|]. split; [lia|].
    intros a. rewrite all_digits_val_digit.
    rewrite Nat.mod_small by lia.
    change (all_digits_val "" (10 * a + Z.of_nat n)%Z) with (Some (10 * a + Z.of_nat n)%Z).
    f_equal. lia.
  - apply Nat.ltb_ge in E.
    assert (n / 10 < f)%nat as Hlt.
    { pose proof (Nat.div_lt n 10 ltac:(lia) ltac:(lia)). lia. }
    destruct (IH (n / 10)%nat Hlt) as (body & k & Hb & Hd & Hk & Hv).
    rewrite digits_onto.
    exists (digits_of_pos_fuel f (n / 10) ""), (k + 1)%Z. split; [reflexivity|].
    split.
    { rewrite Hb, all_chars_app, Hd.
      change (all_chars is_digit (String (digit_char (n / 10)) ""))
        with (is_digit (digit_char (n / 10)) && true).
      rewrite digit_char_is_digit. reflexivity. }
    split; [lia|].
    intros a. rewrite all_digits_val_app, Hv, all_digits_val_digit.
    change (all_digits_val "" ?x) with (Some x).
    f_equal.
    rewrite Z.pow_add_r by lia.
    pose proof (Nat.div_mod_eq n 10) as Hdm.
    assert (Z.of_nat n = 10 * Z.of_nat (n / 10) + Z.of_nat (n mod 10))%Z as -> by lia.
    lia.
Qed.

Lemma digit_not_space c : is_digit c = true -> is_js_space c = false /\ Sql.is_sql_space c = false.
Proof.
  unfold is_digit, is_js_space, Sql.is_sql_space. intros H.
  apply andb_true_iff in H as [H1 H2]. apply Nat.leb_le in H1, H2.
  generalize dependent (nat_of_ascii c). intros n H1 H2.
  split;
    repeat match goal with
           | |- context [(?a <=? ?b)%nat] => destruct (Nat.leb_spec a b)
           | |- context [(?a =? ?b)%nat] => destruct (Nat.eqb_spec a b)
           end; simpl; try reflexivity; lia.
Qed.

Lemma digit_not_sign c :
  is_digit c = true -> Ascii.eqb c "-" = false /\ Ascii.eqb c "+" = false.
Proof.
  intros H. split.
  - destruct (Ascii.eqb_spec c "-") as [->|]; [discriminate H | reflexivity].
  - destruct (Ascii.eqb_spec c "+") as [->|]; [discriminate H | reflexivity].
Qed.


Lemma dec_of_nat_numeral n :
  numeral (dec_of_nat n) /\ all_digits_val (dec_of_nat n) 0 = Some (Z.of_nat n).
Proof.
  unfold dec_of_nat.
  destruct (digits_read_back (S n) n ltac:(lia)) as (body & k & Hb & Hd & Hk & Hv).
  split; [|rewrite Hv; f_equal; lia].
  rewrite Hb. destruct body as [|c body].
  - rewrite append_nil_l. constructor. apply digit_char_is_digit.
  - rewrite append_cons. simpl in Hd. apply andb_true_iff in Hd as [Hc Hd].
    constructor; [exact Hc | exact Hd | apply digit_char_is_digit].
Qed.

Lemma numeral_trim (p : ascii -> bool) s :
  (forall c, is_digit c = true -> p c = false) -> numeral s ->
  str_rev (drop_while p (str_rev (drop_while p s))) = s.
Proof.
  intros Hp [c Hc | c t d Hc Ht Hd].
  - apply trim_one_fixed. auto.
  - apply trim_both_fixed; auto.
Qed.

Lemma numeral_head s : numeral s -> exists c rest, s = String c rest /\ is_digit c = true.
Proof. intros [c Hc | c t d Hc Ht Hd]; eauto. Qed.

Lemma numeral_digits s : numeral s -> all_chars is_digit s = true.
Proof.
  intros [c Hc | c t d Hc Ht Hd]; simpl; rewrite Hc; [reflexivity|].
  rewrite all_chars_app, Ht. simpl. rewrite Hd. reflexivity.
Qed.

Lemma int_of_text_numeral s z :
  numeral s -> all_digits_val s 0 = Some z -> Sql.int_of_text s = Some z.
Proof.
  intros Hs Hv. unfold Sql.int_of_text.
  rewrite (numeral_trim Sql.is_sql_space) by (try exact Hs; intros; apply digit_not_space; auto).
  destruct (numeral_head s Hs) as (c & rest & -> & Hc).
  destruct (digit_not_sign c Hc) as [-> ->]. rewrite Hv. reflexivity.
Qed.

Lemma int_of_text_minus s z :
  numeral s -> all_digits_val s 0 = Some z -> Sql.int_of_text (String "-" s) = Some (- z)%Z.
Proof.
  intros Hs Hv. unfold Sql.int_of_text.
  assert (str_rev (drop_while Sql.is_sql_space (str_rev (drop_while Sql.is_sql_space (String "-" s))))
          = String "-" s) as ->.
  { destruct Hs as [c Hc | c t d Hc Ht Hd].
    - change (String "-" (String c "")) with (String "-" ("" +:+ String c "")).
      apply trim_both_fixed; [reflexivity | apply digit_not_space; auto].
    - change (String "-" (String c (t +:+ String d "")))
        with (String "-" (String c t +:+ String d "")).
      apply trim_both_fixed; [reflexivity | apply digit_not_space; auto]. }
  change (Ascii.eqb "-" "-") with true. cbv iota.
  destruct (numeral_head s Hs) as (c & rest & -> & Hc). rewrite Hv. reflexivity.
Qed.

Lemma int_of_text_dec (z : Z) : Sql.int_of_text (dec_of_Z z) = Some z.
Proof.
  unfold dec_of_Z. destruct (z <? 0)%Z eqn:E.
  - apply Z.ltb_lt in E.
    destruct (dec_of_nat_numeral (Z.to_nat (- z))) as [Hn Hv].
    change ("-" +:+ dec_of_nat (Z.to_nat (- z))) with (String "-" (dec_of_nat (Z.to_nat (- z)))).
    rewrite (int_of_text_minus _ _ Hn Hv). f_equal. lia.
  - apply Z.ltb_ge in E.
    destruct (dec_of_nat_numeral (Z.to_nat z)) as [Hn Hv].
    rewrite (int_of_text_numeral _ _ Hn Hv). f_equal. lia.
Qed.

Lemma to_number_numeral s z :
  numeral s -> all_digits_val s 0 = Some z -> Js.string_to_number s = Js.Int z.
Proof.
  intros Hs Hv. unfold Js.string_to_number, trim, trim_start.
  rewrite (numeral_trim is_js_space) by (try exact Hs; intros; apply digit_not_space; auto).
  destruct (numeral_head s Hs) as (c & rest & -> & Hc).
  destruct (digit_not_sign c Hc) as [-> ->]. rewrite Hv. reflexivity.
Qed.

Lemma to_number_dec (z : Z) :
  (0 <= z)%Z -> Js.string_to_number (dec_of_Z z) = Js.Int z.
Proof.
  intros Hz. unfold dec_of_Z. apply Z.ltb_ge in Hz. rewrite Hz. apply Z.ltb_ge in Hz.
  destruct (dec_of_nat_numeral (Z.to_nat z)) as [Hn Hv].
  rewrite (to_number_numeral _ _ Hn Hv). f_equal. lia.
Qed.

Lemma digit_prefix_all s a :
  all_chars is_digit s = true -> digit_prefix_val s a true = all_digits_val s a.
Proof.
  revert a. induction s as [|c s IH]; intros a H; [reflexivity|].
  simpl in *. apply andb_true_iff in H as [Hc Hs]. rewrite Hc. apply IH. exact Hs.
Qed.

Lemma digit_not_x c : is_digit c = true -> Ascii.eqb c "x" || Ascii.eqb c "X" = false.
Proof.
  intros H. apply orb_false_iff. split.
  - destruct (Ascii.eqb_spec c "x") as [->|]; [discriminate H | reflexivity].
  - destruct (Ascii.eqb_spec c "X") as [->|]; [discriminate H | reflexivity].
Qed.

Lemma parse_int_numeral s z :
  numeral s -> all_digits_val s 0 = Some z -> Js.parse_int_string s = Js.Int z.
Proof.
  intros Hs Hv. pose proof (numeral_digits s Hs) as Hd.
  destruct (numeral_head s Hs) as (c & rest & -> & Hc).
  unfold Js.parse_int_string, trim_start.
  rewrite drop_while_stop by (apply digit_not_space; exact Hc).
  destruct (digit_not_sign c Hc) as [-> ->].
  assert (match String c rest with
          | String "0"%char (String x rest0) =>
              if Ascii.eqb x "x" || Ascii.eqb x "X"
              then hex_prefix_val rest0 0 false
              else digit_prefix_val (String c rest) 0 false
          | _ => digit_prefix_val (String c rest) 0 false
          end = all_digits_val (String c rest) 0) as ->.
  { assert (digit_prefix_val (String c rest) 0 false = all_digits_val (String c rest) 0) as Hp.
    { simpl. simpl in Hd. rewrite Hc in *. apply digit_prefix_all. exact Hd. }
    destruct rest as [|x rest'].
    - destruct c as [[] [] [] [] [] [] [] []]; exact Hp.
    - assert (is_digit x = true) as Hx.
      { simpl in Hd. rewrite Hc in Hd. simpl in Hd. apply andb_true_iff in Hd as [Hx _]. exact Hx. }
      rewrite (digit_not_x x Hx).
      destruct c as [[] [] [] [] [] [] [] []]; exact Hp. }
  rewrite Hv. reflexivity.
Qed.

Lemma parse_int_dec (z : Z) :
  (0 <= z)%Z -> Js.parse_int_string (dec_of_Z z) = Js.Int z.
Proof.
  intros Hz. unfold dec_of_Z. apply Z.ltb_ge in Hz. rewrite Hz. apply Z.ltb_ge in Hz.
  destruct (dec_of_nat_numeral (Z.to_nat z)) as [Hn Hv].
  rewrite (parse_int_numeral _ _ Hn Hv). f_equal. lia.
Qed.

(** ** Texts that are not integers *)

Lemma drop_while_head (p : ascii -> bool) (s : string) (c : ascii) (r : string) :
  drop_while p s = String c r -> p c = false.
Proof.
  induction s as [|a s IH]; simpl; [discriminate|].
  destruct (p a) eqn:E; [exact IH|]. intros [= <- _]. exact E.
Qed.

Lemma drop_while_app_stop (p : ascii -> bool) (x : string) (c : ascii) (s : string) :
  p c = false -> drop_while p (x +:+ String c s) = drop_while p x +:+ String c s.
Proof.
  intros Hc. induction x as [|a x IH].
  - rewrite append_nil_l. simpl. rewrite Hc. reflexivity.
  - rewrite append_cons. simpl. destruct (p a); [exact IH|].
    rewrite append_cons. reflexivity.
Qed.

Lemma trim_end_head (p : ascii -> bool) (c : ascii) (u : string) :
  p c = false ->
  exists r, str_rev (drop_while p (str_rev (String c u))) = String c r.
Proof.
  intros Hc. rewrite str_rev_cons, (drop_while_app_stop p _ c "" Hc), str_rev_app.
  change (str_rev (String c "")) with (String c "").
  rewrite append_cons, append_nil_l. eauto.
Qed.

Lemma never_integer_none (s : string) :
  Sql.never_integer s = true -> Sql.int_of_text s = None.
Proof.
  unfold Sql.never_integer, Sql.int_of_text.
  destruct (drop_while Sql.is_sql_space s) as [|c u] eqn:E; [reflexivity|].
  intros H. apply negb_true_iff in H.
  apply orb_false_iff in H as [H Hplus]. apply orb_false_iff in H as [Hd Hminus].
  destruct (trim_end_head Sql.is_sql_space c u (drop_while_head _ _ _ _ E)) as (r & ->).
  rewrite Hminus, Hplus. simpl. rewrite Hd. reflexivity.
Qed.

(** ** Page and limit *)

Lemma starts_non_numeric_nan (s : string) :
  Js.starts_non_numeric s = true -> Js.string_to_number s = Js.NaN.
Proof.
  unfold Js.starts_non_numeric, Js.string_to_number.
  destruct (trim s) as [|c rest]; [discriminate|].
  intros H. apply negb_true_iff in H.
  repeat (apply orb_false_iff in H as [H ?]).
  replace (Ascii.eqb c "-") with false by congruence.
  replace (Ascii.eqb c "+") with false by congruence.
  simpl. rewrite H. reflexivity.
Qed.

Lemma offset_of_nan (page limit : Js.value) :
  Js.to_number page = Js.NaN -> offset_of page limit = Js.NaN.
Proof. intros H. unfold offset_of. rewrite H. reflexivity. Qed.

Lemma list_steps_bad_offset db q0 keys ps page limit error :
  offset_of page limit = Js.NaN ->
  catch error (list_steps db q0 keys ps page limit) = Failure 500 error.
Proof.
  intros H. unfold list_steps. rewrite H.
  destruct (Sql.check db q0 ps); [|reflexivity]. rewrite rbind_ret.
  destruct (Sql.matching db q0 ps); [reflexivity|].
  destruct (Sql.check_bound "LIMIT" _ _); reflexivity.
Qed.

Lemma list_steps_bad_limit db q0 keys ps page s error :
  Sql.int_of_text s = None ->
  catch error (list_steps db q0 keys ps page (Js.Str s)) = Failure 500 error.
Proof.
  intros H. unfold list_steps.
  destruct (Sql.check db q0 ps); [|reflexivity]. rewrite rbind_ret.
  destruct (Sql.matching db q0 ps); [reflexivity|].
  unfold Sql.check_bound at 1. cbn [Sql.param nth_error Sql.bind]. rewrite H. reflexivity.
Qed.

Lemma list_steps_defaults db q0 keys ps (n : Z) error :
  (0 <= n)%Z ->
  Sql.int_of_text (dec_of_Z n) = Some n ->
  Js.string_to_number (dec_of_Z n) = Js.Int n ->
  Js.parse_int_string (dec_of_Z n) = Js.Int n ->
  catch error (list_steps db q0 keys ps (Js.Num (Js.Int 1)) (Js.Num (Js.Int n)))
  = catch error (list_steps db q0 keys ps (Js.Str "1") (Js.Str (dec_of_Z n))).
Proof.
  intros Hn H1 H2 H3. unfold list_steps, offset_of.
  cbn [Js.to_number Js.parseInt Sql.check_bound Sql.param nth_error Sql.bind].
  rewrite H2, H3. reflexivity.
Qed.

Lemma same_statement {A} (f : A -> Sql.select) (a b : A) (t : option Sql.select) :
  t = Some (f a) -> t = Some (f b) -> f a = f b.
Proof. congruence. Qed.

(** C6, as amended: when [page] and [limit] are absent the list routes
    answer as for [page=1] with [limit=20] (schools) or [limit=50]
    (students); a page that is present and cannot start a number, or a limit
    that is present and is blank or starts with something else than a digit
    or a sign, is not replaced by the default: the route answers 500. *)
Theorem paging_defaults_only_when_absent (db : Sql.database) :
  (forall q,
      Schools.get_list db (Schools.with_paging q Js.Undefined Js.Undefined)
      = Schools.get_list db (Schools.with_paging q (Js.Str "1") (Js.Str "20")))
  /\ (forall q,
      Students.get_list db (Students.with_paging q Js.Undefined Js.Undefined)
      = Students.get_list db (Students.with_paging q (Js.Str "1") (Js.Str "50")))
  /\ (forall q s l, Js.starts_non_numeric s = true ->
      Schools.get_list db (Schools.with_paging q (Js.Str s) l)
      = Failure 500 "Failed to fetch schools")
  /\ (forall q s l, Js.starts_non_numeric s = true ->
      Students.get_list db (Students.with_paging q (Js.Str s) l)
      = Failure 500 "Failed to fetch students")
  /\ (forall q p s, Sql.never_integer s = true ->
      Schools.get_list db (Schools.with_paging q p (Js.Str s))
      = Failure 500 "Failed to fetch schools")
  /\ (forall q p s, Sql.never_integer s = true ->
      Students.get_list db (Students.with_paging q p (Js.Str s))
      = Failure 500 "Failed to fetch students").
Proof.
  repeat split.
  - intros q.
    destruct (schools_get_list_eq db (Schools.with_paging q Js.Undefined Js.Undefined))
      as (c1 & Hp1 & ->).
    destruct (schools_get_list_eq db (Schools.with_paging q (Js.Str "1") (Js.Str "20")))
      as (c2 & Hp2 & ->).
    change (Schools.filters (Schools.with_paging q (Js.Str "1") (Js.Str "20")))
      with (Schools.filters (Schools.with_paging q Js.Undefined Js.Undefined)) in *.
    rewrite <- (same_statement Schools.statement c1 c2 _ Hp1 Hp2).
    apply (list_steps_defaults db _ _ _ 20); [lia | reflexivity..].
  - intros q.
    destruct (students_get_list_eq db (Students.with_paging q Js.Undefined Js.Undefined))
      as (c1 & Hp1 & ->).
    destruct (students_get_list_eq db (Students.with_paging q (Js.Str "1") (Js.Str "50")))
      as (c2 & Hp2 & ->).
    change (Students.filters (Students.with_paging q (Js.Str "1") (Js.Str "50")))
      with (Students.filters (Students.with_paging q Js.Undefined Js.Undefined)) in *.
    rewrite <- (same_statement Students.statement c1 c2 _ Hp1 Hp2).
    apply (list_steps_defaults db _ _ _ 50); [lia | reflexivity..].
  - intros q s l Hs.
    destruct (schools_get_list_eq db (Schools.with_paging q (Js.Str s) l)) as (c & _ & ->).
    apply list_steps_bad_offset, offset_of_nan. simpl.
    apply starts_non_numeric_nan. exact Hs.
  - intros q s l Hs.
    destruct (students_get_list_eq db (Students.with_paging q (Js.Str s) l)) as (c & _ & ->).
    apply list_steps_bad_offset, offset_of_nan. simpl.
    apply starts_non_numeric_nan. exact Hs.
  - intros q p s Hs.
    destruct (schools_get_list_eq db (Schools.with_paging q p (Js.Str s))) as (c & _ & ->).
    apply list_steps_bad_limit, never_integer_none. exact Hs.
  - intros q p s Hs.
    destruct (students_get_list_eq db (Students.with_paging q p (Js.Str s))) as (c & _ & ->).
    apply list_steps_bad_limit, never_integer_none. exact Hs.
Qed.

Lemma paging_defaults_only_when_absent_witness :
  Js.starts_non_numeric "abc" = true
  /\ Schools.get_list (Sample.portal Sample.three_schools [] [])
       (Schools.with_paging Sample.no_query (Js.Str "abc") Js.Undefined)
     = Failure 500 "Failed to fetch schools".
Proof.
  split; [reflexivity|].
  destruct (paging_defaults_only_when_absent (Sample.portal Sample.three_schools [] []))
    as (_ & _ & H & _).
  exact (H Sample.no_query "abc" Js.Undefined eq_refl).
Defined.

(** C6, counterexample: [GET /api/schools?page=abc] on three schools is
    answered 500, not with the response of the default page. *)
Lemma non_numeric_page_is_not_defaulted :
  Schools.get_list (Sample.portal Sample.three_schools [] [])
    (Schools.with_paging Sample.no_query (Js.Str "abc") Js.Undefined)
  = Failure 500 "Failed to fetch schools"
  /\ Schools.get_list (Sample.portal Sample.three_schools [] [])
       (Schools.with_paging Sample.no_query (Js.Str "abc") Js.Undefined)
     <> Schools.get_list (Sample.portal Sample.three_schools [] [])
          (Schools.with_paging Sample.no_query Js.Undefined Js.Undefined).
Proof.
  split; [vm_compute; reflexivity|].
  vm_compute. discriminate.
Qed.

(** ** The failing evaluations *)

(** C1, at the failing input: with no matching row ([page=1], the default
    limit) both list routes answer 500 instead of an empty data array. *)
Theorem list_without_match_is_a_server_fault :
  Schools.get_list (Sample.portal [] [] [])
    (Schools.with_paging Sample.no_query (Js.Str "1") (Js.Str "20"))
  = Failure 500 "Failed to fetch schools"
  /\ Students.get_list (Sample.portal Sample.three_schools [] [])
       (Students.with_paging Sample.no_student_query (Js.Str "1") (Js.Str "50"))
     = Failure 500 "Failed to fetch students".
Proof. split; vm_compute; reflexivity. Qed.


(** C2, at the failing input: for [page=2&limit=20&search=Public] with 45
    matching rows the envelope reports [total] and [pages] as NaN, where
    [ceil(45/20)] is 3, and 20 rows; a search that matches nothing is
    answered 500. *)
Theorem pages_of_forty_five_rows_is_NaN :
  length_and_envelope
    (Schools.get_list (Sample.portal Sample.public_schools [] [])
       (Schools.with_paging (Sample.search_for "Public") (Js.Str "2") (Js.Str "20")))
  = Some (20%nat, {| pg_page := Js.Int 2; pg_limit := Js.Int 20;
                     pg_total := Js.NaN; pg_pages := Js.NaN |})
  /\ Js.ceil_div (Js.Int 45) (Js.Int 20) = Js.Int 3
  /\ Schools.get_list (Sample.portal Sample.public_schools [] [])
       (Schools.with_paging (Sample.search_for "Private") (Js.Str "1") (Js.Str "20"))
     = Failure 500 "Failed to fetch schools".
Proof. repeat split; vm_compute; reflexivity. Qed.

(** ** LIKE patterns *)

Lemma like_percent_here (p s : list ascii) :
  Sql.like p s = true -> Sql.like ("%"%char :: p) s = true.
Proof. intros H. destruct s; simpl; rewrite H; reflexivity. Qed.

Lemma like_percent_skip (p : list ascii) (c : ascii) (s : list ascii) :
  Sql.like ("%"%char :: p) s = true -> Sql.like ("%"%char :: p) (c :: s) = true.
Proof. intros H. simpl in *. rewrite H. apply orb_true_r. Qed.

Lemma like_percent_any (s : list ascii) : Sql.like ["%"%char] s = true.
Proof.
  induction s as [|c s IH]; [reflexivity|].
  apply like_percent_skip. exact IH.
Qed.

Lemma like_three_percent (s : list ascii) :
  Sql.like ["%"; "%"; "%"]%char s = true.
Proof. do 2 apply like_percent_here. apply like_percent_any. Qed.

Lemma like_underscore (s : list ascii) :
  Sql.like ["%"; "_"; "%"]%char s = negb (match s with [] => true | _ => false end).
Proof.
  destruct s as [|c s]; [reflexivity|].
  apply like_percent_here. simpl Sql.like at 1.
  change (Sql.like ["%"%char] s = true). apply like_percent_any.
Qed.

Lemma ilike_percent (t : string) : Sql.ilike (Some t) (Some "%%%") = true.
Proof. unfold Sql.ilike. apply like_three_percent. Qed.

Lemma ilike_underscore (t : string) :
  Sql.ilike (Some t) (Some "%_%") = negb (String.eqb t "").
Proof.
  unfold Sql.ilike.
  change (map Sql.lower (list_ascii_of_string "%_%")) with ["%"; "_"; "%"]%char.
  rewrite like_underscore. destruct t; reflexivity.
Qed.

(** C10: a non-empty search text [s] is bound, unchanged, as the pattern
    ["%" ++ s ++ "%"] of both ILIKE operands of the parsed statement, on both
    routes; with [s = "%"] the schools search condition holds for every row
    whose name is not NULL, [_] matches every non-empty text, an escaped
    percent does not match a name without one, and on three schools the
    search for [%] returns what no search returns. *)
Theorem search_text_is_a_raw_pattern :
  (forall q s, Schools.search q = Js.Str s -> s <> "" ->
     exists front conds,
       params (Schools.filters q)
       = front ++ [Js.Str ("%" +:+ s +:+ "%"); Js.Str ("%" +:+ s +:+ "%")]
       /\ Sql.parse (query (Schools.filters q))
          = Some (Schools.statement (conds ++ [Schools.search_cond (S (length front))])))
  /\ (forall q s, Students.search q = Js.Str s -> s <> "" ->
     exists front conds,
       params (Students.filters q)
       = front ++ [Js.Str ("%" +:+ s +:+ "%"); Js.Str ("%" +:+ s +:+ "%")]
       /\ Sql.parse (query (Students.filters q))
          = Some (Students.statement (conds ++ [Students.search_cond (S (length front))])))
  /\ (forall front e t,
        Sql.text_of (Sql.eval_col e "s.name") = Some t ->
        Sql.eval_cond (front ++ [Js.Str ("%" +:+ "%" +:+ "%"); Js.Str ("%" +:+ "%" +:+ "%")]) e
          (Schools.search_cond (S (length front))) = true)
  /\ (forall t, Sql.ilike (Some t) (Some ("%" +:+ "_" +:+ "%")) = negb (String.eqb t ""))
  /\ Sql.ilike (Some "Zenith Vidyalaya") (Some "%\%%") = false
  /\ Schools.get_list (Sample.portal Sample.three_schools [] []) (Sample.search_for "%")
     = Schools.get_list (Sample.portal Sample.three_schools [] []) Sample.no_query.
Proof.
  split; [|split; [|split; [|split; [|split]]]].
  - intros q s Hs Hne.
    assert (Js.truthy (Schools.search q) = true) as Ht.
    { rewrite Hs. simpl. destruct s; [congruence|reflexivity]. }
    unfold Schools.filters, and_equals, and_search. rewrite Ht, Hs.
    destruct (Js.truthy (Schools.district_id q)), (Js.truthy (Schools.block_id q));
      cbn [query params paramCount Js.to_string].
    + exists [Js.default (Schools.status q) (Js.Str "Active"); Schools.district_id q; Schools.block_id q].
      eexists [_; _]. split; [reflexivity|]. compute_lhs. reflexivity.
    + exists [Js.default (Schools.status q) (Js.Str "Active"); Schools.district_id q].
      eexists [_]. split; [reflexivity|]. compute_lhs. reflexivity.
    + exists [Js.default (Schools.status q) (Js.Str "Active"); Schools.block_id q].
      eexists [_]. split; [reflexivity|]. compute_lhs. reflexivity.
    + exists [Js.default (Schools.status q) (Js.Str "Active")].
      exists []. split; [reflexivity|]. compute_lhs. reflexivity.
  - intros q s Hs Hne.
    assert (Js.truthy (Students.search q) = true) as Ht.
    { rewrite Hs. simpl. destruct s; [congruence|reflexivity]. }
    unfold Students.filters, and_equals, and_search. rewrite Ht, Hs.
    destruct (Js.truthy (Students.school_id q)), (Js.truthy (Students.class_number q)),
      (Js.truthy (Students.section q));
      cbn [query params paramCount Js.to_string].
    + exists [Js.default (Students.status q) (Js.Str "Active"); Students.school_id q;
              Students.class_number q; Students.section q].
      eexists [_; _; _]. split; [reflexivity|]. compute_lhs. reflexivity.
    + exists [Js.default (Students.status q) (Js.Str "Active"); Students.school_id q;
              Students.class_number q].
      eexists [_; _]. split; [reflexivity|]. compute_lhs. reflexivity.
    + exists [Js.default (Students.status q) (Js.Str "Active"); Students.school_id q;
              Students.section q].
      eexists [_; _]. split; [reflexivity|]. compute_lhs. reflexivity.
    + exists [Js.default (Students.status q) (Js.Str "Active"); Students.school_id q].
      eexists [_]. split; [reflexivity|]. compute_lhs. reflexivity.
    + exists [Js.default (Students.status q) (Js.Str "Active"); Students.class_number q;
              Students.section q].
      eexists [_; _]. split; [reflexivity|]. compute_lhs. reflexivity.
    + exists [Js.default (Students.status q) (Js.Str "Active"); Students.class_number q].
      eexists [_]. split; [reflexivity|]. compute_lhs. reflexivity.
    + exists [Js.default (Students.status q) (Js.Str "Active"); Students.section q].
      eexists [_]. split; [reflexivity|]. compute_lhs. reflexivity.
    + exists [Js.default (Students.status q) (Js.Str "Active")].
      exists []. split; [reflexivity|]. compute_lhs. reflexivity.
  - intros front e t Ht. unfold Schools.search_cond, Sql.eval_cond.
    destruct (param_last2 front (Js.Str "%%%") (Js.Str "%%%")) as [H1 _].
    unfold Sql.param_text. change ("%" +:+ "%" +:+ "%") with "%%%". rewrite H1.
    cbn [Sql.bind Sql.concat_operands]. rewrite Ht.
    apply orb_true_iff. left.
    unfold Sql.ilike. apply like_three_percent.
  - intros t. apply ilike_underscore.
  - vm_compute. reflexivity.
  - vm_compute. reflexivity.
Qed.

Lemma search_text_is_a_raw_pattern_witness :
  Schools.search (Sample.search_for "100%") = Js.Str "100%"
  /\ "100%" <> ""
  /\ exists front conds,
       params (Schools.filters (Sample.search_for "100%"))
       = front ++ [Js.Str "%100%%"; Js.Str "%100%%"]
       /\ Sql.parse (query (Schools.filters (Sample.search_for "100%")))
          = Some (Schools.statement (conds ++ [Schools.search_cond (S (length front))])).
Proof.
  split; [reflexivity|]. split; [discriminate|].
  destruct search_text_is_a_raw_pattern as (H & _).
  exact (H (Sample.search_for "100%") "100%" eq_refl ltac:(discriminate)).
Defined.

(** ** The order of ORDER BY *)









(** ** Insertion sort *)

Section Sorting.
Context {A : Type} (le : A -> A -> bool).

Lemma insert_sorted_perm (x : A) (l : list A) :
  Permutation (Sql.insert_sorted le x l) (x :: l).
Proof.
  induction l as [|y l IH]; simpl; [reflexivity|].
  destruct (le x y); [reflexivity|].
  rewrite IH. apply perm_swap.
Qed.

Lemma sort_by_perm (l : list A) : Permutation (Sql.sort_by le l) l.
Proof.
  induction l as [|x l IH]; simpl; [reflexivity|].
  unfold Sql.sort_by in *. simpl. rewrite insert_sorted_perm. constructor. exact IH.
Qed.

Lemma sort_by_length (l : list A) : length (Sql.sort_by le l) = length l.
Proof. apply Permutation_length, sort_by_perm. Qed.

Lemma sort_by_In (l : list A) (x : A) : In x (Sql.sort_by le l) <-> In x l.
Proof.
  split; apply Permutation_in; [apply sort_by_perm | symmetry; apply sort_by_perm].
Qed.

Hypothesis le_total : forall a b, le a b = true \/ le b a = true.
Hypothesis le_trans : forall a b c, le a b = true -> le b c = true -> le a c = true.


End Sorting.







(** ** Joins *)






Lemma eval_col_star (e : Sql.env) (r : Sql.row) (c : string) :
  Sql.assoc "s" e = Some r -> Sql.eval_col e ("s" +:+ "." +:+ c) = Sql.column c r.
Proof.
  intros H. unfold Sql.eval_col.
  change (Sql.split_dot ("s" +:+ "." +:+ c)) with (Some ("s", c)).
  cbv beta iota. rewrite H. reflexivity.
Qed.

Lemma scope_of_students db q sc :
  Sql.sel_table q = "students" -> Sql.sel_alias q = "s" ->
  Sql.scope_of db q = Ok sc ->
  Sql.assoc "s" sc = Some (Sql.table_columns db "students").
Proof.
  intros Ht Ha. unfold Sql.scope_of, Sql.columns_of, Sql.table_columns. rewrite Ht, Ha.
  destruct (Sql.assoc "students" (Sql.db_tables db)) as [tb|]; [|discriminate].
  rewrite rbind_ret. destruct (Sql.scope_of_joins db (Sql.sel_joins q)); [|discriminate].
  rewrite rbind_ret. intros [= <-]. reflexivity.
Qed.






(** ** Attendance *)




Lemma in_firstn {A} (n : nat) (l : list A) (x : A) : In x (firstn n l) -> In x l.
Proof.
  intros H. rewrite <- (firstn_skipn n l). apply in_or_app. left. exact H.
Qed.


Lemma check_fails_on_cast db q ps col c n v t :
  Sql.sel_table q = "students" -> Sql.sel_alias q = "s" ->
  Sql.split_dot col = Some ("s", c) ->
  Sql.assoc c (Sql.table_columns db "students") = Some Sql.KInt ->
  In (Sql.CEq col n) (Sql.sel_where q) ->
  Sql.param ps n = Some v -> Sql.bind v = Some t -> Sql.int_of_text t = None ->
  exists e, Sql.check db q ps = Err e.
Proof.
  intros Ht Ha Hsplit Hk Hin Hp Hb Hi.
  destruct (Sql.check db q ps) as [pl|e] eqn:Hcheck; [exfalso|eauto].
  unfold Sql.check in Hcheck.
  apply rbind_ok in Hcheck as (sc & Hsc & Hcheck).
  apply rbind_ok in Hcheck as (? & _ & Hcheck).
  apply rbind_ok in Hcheck as (? & _ & Hcheck).
  apply rbind_ok in Hcheck as (? & _ & Hcheck).
  apply rbind_ok in Hcheck as (? & Hconds & _).
  apply rmap_list_ok in Hconds. rewrite List.Forall_forall in Hconds.
  destruct (Hconds _ Hin) as (b & Hc).
  apply (scope_of_students db q sc Ht Ha) in Hsc.
  unfold Sql.check_cond, Sql.resolve in Hc. rewrite Hsplit, Hsc, Hk in Hc.
  rewrite rbind_ret in Hc. unfold Sql.check_param_cast in Hc.
  rewrite Hp, Hb, Hi in Hc. discriminate Hc.
Qed.




(** ** Pages of the list routes *)

Lemma bound_of_numeral what z :
  (0 <= z <= max_safe_integer)%Z ->
  Sql.check_bound what [Js.Str (dec_of_Z z)] (Some (Sql.BParam 1)) = Ok (Some z).
Proof.
  intros [H0 H1]. unfold Sql.check_bound. cbn [Sql.param nth_error Sql.bind].
  rewrite int_of_text_dec.
  apply Z.ltb_ge in H0. rewrite H0.
  assert ((Sql.int8_max <? z)%Z = false) as ->; [|reflexivity].
  apply Z.ltb_ge. unfold max_safe_integer, Sql.int8_max in *. lia.
Qed.

Lemma bound_of_number what z :
  (0 <= z <= max_safe_integer)%Z ->
  Sql.check_bound what [Js.Num (Js.Int z)] (Some (Sql.BParam 1)) = Ok (Some z).
Proof.
  intros [H0 H1]. unfold Sql.check_bound. cbn [Sql.param nth_error Sql.bind].
  rewrite int_of_text_dec.
  apply Z.ltb_ge in H0. rewrite H0.
  assert ((Sql.int8_max <? z)%Z = false) as ->; [|reflexivity].
  apply Z.ltb_ge. unfold max_safe_integer, Sql.int8_max in *. lia.
Qed.

Lemma offset_of_numerals p l :
  (0 <= p)%Z -> (0 <= l)%Z ->
  offset_of (Js.Str (dec_of_Z p)) (Js.Str (dec_of_Z l)) = Js.Int ((p - 1) * l).
Proof.
  intros Hp Hl. unfold offset_of. cbn [Js.to_number].
  rewrite !to_number_dec by assumption. reflexivity.
Qed.

Lemma list_steps_window db q0 keys ps p l pl :
  (1 <= p)%Z -> (1 <= l <= max_safe_integer)%Z -> ((p - 1) * l <= max_safe_integer)%Z ->
  Sql.check db q0 ps = Ok pl -> Sql.matching db q0 ps <> [] ->
  list_steps db q0 keys ps (Js.Str (dec_of_Z p)) (Js.Str (dec_of_Z l))
  = Ok (ListOk
          (page_of_rows p l
             (map (Sql.project db (Sql.pl_scope pl) q0)
                (Sql.sort_by (Sql.env_le keys) (Sql.matching db q0 ps))))
          (envelope p l)).
Proof.
  intros Hp Hl Ho Hc Hm. unfold list_steps. rewrite Hc, rbind_ret.
  destruct (Sql.matching db q0 ps) as [|e es] eqn:E; [congruence|].
  rewrite bound_of_numeral by lia. rewrite rbind_ret.
  rewrite offset_of_numerals by lia.
  rewrite bound_of_number by nia. rewrite rbind_ret.
  unfold Sql.window, page_of_rows, envelope. cbn [Js.parseInt].
  rewrite !parse_int_dec by lia.
  rewrite skipn_map, firstn_map. reflexivity.
Qed.

Lemma listing_nonempty db text ps keys q :
  Sql.parse text = Some q -> listing db text ps keys <> [] ->
  exists pl, Sql.check db q ps = Ok pl /\ Sql.matching db q ps <> []
             /\ listing db text ps keys
                = map (Sql.project db (Sql.pl_scope pl) q)
                    (Sql.sort_by (Sql.env_le keys) (Sql.matching db q ps)).
Proof.
  intros Hp. unfold listing. rewrite Hp.
  destruct (Sql.check db q ps) as [pl|]; [|congruence].
  intros Hne. exists pl. split; [reflexivity|]. split; [|reflexivity].
  intros Hm. apply Hne. rewrite Hm. reflexivity.
Qed.

(** X1: for numerals [page >= 1] and [limit >= 1] within the safe integers,
    a list request whose filters match at least one row is answered 200 with
    the rows [(page - 1) * limit + 1 .. page * limit] of the listing, that
    is, of the matching rows in the order of the route; the envelope carries
    the two numbers, and the page holds [limit] rows, or what is left of the
    listing, or none. *)
Theorem list_page_is_a_window_of_the_listing (db : Sql.database) (p l : Z) :
  (1 <= p)%Z -> (1 <= l <= max_safe_integer)%Z -> ((p - 1) * l <= max_safe_integer)%Z ->
  (forall q, schools_listing db q <> [] ->
     Schools.get_list db (Schools.with_paging q (Js.Str (dec_of_Z p)) (Js.Str (dec_of_Z l)))
     = ListOk (page_of_rows p l (schools_listing db q)) (envelope p l))
  /\ (forall q, students_listing db q <> [] ->
     Students.get_list db (Students.with_paging q (Js.Str (dec_of_Z p)) (Js.Str (dec_of_Z l)))
     = ListOk (page_of_rows p l (students_listing db q)) (envelope p l))
  /\ (forall A (rows : list A),
        length (page_of_rows p l rows)
        = Z.to_nat (Z.max 0 (Z.min l (Z.of_nat (length rows) - (p - 1) * l)))).
Proof.
  intros Hp Hl Ho. split; [|split].
  - intros q Hne.
    destruct (schools_get_list_eq db (Schools.with_paging q (Js.Str (dec_of_Z p)) (Js.Str (dec_of_Z l))))
      as (conds & Hparse & ->).
    change (Schools.filters (Schools.with_paging q (Js.Str (dec_of_Z p)) (Js.Str (dec_of_Z l))))
      with (Schools.filters q) in *.
    destruct (listing_nonempty db _ _ _ _ Hparse Hne) as (pl & Hc & Hm & Hl').
    cbn [Js.default Schools.page Schools.limit Schools.with_paging].
    rewrite (list_steps_window db _ _ _ p l pl Hp Hl Ho Hc Hm).
    unfold schools_listing. rewrite Hl'. reflexivity.
  - intros q Hne.
    destruct (students_get_list_eq db (Students.with_paging q (Js.Str (dec_of_Z p)) (Js.Str (dec_of_Z l))))
      as (conds & Hparse & ->).
    change (Students.filters (Students.with_paging q (Js.Str (dec_of_Z p)) (Js.Str (dec_of_Z l))))
      with (Students.filters q) in *.
    destruct (listing_nonempty db _ _ _ _ Hparse Hne) as (pl & Hc & Hm & Hl').
    cbn [Js.default Students.page Students.limit Students.with_paging].
    rewrite (list_steps_window db _ _ _ p l pl Hp Hl Ho Hc Hm).
    unfold students_listing. rewrite Hl'. reflexivity.
  - intros A rows. unfold page_of_rows.
    rewrite length_firstn, length_skipn.
    assert (0 <= (p - 1) * l)%Z as Hnn by nia.
    generalize dependent ((p - 1) * l)%Z. intros o _ Hnn. lia.
Qed.

Lemma list_page_is_a_window_of_the_listing_witness :
  let db := Sample.portal Sample.public_schools [] [] in
  let q := Sample.search_for "Public" in
  schools_listing db q <> []
  /\ Schools.get_list db (Schools.with_paging q (Js.Str (dec_of_Z 3)) (Js.Str (dec_of_Z 20)))
     = ListOk (page_of_rows 3 20 (schools_listing db q)) (envelope 3 20)
  /\ length (page_of_rows 3 20 (schools_listing db q)) = 5%nat.
Proof.
  intros db q.
  assert (schools_listing db q <> []) as Hne by (vm_compute; discriminate).
  assert (1 <= 3)%Z as H1 by lia.
  assert (1 <= 20 <= max_safe_integer)%Z as H2 by (unfold max_safe_integer; lia).
  assert ((3 - 1) * 20 <= max_safe_integer)%Z as H3 by (unfold max_safe_integer; lia).
  destruct (list_page_is_a_window_of_the_listing db 3 20 H1 H2 H3) as (Hs & _ & Hlen).
  split; [exact Hne|]. split; [exact (Hs q Hne)|].
  rewrite Hlen. vm_compute. reflexivity.
Defined.

(** ** What the rows of a page satisfy *)

Lemma in_skipn {A} (n : nat) (l : list A) (x : A) : In x (skipn n l) -> In x l.
Proof.
  intros H. rewrite <- (firstn_skipn n l). apply in_or_app. right. exact H.
Qed.

Lemma in_window {A} lim off (l : list A) (x : A) : In x (Sql.window lim off l) -> In x l.
Proof.
  unfold Sql.window. intros H.
  assert (In x (match off with Some o => skipn (Z.to_nat o) l | None => l end)) as H'.
  { destruct lim; [apply in_firstn in H|]; exact H. }
  destruct off; [apply in_skipn in H'|]; exact H'.
Qed.

Lemma list_steps_rows db q0 keys ps page limit error rows pg r :
  catch error (list_steps db q0 keys ps page limit) = ListOk rows pg ->
  In r rows ->
  exists pl e, In e (Sql.matching db q0 ps) /\ r = Sql.project db (Sql.pl_scope pl) q0 e.
Proof.
  unfold list_steps.
  destruct (Sql.check db q0 ps) as [pl|]; [|discriminate].
  rewrite rbind_ret.
  destruct (Sql.matching db q0 ps) as [|e0 es] eqn:Hm; [discriminate|].
  destruct (Sql.check_bound "LIMIT" _ _) as [lim|]; [|discriminate].
  rewrite rbind_ret.
  destruct (Sql.check_bound "OFFSET" _ _) as [off|]; [|discriminate].
  rewrite rbind_ret. cbn [catch]. intros H Hr. injection H as <- _.
  apply in_map_iff in Hr as (e & <- & He).
  apply in_window in He.
  apply (proj1 (sort_by_In (Sql.env_le keys) (e0 :: es) e)) in He.
  exists pl, e. split; [exact He|reflexivity].
Qed.

Lemma ilike_one_operand e c pat :
  Sql.ilike (Sql.concat_operands e [Sql.OCol c]) pat = Sql.ilike (Sql.text_of (Sql.eval_col e c)) pat.
Proof.
  cbn [Sql.concat_operands]. destruct (Sql.text_of (Sql.eval_col e c)); [|reflexivity].
  rewrite append_nil_r. reflexivity.
Qed.

Lemma concat_full_name e :
  Sql.concat_operands e [Sql.OCol "s.first_name"; Sql.OLit " "; Sql.OCol "s.last_name"]
  = match Sql.text_of (Sql.eval_col e "s.first_name"), Sql.text_of (Sql.eval_col e "s.last_name") with
    | Some a, Some b => Some (a +:+ " " +:+ b)
    | _, _ => None
    end.
Proof.
  cbn [Sql.concat_operands].
  destruct (Sql.text_of (Sql.eval_col e "s.first_name")) as [a|];
    destruct (Sql.text_of (Sql.eval_col e "s.last_name")) as [b|]; try reflexivity.
  rewrite append_nil_r. reflexivity.
Qed.

Lemma truthy_text s : s <> "" -> Js.truthy (Js.Str s) = true.
Proof. destruct s; [congruence|reflexivity]. Qed.

Ltac split_conds H :=
  cbn [forallb Sql.eval_cond Sql.param_text Sql.param nth_error] in H;
  repeat match type of H with
         | (_ && _ = true) => let H1 := fresh "Hc" in
                              apply andb_prop in H as [H1 H]
         end.

Lemma schools_where q :
  exists conds,
    Sql.parse (query (Schools.filters q)) = Some (Schools.statement conds)
    /\ forall e,
         forallb (Sql.eval_cond (params (Schools.filters q)) e)
           (Sql.CEq "s.status" 1 :: conds) = true ->
         Sql.eq_param (Sql.eval_col e "s.status") (schools_status q) = true
         /\ (forall s, Schools.search q = Js.Str s -> s <> "" ->
               Sql.ilike (Sql.text_of (Sql.eval_col e "s.name")) (search_pattern s)
               || Sql.ilike (Sql.text_of (Sql.eval_col e "s.school_code")) (search_pattern s)
               = true).
Proof.
  unfold Schools.filters, and_equals, and_search, schools_status, search_pattern.
  destruct (Js.truthy (Schools.search q)) eqn:Ht;
  destruct (Js.truthy (Schools.district_id q)), (Js.truthy (Schools.block_id q));
    cbn [query params paramCount]; eexists;
    (split; [compute_lhs; reflexivity|]);
    intros e H; split_conds H;
    (split; [assumption|]); intros s Hs Hne;
    try (rewrite Hs, truthy_text in Ht by assumption; discriminate Ht);
    rewrite Hs in *; cbn [Js.to_string Sql.bind] in *;
    rewrite ilike_one_operand in *; assumption.
Qed.

Lemma students_where q :
  exists conds,
    Sql.parse (query (Students.filters q)) = Some (Students.statement conds)
    /\ forall e,
         forallb (Sql.eval_cond (params (Students.filters q)) e)
           (Sql.CEq "s.status" 1 :: conds) = true ->
         Sql.eq_param (Sql.eval_col e "s.status") (students_status q) = true
         /\ (Js.truthy (Students.class_number q) = true ->
               Sql.eq_param (Sql.eval_col e "s.class_number")
                 (Sql.bind (Students.class_number q)) = true)
         /\ (Js.truthy (Students.section q) = true ->
               Sql.eq_param (Sql.eval_col e "s.section")
                 (Sql.bind (Students.section q)) = true)
         /\ (forall s, Students.search q = Js.Str s -> s <> "" ->
               Sql.ilike
                 (Sql.concat_operands e
                    [Sql.OCol "s.first_name"; Sql.OLit " "; Sql.OCol "s.last_name"])
                 (search_pattern s)
               || Sql.ilike (Sql.text_of (Sql.eval_col e "s.admission_no")) (search_pattern s)
               = true).
Proof.
  unfold Students.filters, and_equals, and_search, students_status, search_pattern.
  destruct (Js.truthy (Students.search q)) eqn:Ht;
  destruct (Js.truthy (Students.school_id q)),
    (Js.truthy (Students.class_number q)) eqn:Hcl,
    (Js.truthy (Students.section q)) eqn:Hse;
    cbn [query params paramCount]; eexists;
    (split; [compute_lhs; reflexivity|]);
    intros e H; split_conds H;
    (split; [assumption|]);
    (split; [intros Hx; try discriminate Hx; assumption|]);
    (split; [intros Hx; try discriminate Hx; assumption|]);
    intros s Hs Hne;
    try (rewrite Hs, truthy_text in Ht by assumption; discriminate Ht);
    rewrite Hs in *; cbn [Js.to_string Sql.bind] in *; assumption.
Qed.

(** X3: every row of a 200 response of a list route has the status the
    request asked for (Active when it named none); when the request carries
    a search text, the row's name or code (for a student: full name or
    admission number) matches the pattern made of the text; and a students
    row has the class number and the section that the request named. *)
Theorem returned_rows_satisfy_the_filters (db : Sql.database) :
  (forall q rows pg r,
     Schools.get_list db q = ListOk rows pg -> In r rows ->
     Sql.eq_param (Sql.column "status" r) (schools_status q) = true
     /\ (forall s, Schools.search q = Js.Str s -> s <> "" ->
           Sql.ilike (Sql.text_of (Sql.column "name" r)) (search_pattern s)
           || Sql.ilike (Sql.text_of (Sql.column "school_code" r)) (search_pattern s)
           = true))
  /\ (forall q rows pg r,
     Students.get_list db q = ListOk rows pg -> In r rows ->
     Sql.eq_param (Sql.column "status" r) (students_status q) = true
     /\ (Js.truthy (Students.class_number q) = true ->
           Sql.eq_param (Sql.column "class_number" r)
             (Sql.bind (Students.class_number q)) = true)
     /\ (Js.truthy (Students.section q) = true ->
           Sql.eq_param (Sql.column "section" r) (Sql.bind (Students.section q)) = true)
     /\ (forall s, Students.search q = Js.Str s -> s <> "" ->
           Sql.ilike (students_full_name r) (search_pattern s)
           || Sql.ilike (Sql.text_of (Sql.column "admission_no" r)) (search_pattern s)
           = true)).
Proof.
  split.
  - intros q rows pg r Hl Hr.
    destruct (schools_get_list_eq db q) as (conds & Hp & Heq).
    destruct (schools_where q) as (conds' & Hp' & Hw).
    rewrite Hp in Hp'. injection Hp' as <-.
    rewrite Heq in Hl.
    destruct (list_steps_rows _ _ _ _ _ _ _ _ _ _ Hl Hr) as (pl & e & He & ->).
    apply filter_In in He as [_ He].
    exact (Hw e He).
  - intros q rows pg r Hl Hr.
    destruct (students_get_list_eq db q) as (conds & Hp & Heq).
    destruct (students_where q) as (conds' & Hp' & Hw).
    rewrite Hp in Hp'. injection Hp' as <-.
    rewrite Heq in Hl.
    destruct (list_steps_rows _ _ _ _ _ _ _ _ _ _ Hl Hr) as (pl & e & He & ->).
    apply filter_In in He as [_ He].
    destruct (Hw e He) as (H1 & H2 & H3 & H4).
    split; [exact H1|]. split; [exact H2|]. split; [exact H3|].
    intros s Hs Hne. specialize (H4 s Hs Hne).
    rewrite concat_full_name in H4. exact H4.
Qed.

Lemma returned_rows_satisfy_the_filters_witness :
  let db := Sample.portal Sample.three_schools [] [] in
  exists rows pg r,
    Schools.get_list db (Sample.search_for "high") = ListOk rows pg
    /\ In r rows
    /\ Sql.eq_param (Sql.column "status" r) (Some "Active") = true
    /\ Sql.ilike (Sql.text_of (Sql.column "name" r)) (search_pattern "high")
        || Sql.ilike (Sql.text_of (Sql.column "school_code" r)) (search_pattern "high")
        = true.
Proof.
  intros db.
  assert (exists r rows pg,
            Schools.get_list db (Sample.search_for "high") = ListOk (r :: rows) pg)
    as (r & rows & pg & Hl) by (vm_compute; do 3 eexists; reflexivity).
  exists (r :: rows), pg, r.
  assert (In r (r :: rows)) as Hin by (left; reflexivity).
  destruct (returned_rows_satisfy_the_filters db) as (H & _).
  destruct (H (Sample.search_for "high") (r :: rows) pg r Hl Hin) as (Hst & Hse).
  split; [exact Hl|]. split; [exact Hin|]. split; [exact Hst|].
  apply (Hse "high"); [reflexivity | discriminate].
Defined.

(** ** Pages outside the listing *)

Lemma to_number_minus s z :
  numeral s -> all_digits_val s 0 = Some z ->
  Js.string_to_number (String "-" s) = Js.Int (- z).
Proof.
  intros Hs Hv. unfold Js.string_to_number, trim, trim_start.
  assert (str_rev (drop_while is_js_space (str_rev (drop_while is_js_space (String "-" s))))
          = String "-" s) as ->.
  { destruct Hs as [c Hc | c t d Hc Ht Hd].
    - change (String "-" (String c "")) with (String "-" ("" +:+ String c "")).
      apply trim_both_fixed; [reflexivity | apply digit_not_space; auto].
    - change (String "-" (String c (t +:+ String d "")))
        with (String "-" (String c t +:+ String d "")).
      apply trim_both_fixed; [reflexivity | apply digit_not_space; auto]. }
  change (Ascii.eqb "-" "-") with true. cbv iota.
  destruct (numeral_head s Hs) as (c & rest & -> & Hc). rewrite Hv. reflexivity.
Qed.

Lemma to_number_of_dec (z : Z) : Js.string_to_number (dec_of_Z z) = Js.Int z.
Proof.
  destruct (Z.ltb_spec z 0) as [Hz|Hz]; [|apply to_number_dec; exact Hz].
  unfold dec_of_Z. apply Z.ltb_lt in Hz. rewrite Hz. apply Z.ltb_lt in Hz.
  destruct (dec_of_nat_numeral (Z.to_nat (- z))) as [Hn Hv].
  change ("-" +:+ dec_of_nat (Z.to_nat (- z))) with (String "-" (dec_of_nat (Z.to_nat (- z)))).
  rewrite (to_number_minus _ _ Hn Hv). f_equal. lia.
Qed.

Lemma bound_negative what v z :
  Sql.bind v = Some (dec_of_Z z) -> (z < 0)%Z ->
  Sql.check_bound what [v] (Some (Sql.BParam 1)) = Err (what +:+ " must not be negative").
Proof.
  intros Hb Hz. unfold Sql.check_bound. cbn [Sql.param nth_error]. rewrite Hb.
  rewrite int_of_text_dec. apply Z.ltb_lt in Hz. rewrite Hz. reflexivity.
Qed.

Lemma list_steps_before_first_page db q0 keys ps p l error :
  (p <= 0)%Z -> (1 <= l)%Z ->
  catch error (list_steps db q0 keys ps (Js.Str (dec_of_Z p)) (Js.Str (dec_of_Z l)))
  = Failure 500 error.
Proof.
  intros Hp Hl. unfold list_steps.
  destruct (Sql.check db q0 ps) as [pl|]; [|reflexivity].
  rewrite rbind_ret.
  destruct (Sql.matching db q0 ps) as [|e0 es]; [reflexivity|].
  destruct (Sql.check_bound "LIMIT" _ _) as [lim|]; [|reflexivity].
  rewrite rbind_ret.
  unfold offset_of. cbn [Js.to_number]. rewrite !to_number_of_dec.
  cbn [Js.sub Js.neg Js.add Js.mul].
  rewrite (bound_negative "OFFSET" _ ((p + - (1)) * l)); [reflexivity|reflexivity|nia].
Qed.

Lemma list_steps_negative_limit db q0 keys ps page l error :
  (l < 0)%Z ->
  catch error (list_steps db q0 keys ps page (Js.Str (dec_of_Z l))) = Failure 500 error.
Proof.
  intros Hl. unfold list_steps.
  destruct (Sql.check db q0 ps) as [pl|]; [|reflexivity].
  rewrite rbind_ret.
  destruct (Sql.matching db q0 ps) as [|e0 es]; [reflexivity|].
  rewrite (bound_negative "LIMIT" _ l); [reflexivity|reflexivity|exact Hl].
Qed.

Lemma list_steps_limit_zero db q0 keys ps p pl :
  (0 <= p)%Z ->
  Sql.check db q0 ps = Ok pl -> Sql.matching db q0 ps <> [] ->
  list_steps db q0 keys ps (Js.Str (dec_of_Z p)) (Js.Str "0")
  = Ok (ListOk [] (envelope p 0)).
Proof.
  intros Hp Hc Hm. unfold list_steps. rewrite Hc, rbind_ret.
  destruct (Sql.matching db q0 ps) as [|e es] eqn:E; [congruence|].
  change (Js.Str "0") with (Js.Str (dec_of_Z 0)).
  rewrite bound_of_numeral by (unfold max_safe_integer; lia). rewrite rbind_ret.
  unfold offset_of. cbn [Js.to_number]. rewrite !to_number_of_dec.
  cbn [Js.sub Js.neg Js.add Js.mul]. rewrite Z.mul_0_r.
  rewrite bound_of_number by (unfold max_safe_integer; lia). rewrite rbind_ret.
  unfold Sql.window, envelope. cbn [Js.parseInt].
  rewrite !parse_int_dec by lia. reflexivity.
Qed.

(** X4: on both list routes a page numeral of zero or less, with a limit
    of one or more, is answered 500, and so is a negative limit with any
    page; a limit of [0], with a page numeral from 0 up to the largest safe
    integer, is answered 200 with no rows when the filters match a row. *)
Theorem pages_outside_the_listing (db : Sql.database) :
  (forall q p l, (p <= 0)%Z -> (1 <= l)%Z ->
     Schools.get_list db (Schools.with_paging q (Js.Str (dec_of_Z p)) (Js.Str (dec_of_Z l)))
     = Failure 500 "Failed to fetch schools")
  /\ (forall q p l, (p <= 0)%Z -> (1 <= l)%Z ->
     Students.get_list db (Students.with_paging q (Js.Str (dec_of_Z p)) (Js.Str (dec_of_Z l)))
     = Failure 500 "Failed to fetch students")
  /\ (forall q page l, (l < 0)%Z ->
     Schools.get_list db (Schools.with_paging q (Js.Str page) (Js.Str (dec_of_Z l)))
     = Failure 500 "Failed to fetch schools")
  /\ (forall q page l, (l < 0)%Z ->
     Students.get_list db (Students.with_paging q (Js.Str page) (Js.Str (dec_of_Z l)))
     = Failure 500 "Failed to fetch students")
  /\ (forall q p, (0 <= p <= max_safe_integer)%Z -> schools_listing db q <> [] ->
     Schools.get_list db (Schools.with_paging q (Js.Str (dec_of_Z p)) (Js.Str "0"))
     = ListOk [] (envelope p 0))
  /\ (forall q p, (0 <= p <= max_safe_integer)%Z -> students_listing db q <> [] ->
     Students.get_list db (Students.with_paging q (Js.Str (dec_of_Z p)) (Js.Str "0"))
     = ListOk [] (envelope p 0)).
Proof.
  split; [|split; [|split; [|split; [|split]]]].
  - intros q p l Hp Hl.
    destruct (schools_get_list_eq db (Schools.with_paging q (Js.Str (dec_of_Z p)) (Js.Str (dec_of_Z l))))
      as (conds & _ & ->).
    cbn [Js.default Schools.page Schools.limit Schools.with_paging].
    apply list_steps_before_first_page; assumption.
  - intros q p l Hp Hl.
    destruct (students_get_list_eq db (Students.with_paging q (Js.Str (dec_of_Z p)) (Js.Str (dec_of_Z l))))
      as (conds & _ & ->).
    cbn [Js.default Students.page Students.limit Students.with_paging].
    apply list_steps_before_first_page; assumption.
  - intros q page l Hl.
    destruct (schools_get_list_eq db (Schools.with_paging q (Js.Str page) (Js.Str (dec_of_Z l))))
      as (conds & _ & ->).
    cbn [Js.default Schools.page Schools.limit Schools.with_paging].
    apply list_steps_negative_limit; assumption.
  - intros q page l Hl.
    destruct (students_get_list_eq db (Students.with_paging q (Js.Str page) (Js.Str (dec_of_Z l))))
      as (conds & _ & ->).
    cbn [Js.default Students.page Students.limit Students.with_paging].
    apply list_steps_negative_limit; assumption.
  - intros q p [Hp _] Hne.
    destruct (schools_get_list_eq db (Schools.with_paging q (Js.Str (dec_of_Z p)) (Js.Str "0")))
      as (conds & Hparse & ->).
    change (Schools.filters (Schools.with_paging q (Js.Str (dec_of_Z p)) (Js.Str "0")))
      with (Schools.filters q) in *.
    destruct (listing_nonempty db _ _ _ _ Hparse Hne) as (pl & Hc & Hm & _).
    cbn [Js.default Schools.page Schools.limit Schools.with_paging].
    rewrite (list_steps_limit_zero db _ _ _ p pl Hp Hc Hm). reflexivity.
  - intros q p [Hp _] Hne.
    destruct (students_get_list_eq db (Students.with_paging q (Js.Str (dec_of_Z p)) (Js.Str "0")))
      as (conds & Hparse & ->).
    change (Students.filters (Students.with_paging q (Js.Str (dec_of_Z p)) (Js.Str "0")))
      with (Students.filters q) in *.
    destruct (listing_nonempty db _ _ _ _ Hparse Hne) as (pl & Hc & Hm & _).
    cbn [Js.default Students.page Students.limit Students.with_paging].
    rewrite (list_steps_limit_zero db _ _ _ p pl Hp Hc Hm). reflexivity.
Qed.

Lemma pages_outside_the_listing_witness :
  let db := Sample.portal Sample.three_schools [] [] in
  Schools.get_list db (Schools.with_paging Sample.no_query (Js.Str (dec_of_Z 0)) (Js.Str (dec_of_Z 20)))
  = Failure 500 "Failed to fetch schools"
  /\ Schools.get_list db (Schools.with_paging Sample.no_query (Js.Str "1") (Js.Str (dec_of_Z (-5))))
     = Failure 500 "Failed to fetch schools"
  /\ Schools.get_list db (Schools.with_paging Sample.no_query (Js.Str (dec_of_Z 2)) (Js.Str "0"))
     = ListOk [] (envelope 2 0).
Proof.
  intros db.
  destruct (pages_outside_the_listing db) as (H1 & _ & H3 & _ & H5 & _).
  assert (0 <= 0)%Z as Hp by lia.
  assert (1 <= 20)%Z as Hl by lia.
  assert (-5 < 0)%Z as Hn by lia.
  assert (0 <= 2 <= max_safe_integer)%Z as Hp2 by (unfold max_safe_integer; lia).
  assert (schools_listing db Sample.no_query <> []) as Hne by (vm_compute; discriminate).
  split; [exact (H1 Sample.no_query 0%Z 20%Z Hp Hl)|].
  split; [exact (H3 Sample.no_query "1" (-5)%Z Hn)|].
  exact (H5 Sample.no_query 2%Z Hp2 Hne).
Defined.

(** ** Identifiers that are not integers *)

Lemma students_id_conds q :
  exists conds,
    Sql.parse (query (Students.filters q)) = Some (Students.statement conds)
    /\ (Js.truthy (Students.school_id q) = true ->
        In (Sql.CEq "s.school_id" 2) conds
        /\ Sql.param (params (Students.filters q)) 2 = Some (Students.school_id q))
    /\ (Js.truthy (Students.class_number q) = true ->
        exists n, In (Sql.CEq "s.class_number" n) conds
                  /\ Sql.param (params (Students.filters q)) n = Some (Students.class_number q)).
Proof.
  unfold Students.filters, and_equals, and_search.
  destruct (Js.truthy (Students.search q)),
    (Js.truthy (Students.school_id q)),
    (Js.truthy (Students.class_number q)),
    (Js.truthy (Students.section q));
    cbn [query params paramCount]; eexists;
    (split; [compute_lhs; reflexivity|]);
    (split; [intros Hx; first [discriminate Hx | split; [simpl; tauto | reflexivity]]|]);
    intros Hx;
    first [ discriminate Hx
          | exists 2%nat; split; [simpl; tauto | reflexivity]
          | exists 3%nat; split; [simpl; tauto | reflexivity] ].
Qed.

Lemma students_list_fails db q col c n v t conds :
  Sql.parse (query (Students.filters q)) = Some (Students.statement conds) ->
  Sql.split_dot col = Some ("s", c) ->
  Sql.assoc c (Sql.table_columns db "students") = Some Sql.KInt ->
  In (Sql.CEq col n) conds ->
  Sql.param (params (Students.filters q)) n = Some v ->
  Sql.bind v = Some t -> Sql.never_integer t = true ->
  Students.get_list db q = Failure 500 "Failed to fetch students".
Proof.
  intros Hparse Hsplit Hk Hin Hp Hb Hi.
  destruct (students_get_list_eq db q) as (conds' & Hparse' & ->).
  rewrite Hparse in Hparse'. injection Hparse' as <-.
  destruct (check_fails_on_cast db (Students.statement conds) (params (Students.filters q))
              col c n v t) as (e & He); try assumption; try reflexivity.
  { right. exact Hin. }
  { apply never_integer_none. exact Hi. }
  unfold list_steps. rewrite He. reflexivity.
Qed.

(** X5: where the columns [school_id] and [class_number] of the students
    table are integers, a [school_id] or [class_number] parameter that no
    version of the engine reads as an integer (it starts with something else
    than a digit or a sign) makes the students list answer 500. *)
Theorem non_integer_ids_are_server_faults (db : Sql.database) :
  (forall q s,
     Sql.assoc "school_id" (Sql.table_columns db "students") = Some Sql.KInt ->
     Students.school_id q = Js.Str s -> s <> "" -> Sql.never_integer s = true ->
     Students.get_list db q = Failure 500 "Failed to fetch students")
  /\ (forall q s,
     Sql.assoc "class_number" (Sql.table_columns db "students") = Some Sql.KInt ->
     Students.class_number q = Js.Str s -> s <> "" -> Sql.never_integer s = true ->
     Students.get_list db q = Failure 500 "Failed to fetch students").
Proof.
  split.
  - intros q s Hk Hs Hne Hi.
    destruct (students_id_conds q) as (conds & Hparse & Hschool & _).
    destruct Hschool as [Hin Hp]; [rewrite Hs; apply truthy_text; exact Hne|].
    apply (students_list_fails db q "s.school_id" "school_id" 2 (Students.school_id q) s conds);
      try assumption; try reflexivity.
    rewrite Hs. reflexivity.
  - intros q s Hk Hs Hne Hi.
    destruct (students_id_conds q) as (conds & Hparse & _ & Hclass).
    destruct Hclass as (n & Hin & Hp); [rewrite Hs; apply truthy_text; exact Hne|].
    apply (students_list_fails db q "s.class_number" "class_number" n (Students.class_number q) s conds);
      try assumption; try reflexivity.
    rewrite Hs. reflexivity.
Qed.

Lemma non_integer_ids_are_server_faults_witness :
  let db := Sample.portal Sample.three_schools Sample.two_students Sample.records in
  let q := {| Students.page := Js.Undefined; Students.limit := Js.Undefined;
              Students.school_id := Js.Str "first"; Students.class_number := Js.Undefined;
              Students.section := Js.Undefined; Students.status := Js.Undefined;
              Students.search := Js.Undefined |} in
  Students.get_list db q = Failure 500 "Failed to fetch students".
Proof.
  intros db q.
  destruct (non_integer_ids_are_server_faults db) as (H & _).
  apply (H q "first"); [vm_compute; reflexivity | reflexivity | discriminate
                       | vm_compute; reflexivity].
Defined.

(** ** The pagination bar *)

Lemma pages_between_spec (a b i : Z) : In i (pages_between a b) <-> (a <= i <= b)%Z.
Proof.
  unfold pages_between. rewrite in_map_iff. split.
  - intros (k & <- & Hk). apply in_seq in Hk. lia.
  - intros H. exists (Z.to_nat (i - a)). split; [lia|]. apply in_seq. lia.
Qed.

Lemma pages_between_length (a b : Z) :
  length (pages_between a b) = Z.to_nat (b - a + 1).
Proof. unfold pages_between. rewrite length_map, length_seq. reflexivity. Qed.

Lemma pages_between_NoDup (a b : Z) : List.NoDup (pages_between a b).
Proof.
  unfold pages_between.
  generalize (Z.to_nat (b - a + 1)). intros n. generalize 0%nat.
  induction n as [|n IH]; intros s; simpl; constructor.
  - rewrite in_map_iff. intros (k & Hk & Hin). apply in_seq in Hin. lia.
  - apply IH.
Qed.

Lemma filter_the_one (l : list Z) (x : Z) :
  List.NoDup l -> In x l ->
  List.filter (fun c => is_active c) (map (fun i => PageButton (strict_eq i (JNum x)) i) l)
  = [PageButton true x].
Proof.
  induction 1 as [|y l Hy Hl IH]; intros Hin; [destruct Hin|].
  cbn [map List.filter is_active strict_eq].
  destruct (Z.eqb_spec y x) as [->|Hne].
  - f_equal. clear IH Hin. induction l as [|z l IHl]; [reflexivity|].
    cbn [map List.filter is_active strict_eq].
    destruct (Z.eqb_spec z x) as [->|_].
    + exfalso. apply Hy. left. reflexivity.
    + apply IHl.
      * intros H. apply Hy. right. exact H.
      * inversion Hl. assumption.
  - apply IH. destruct Hin as [->|Hin]; [congruence|exact Hin].
Qed.

(** X6: for a page within [1 .. pages] the pagination bar is rendered; a
    button that can be clicked leads to a page within [1 .. pages]; the
    numbered buttons are the pages at most two away from the current one
    that exist; exactly one button is marked active, that of the current
    page; and there are at most seven buttons. *)
Theorem page_controls_stay_in_range (page pages total : Z) :
  (1 <= page <= pages)%Z ->
  exists cs,
    renderPagination (JNum page) (JNum pages) (JNum total) = Ok (cs, total)
    /\ (forall c, In c cs -> clickable c = true -> (1 <= newPage_of c <= pages)%Z)
    /\ (forall a i, In (PageButton a i) cs <->
          (page - 2 <= i <= page + 2)%Z /\ (1 <= i <= pages)%Z /\ a = (i =? page)%Z)
    /\ List.filter (fun c => is_active c) cs = [PageButton true page]
    /\ (length cs <= 7)%nat.
Proof.
  intros Hp. eexists. split; [reflexivity|].
  cbn [number_of]. split; [|split; [|split]].
  - intros c [<-|Hc] Hcl.
    + cbn [clickable newPage_of] in *. apply negb_true_iff, Z.leb_gt in Hcl. lia.
    + apply in_app_or in Hc as [Hc|[<-|[]]].
      * apply in_map_iff in Hc as (i & <- & Hi). apply pages_between_spec in Hi.
        cbn [newPage_of]. lia.
      * cbn [clickable newPage_of] in *. apply negb_true_iff, Z.leb_gt in Hcl. lia.
  - intros a i. split.
    + intros [H|H]; [discriminate H|].
      apply in_app_or in H as [H|[H|[]]]; [|discriminate H].
      apply in_map_iff in H as (j & Hj & Hi). injection Hj as <- <-.
      apply pages_between_spec in Hi. cbn [strict_eq]. lia.
    + intros (H1 & H2 & ->). right. apply in_or_app. left.
      apply in_map_iff. exists i. split; [reflexivity|].
      apply pages_between_spec. lia.
  - cbn [List.filter is_active]. rewrite List.filter_app.
    cbn [List.filter is_active]. rewrite app_nil_r.
    apply filter_the_one; [apply pages_between_NoDup|].
    apply pages_between_spec. lia.
  - cbn [length]. rewrite length_app, length_map, pages_between_length.
    cbn [length]. lia.
Qed.

Lemma page_controls_stay_in_range_witness :
  exists cs,
    renderPagination (JNum 3) (JNum 10) (JNum 200) = Ok (cs, 200%Z)
    /\ List.filter (fun c => is_active c) cs = [PageButton true 3].
Proof.
  assert (1 <= 3 <= 10)%Z as H by lia.
  destruct (page_controls_stay_in_range 3 10 200 H) as (cs & Hr & _ & _ & Ha & _).
  exists cs. split; [exact Hr | exact Ha].
Defined.


(** X7: the pagination object of every 200 response of the two list routes
    makes [renderPagination] throw: its [total] arrives as [null], and the
    bar is not written. *)
Theorem list_responses_break_the_page_controls (db : Sql.database) :
  (forall q rows pg,
     Schools.get_list db q = ListOk rows pg ->
     renderPagination (json_of (pg_page pg)) (json_of (pg_pages pg)) (json_of (pg_total pg))
     = Err "Cannot read properties of null (reading 'toLocaleString')")
  /\ (forall q rows pg,
     Students.get_list db q = ListOk rows pg ->
     renderPagination (json_of (pg_page pg)) (json_of (pg_pages pg)) (json_of (pg_total pg))
     = Err "Cannot read properties of null (reading 'toLocaleString')").
Proof.
  split; intros q rows pg H.
  - destruct (schools_get_list_eq db q) as (conds & _ & Heq). rewrite Heq in H.
    pose proof (list_steps_cases db (Schools.statement conds) Schools.order_keys
                  (params (Schools.filters q))
                  (Js.default (Schools.page q) (Js.Num (Js.Int 1)))
                  (Js.default (Schools.limit q) (Js.Num (Js.Int 20)))
                  "Failed to fetch schools") as Hc.
    rewrite H in Hc. destruct Hc as [Ht _]. rewrite Ht. reflexivity.
  - destruct (students_get_list_eq db q) as (conds & _ & Heq). rewrite Heq in H.
    pose proof (list_steps_cases db (Students.statement conds) Students.order_keys
                  (params (Students.filters q))
                  (Js.default (Students.page q) (Js.Num (Js.Int 1)))
                  (Js.default (Students.limit q) (Js.Num (Js.Int 50)))
                  "Failed to fetch students") as Hc.
    rewrite H in Hc. destruct Hc as [Ht _]. rewrite Ht. reflexivity.
Qed.

Lemma list_responses_break_the_page_controls_witness :
  let db := Sample.portal Sample.three_schools [] [] in
  exists rows pg,
    Schools.get_list db Sample.no_query = ListOk rows pg
    /\ renderPagination (json_of (pg_page pg)) (json_of (pg_pages pg)) (json_of (pg_total pg))
       = Err "Cannot read properties of null (reading 'toLocaleString')".
Proof.
  intros db.
  assert (exists rows pg, Schools.get_list db Sample.no_query = ListOk rows pg)
    as (rows & pg & Hl) by (vm_compute; do 2 eexists; reflexivity).
  exists rows, pg. split; [exact Hl|].
  destruct (list_responses_break_the_page_controls db) as (H & _).
  exact (H Sample.no_query rows pg Hl).
Defined.


(** ** The dashboard manager *)

Lemma clear_own_empty (st : Manager.state) :
  (forall id, id ∈ Manager.polling st -> Manager.intervalId st = Some id) ->
  (forall id, Manager.intervalId st = Some id -> (1 <= id <= Manager.issued st)%nat) ->
  Manager.clear_own st = ∅.
Proof.
  intros IH1 IH2. unfold Manager.clear_own.
  destruct (Manager.intervalId st) as [[|k]|] eqn:E.
  - specialize (IH2 0%nat eq_refl). lia.
  - apply set_eq. intros id. rewrite elem_of_difference, elem_of_singleton.
    split; [|intros H; apply elem_of_empty in H; destruct H].
    intros [Hin Hne]. apply IH1 in Hin. injection Hin as <-. congruence.
  - apply set_eq. intros id.
    split; [|intros H; apply elem_of_empty in H; destruct H].
    intros Hin. apply IH1 in Hin. discriminate Hin.
Qed.

Lemma manager_invariant (n : nat) (calls : list Manager.call) :
  let st := Manager.run calls (Manager.created n) in
  (forall id, id ∈ Manager.polling st -> Manager.intervalId st = Some id)
  /\ (forall id, Manager.intervalId st = Some id -> (1 <= id <= Manager.issued st)%nat)
  /\ (forall k, k ∈ Manager.charts st ->
        k = "performance" \/ k = "attendance" \/ k = "district").
Proof.
  unfold Manager.run. rewrite <- fold_left_rev_right.
  induction (rev calls) as [|c cs IH]; cbn [fold_right].
  - split; [|split].
    + intros id H. apply elem_of_empty in H. destruct H.
    + intros id H. discriminate H.
    + intros k H. apply elem_of_empty in H. destruct H.
  - destruct IH as (IH1 & IH2 & IH3). set (st := fold_right _ _ cs) in *.
    pose proof (clear_own_empty st IH1 IH2) as Hclear.
    destruct c as [container existing| | |]; cbn [Manager.step].
    + unfold Manager.init, Manager.simulateWebSocketUpdates, Manager.setupAdvancedCharts,
        Manager.setupRealTimeUpdates.
      cbn [Manager.intervalId Manager.polling Manager.charts Manager.issued].
      rewrite Hclear. split; [|split].
      * intros id Hid. apply elem_of_union in Hid as [Hid|Hid].
        -- apply elem_of_singleton in Hid. congruence.
        -- apply elem_of_empty in Hid. destruct Hid.
      * intros id [= <-]. lia.
      * intros k Hk.
        destruct container, existing;
          repeat match type of Hk with
                 | _ ∈ _ ∪ _ => apply elem_of_union in Hk as [Hk|Hk]
                 | _ ∈ {[ _ ]} => apply elem_of_singleton in Hk
                 end; auto.
    + unfold Manager.setupRealTimeUpdates.
      cbn [Manager.intervalId Manager.polling Manager.charts Manager.issued].
      rewrite Hclear. split; [|split; [|exact IH3]].
      * intros id Hid. apply elem_of_union in Hid as [Hid|Hid].
        -- apply elem_of_singleton in Hid. congruence.
        -- apply elem_of_empty in Hid. destruct Hid.
      * intros id [= <-]. lia.
    + unfold Manager.destroy.
      cbn [Manager.intervalId Manager.polling Manager.charts Manager.issued].
      rewrite Hclear. split; [|split].
      * intros id Hid. apply elem_of_empty in Hid. destruct Hid.
      * exact IH2.
      * intros k Hk. apply elem_of_empty in Hk. destruct Hk.
    + unfold Manager.other_timer.
      cbn [Manager.intervalId Manager.polling Manager.charts Manager.issued].
      split; [exact IH1|]. split; [|exact IH3].
      intros id Hid. apply IH2 in Hid. lia.
Qed.

(** X8: however [init], [setupRealTimeUpdates], [destroy] and timers set by
    other code follow one another after the manager is created, a live poll
    interval is the one [intervalId] names, so there is at most one; a
    further set-up leaves exactly the new interval live, [destroy] leaves
    none, and a second [destroy] changes nothing. *)
Theorem at_most_one_poll_interval (n : nat) (calls : list Manager.call) :
  let st := Manager.run calls (Manager.created n) in
  (forall id, id ∈ Manager.polling st -> Manager.intervalId st = Some id)
  /\ Manager.polling (Manager.setupRealTimeUpdates st) = {[S (Manager.issued st)]}
  /\ Manager.intervalId (Manager.setupRealTimeUpdates st) = Some (S (Manager.issued st))
  /\ Manager.polling (Manager.destroy st) = ∅
  /\ Manager.destroy (Manager.destroy st) = Manager.destroy st.
Proof.
  intros st.
  destruct (manager_invariant n calls) as (H1 & H2 & _). fold st in H1, H2.
  pose proof (clear_own_empty st H1 H2) as Hclear.
  split; [exact H1|]. split; [|split; [reflexivity|split; [exact Hclear|]]].
  - cbn [Manager.setupRealTimeUpdates Manager.polling]. rewrite Hclear.
    apply set_eq. intros id. rewrite elem_of_union. split; [|auto].
    intros [H|H]; [exact H|]. apply elem_of_empty in H. destruct H.
  - assert (Manager.clear_own (Manager.destroy st) = ∅) as Hc.
    { apply clear_own_empty.
      - intros id Hid. cbn [Manager.destroy Manager.polling] in Hid.
        rewrite Hclear in Hid. apply elem_of_empty in Hid. destruct Hid.
      - exact H2. }
    unfold Manager.destroy at 1. rewrite Hc.
    unfold Manager.destroy. rewrite Hclear. reflexivity.
Qed.

Lemma at_most_one_poll_interval_witness :
  let st := Manager.run [Manager.Init true false; Manager.OtherTimer; Manager.Setup]
              (Manager.created 3) in
  7%nat ∈ Manager.polling st /\ Manager.intervalId st = Some 7%nat.
Proof.
  intros st.
  assert (7%nat ∈ Manager.polling st) as Hin
    by (apply (bool_decide_unpack _); vm_compute; exact I).
  split; [exact Hin|].
  destruct (at_most_one_poll_interval 3
              [Manager.Init true false; Manager.OtherTimer; Manager.Setup])
    as (H & _).
  exact (H 7%nat Hin).
Defined.

(** X9: whatever was called on the manager, [this.charts] never holds an
    enrollment chart, so [updateChartsData] never draws the enrollment trend
    it fetched; and once the page has a charts section, so that the district
    chart exists, every [updateChartsData] ends in the TypeError of the
    missing method [updateDistrictChart], after the attendance chart was
    updated. *)
Theorem chart_updates_of_the_poll (n : nat) (calls : list Manager.call) :
  let st := Manager.run calls (Manager.created n) in
  "enrollment" ∉ Manager.charts st
  /\ (forall u, In u (Manager.chart_updates st).1 -> u = Manager.UpdateAttendanceChart)
  /\ ("district" ∈ Manager.charts st ->
      (Manager.chart_updates st).2 = Err "this.updateDistrictChart is not a function")
  /\ (forall existingCanvas,
        Manager.chart_updates (Manager.init true existingCanvas st)
        = (if bool_decide ("attendance" ∈ Manager.charts st) || negb existingCanvas
           then [Manager.UpdateAttendanceChart] else [],
           Err "this.updateDistrictChart is not a function")).
Proof.
  intros st.
  destruct (manager_invariant n calls) as (_ & _ & H3). fold st in H3.
  assert ("enrollment" ∉ Manager.charts st) as Hen.
  { intros H. apply H3 in H as [H|[H|H]]; discriminate H. }
  split; [exact Hen|]. split; [|split].
  - intros u. unfold Manager.chart_updates. cbn [fst].
    rewrite bool_decide_eq_false_2 by exact Hen. cbn [app].
    destruct (bool_decide _); cbn; intros H;
      [destruct H as [<-|[]]; reflexivity | destruct H].
  - intros Hd. unfold Manager.chart_updates. cbn [snd].
    rewrite bool_decide_eq_true_2 by exact Hd. reflexivity.
  - intros existing.
    destruct (manager_invariant n (calls ++ [Manager.Init true existing])) as (_ & _ & H4).
    unfold Manager.run in H4. rewrite fold_left_app in H4. cbn [fold_left Manager.step] in H4.
    fold (Manager.run calls (Manager.created n)) in H4. fold st in H4.
    unfold Manager.chart_updates.
    assert ("enrollment" ∉ Manager.charts (Manager.init true existing st)) as Hen'.
    { intros H. apply H4 in H as [H|[H|H]]; discriminate H. }
    rewrite (bool_decide_eq_false_2 _ Hen'). cbn [app].
    assert ("district" ∈ Manager.charts (Manager.init true existing st)) as Hd.
    { cbn. apply elem_of_union_l, elem_of_singleton. reflexivity. }
    rewrite (bool_decide_eq_true_2 _ Hd). f_equal.
    destruct existing; cbn [negb].
    + rewrite orb_false_r.
      assert ("attendance" ∈ Manager.charts (Manager.init true true st)
              <-> "attendance" ∈ Manager.charts st) as Hiff.
      { cbn. rewrite !elem_of_union, !elem_of_singleton. split; [|auto].
        intros [H|[H|H]]; [discriminate H | discriminate H | exact H]. }
      rewrite (bool_decide_ext _ _ Hiff). reflexivity.
    + rewrite orb_true_r. rewrite bool_decide_eq_true_2; [reflexivity|].
      cbn. rewrite !elem_of_union, !elem_of_singleton. auto.
Qed.

Lemma chart_updates_of_the_poll_witness :
  let st := Manager.run [Manager.Init true false] (Manager.created 0) in
  "district" ∈ Manager.charts st
  /\ (Manager.chart_updates st).2 = Err "this.updateDistrictChart is not a function".
Proof.
  intros st.
  assert ("district" ∈ Manager.charts st) as Hd
    by (apply (bool_decide_unpack _); vm_compute; exact I).
  split; [exact Hd|].
  destruct (chart_updates_of_the_poll 0 [Manager.Init true false]) as (_ & _ & H & _).
  exact (H Hd).
Defined.

Lemma notifying_grows (st : Manager.state) (more : list Manager.call) :
  Manager.notifying st ⊆ Manager.notifying (Manager.run more st).
Proof.
  revert st. induction more as [|c more IH]; intros st; [reflexivity|].
  cbn [Manager.run fold_left]. etransitivity; [|apply IH].
  destruct c; cbn; try reflexivity.
  apply union_subseteq_r.
Qed.

(** X10: the interval that [init] sets for the notifications is not
    cleared by anything the manager does afterwards: [destroy] stops the
    poll and leaves the notifications running. *)
Theorem notifications_outlive_destroy
    (n : nat) (calls more : list Manager.call) (container existingCanvas : bool) :
  let st0 := Manager.run calls (Manager.created n) in
  let st := Manager.init container existingCanvas st0 in
  S (S (Manager.issued st0)) ∈ Manager.notifying (Manager.run more st)
  /\ S (S (Manager.issued st0)) ∉ Manager.polling (Manager.destroy (Manager.run more st))
  /\ Manager.notifying (Manager.destroy (Manager.run more st))
     = Manager.notifying (Manager.run more st).
Proof.
  intros st0 st. split; [|split; [|reflexivity]].
  - apply (notifying_grows st more). cbn.
    apply elem_of_union_l, elem_of_singleton. reflexivity.
  - destruct (manager_invariant n (calls ++ [Manager.Init container existingCanvas] ++ more))
      as (H1 & H2 & _).
    unfold Manager.run in H1, H2. rewrite !fold_left_app in H1, H2.
    cbn [fold_left Manager.step] in H1, H2.
    fold (Manager.run calls (Manager.created n)) in H1, H2. fold st0 in H1, H2.
    fold st in H1, H2. fold (Manager.run more st) in H1, H2.
    cbn [Manager.destroy Manager.polling].
    rewrite (clear_own_empty _ H1 H2). apply not_elem_of_empty.
Qed.

Lemma dec_of_Z_not_empty (z : Z) : (0 <= z)%Z -> String.eqb (dec_of_Z z) "" = false.
Proof.
  intros Hz. unfold dec_of_Z. apply Z.ltb_ge in Hz. rewrite Hz.
  destruct (dec_of_nat_numeral (Z.to_nat z)) as [Hn _].
  destruct (numeral_head _ Hn) as (c & rest & -> & _). reflexivity.
Qed.

(** X11: the start time stored at the first load is kept by every later
    load, and [getUptime] is the time since that first load; with nothing
    stored it is 0 (both readings of the clock taken in the same
    millisecond). *)
Theorem uptime_counts_from_the_first_load (t0 t1 now : Z) :
  (0 <= t0)%Z ->
  let stored := Manager.remember_start None t0 in
  Manager.remember_start stored t1 = stored
  /\ Manager.getUptime stored now = Js.Int (now - t0)
  /\ Manager.getUptime None now = Js.Int 0.
Proof.
  intros Hz stored. unfold stored, Manager.remember_start, Manager.getUptime.
  rewrite dec_of_Z_not_empty by exact Hz. split; [reflexivity|]. split.
  - cbn [Js.parseInt]. rewrite parse_int_dec by exact Hz.
    cbn [Js.sub Js.neg Js.add]. f_equal; lia.
  - cbn [Js.parseInt Js.sub Js.neg Js.add]. f_equal; lia.
Qed.

Lemma uptime_counts_from_the_first_load_witness :
  Manager.remember_start (Manager.remember_start None 1000) 7000
  = Manager.remember_start None 1000
  /\ Manager.getUptime (Manager.remember_start None 1000) 9000 = Js.Int (9000 - 1000).
Proof.
  assert (0 <= 1000)%Z as H by lia.
  destruct (uptime_counts_from_the_first_load 1000 7000 9000 H) as (H1 & H2 & _).
  split; [exact H1 | exact H2].
Defined.

Import Client.

(** ** What a piece of code leaves alone *)


Section Keeps.
Context {B : Type} (f : world -> B).

Lemma keeps_ret {A} (a : A) : keeps f (ret a).
Proof. intros w. reflexivity. Qed.

Lemma keeps_throw {A} (msg : string) : keeps f (@throw A msg).
Proof. intros w. reflexivity. Qed.

Lemma keeps_get {A} (g : world -> A) : keeps f (get g).
Proof. intros w. reflexivity. Qed.

Lemma keeps_bind {A C} (m : M A) (k : A -> M C) :
  keeps f m -> (forall a, keeps f (k a)) -> keeps f (bind m k).
Proof.
  intros Hm Hk w. unfold bind. specialize (Hm w).
  destruct (m w) as [w' [a|e]]; simpl in *; [|exact Hm].
  rewrite Hk. exact Hm.
Qed.

Lemma keeps_try_catch {A} (m : M A) (h : string -> M A) :
  keeps f m -> (forall e, keeps f (h e)) -> keeps f (try_catch m h).
Proof.
  intros Hm Hh w. unfold try_catch. specialize (Hm w).
  destruct (m w) as [w' [a|e]]; simpl in *; [exact Hm|].
  rewrite Hh. exact Hm.
Qed.

Lemma keeps_finally {A} (m : M A) (c : M unit) :
  keeps f m -> keeps f c -> keeps f (finally m c).
Proof.
  intros Hm Hc w. unfold finally. specialize (Hm w).
  destruct (m w) as [w' r]. specialize (Hc w').
  destruct (c w') as [w'' [u|e]]; simpl in *; congruence.
Qed.

Lemma keeps_both {A C} (a : M A) (b : M C) :
  keeps f a -> keeps f b -> keeps f (both a b).
Proof.
  intros Ha Hb w. unfold both. specialize (Ha w).
  destruct (a w) as [w1 ra]. specialize (Hb w1).
  destruct (b w1) as [w2 rb]. simpl in *. congruence.
Qed.

Lemma keeps_modify (g : world -> world) :
  (forall w, f (g w) = f w) -> keeps f (modify g).
Proof. intros H w. apply H. Qed.

Lemma keeps_if {A} (b : bool) (m1 m2 : M A) :
  keeps f m1 -> keeps f m2 -> keeps f (if b then m1 else m2).
Proof. destruct b; auto. Qed.
End Keeps.

Lemma keeps_page_fetchApi e : keeps currentPage (fetchApi e).
Proof.
  intros w. unfold fetchApi. destruct (replies w) as [|r rest]; [reflexivity|].
  destruct (answer r) as [m|ok st tx body]; [reflexivity|].
  destruct ok; [destruct body|]; reflexivity.
Qed.

Lemma keeps_page_set_content id m : keeps currentPage (set_content id m).
Proof. intros w. unfold set_content. destruct (content w !! id); reflexivity. Qed.

Lemma keeps_page_setLoadingState s b : keeps currentPage (setLoadingState s b).
Proof. intros w. unfold setLoadingState. destruct (content w !! s); reflexivity. Qed.

Lemma keeps_page_setInterval cb ms : keeps currentPage (setInterval cb ms).
Proof. intros w. reflexivity. Qed.

Ltac keeps_with known :=
  repeat first
    [ known
    | apply keeps_page_fetchApi
    | apply keeps_page_set_content
    | apply keeps_page_setLoadingState
    | apply keeps_page_setInterval
    | apply keeps_ret
    | apply keeps_throw
    | apply keeps_get
    | apply keeps_modify; intros; reflexivity
    | apply keeps_bind; [|intros]
    | apply keeps_try_catch; [|intros]
    | apply keeps_finally
    | apply keeps_both
    | apply keeps_if
    | progress cbv zeta
    | match goal with |- keeps _ (match ?x with _ => _ end) => destruct x end ].

Lemma keeps_page_fetchWithCache e ttl : keeps currentPage (fetchWithCache e ttl).
Proof. unfold fetchWithCache. keeps_with fail. Qed.

Ltac keeps_page1 := keeps_with ltac:(apply keeps_page_fetchWithCache).

Lemma keeps_page_loadDashboard : keeps currentPage loadDashboard.
Proof. unfold loadDashboard, handleError, updateLastSync, log. keeps_page1. Qed.

Lemma keeps_page_loadSchools : keeps currentPage loadSchools.
Proof. unfold loadSchools, handleError, input_value, log. keeps_page1. Qed.

Lemma keeps_page_loadStudents : keeps currentPage loadStudents.
Proof. unfold loadStudents, handleError, input_value, log. keeps_page1. Qed.

Lemma keeps_page_loadAnalytics : keeps currentPage loadAnalytics.
Proof. unfold loadAnalytics. keeps_page1. Qed.

Lemma keeps_page_updateDashboardData : keeps currentPage updateDashboardData.
Proof.
  unfold updateDashboardData, updateDashboardData_of, update_cycle, handleUpdateError,
    updateKPIsAnimated, updateChartsData, updateSystemMetrics, updateSyncStatus,
    setTimeout, log.
  keeps_page1.
Qed.

Ltac keeps_page :=
  keeps_with ltac:(first
    [ apply keeps_page_fetchWithCache | apply keeps_page_loadDashboard
    | apply keeps_page_loadSchools | apply keeps_page_loadStudents
    | apply keeps_page_loadAnalytics | apply keeps_page_updateDashboardData ]).

Lemma keeps_page_showSection s : keeps currentPage (showSection s).
Proof. unfold showSection. keeps_page. Qed.

Lemma keeps_page_fire cb : keeps currentPage (fire cb).
Proof.
  destruct cb; unfold fire, hideLoadingScreen, startRealTimeSync, active_section,
    isOnDashboard; keeps_page.
Qed.

Lemma currentPage_after_set (g : world -> world) (m : M unit) (w : world) :
  keeps currentPage m ->
  currentPage (bind (modify g) (fun _ => m) w).1 = currentPage (g w).
Proof. intros H. unfold bind, modify. apply H. Qed.


(** C9, as amended: after any event [currentPage] is what it was, except
    that a page control sets its section's entry to the given page, and a
    search (button or Enter key) sets its section's entry to 1; [changePage]
    on a section is that section's load run on the updated state, and a
    search is its section's load run on the state with page 1, through the
    button and through the Enter key alike; another key does nothing. *)
Theorem currentPage_writers (e : event) (w : world) :
  currentPage (handle e w).1 = currentPage_after e w
  /\ (forall n, changePage "schools" n w
                = loadSchools (with_currentPage w (<["schools" := n]> (currentPage w))))
  /\ (forall n, changePage "students" n w
                = loadStudents (with_currentPage w (<["students" := n]> (currentPage w))))
  /\ searchSchools w
     = loadSchools (with_currentPage w (<["schools" := Js.Num (Js.Int 1)]> (currentPage w)))
  /\ searchStudents w
     = loadStudents (with_currentPage w (<["students" := Js.Num (Js.Int 1)]> (currentPage w)))
  /\ handle ClickSearchSchools w = searchSchools w
  /\ handle ClickSearchStudents w = searchStudents w
  /\ (forall key, handle (KeypressSchoolSearch key) w
                  = if String.eqb key "Enter" then searchSchools w else (w, Ok tt))
  /\ (forall key, handle (KeypressStudentSearch key) w
                  = if String.eqb key "Enter" then searchStudents w else (w, Ok tt))
  /\ (forall section n, handle (ClickPageControl section n) w = changePage section n w).
Proof.
  split; [|split; [|split; [|split; [|split; [|split; [|split; [|split; [|split]]]]]]]];
    try reflexivity; try (intros n; reflexivity);
    try (intros key; cbn [handle]; destruct (String.eqb key "Enter"); reflexivity);
    try (intros section n; reflexivity).
  destruct e; unfold handle, currentPage_after.
  - apply keeps_page_showSection.
  - unfold refreshCurrentSection, active_section.
    assert (keeps currentPage
      (let* nav := get active_nav in
       match nav with
       | Some s => ret s
       | None => throw "Cannot read properties of null (reading 'dataset')"
       end)) as H1 by keeps_page.
    apply keeps_bind; [exact H1|]. intros s.
    apply keeps_bind; [apply keeps_modify; reflexivity|]. intros _.
    apply keeps_page_showSection.
  - unfold searchSchools.
    rewrite currentPage_after_set by apply keeps_page_loadSchools. reflexivity.
  - unfold searchStudents.
    rewrite currentPage_after_set by apply keeps_page_loadStudents. reflexivity.
  - destruct (String.eqb key "Enter"); [|reflexivity].
    unfold searchSchools.
    rewrite currentPage_after_set by apply keeps_page_loadSchools. reflexivity.
  - destruct (String.eqb key "Enter"); [|reflexivity].
    unfold searchStudents.
    rewrite currentPage_after_set by apply keeps_page_loadStudents. reflexivity.
  - unfold changePage. rewrite currentPage_after_set; [reflexivity|].
    keeps_page.
  - apply keeps_page_fire.
  - reflexivity.
Qed.


(** ** The fetch cache *)

Lemma fetchApi_effects (endpoint : string) (w : world) :
  requests (fetchApi endpoint w).1 = requests w ++ [API_BASE w +:+ endpoint]
  /\ cache (fetchApi endpoint w).1 = cache w
  /\ API_BASE (fetchApi endpoint w).1 = API_BASE w
  /\ (clock w <= clock (fetchApi endpoint w).1)%Z.
Proof.
  unfold fetchApi. destruct (replies w) as [|r rest].
  - simpl. repeat split; lia.
  - destruct (answer r) as [m|ok st tx body]; [|destruct ok; [destruct body|]];
      simpl; repeat split; lia.
Qed.

(** A call that finds a fresh entry. *)
Lemma fetchWithCache_hit (endpoint : string) (ttl : Z) (w : world) (c : cache_entry) :
  cache w !! endpoint = Some c -> (clock w - timestamp c < ttl)%Z ->
  fetchWithCache endpoint ttl w = (w, Ok (data c)).
Proof.
  intros Hc Hf. unfold fetchWithCache, bind, get. rewrite Hc.
  apply Z.ltb_lt in Hf. rewrite Hf. reflexivity.
Qed.


(** A call that finds no entry, or an old one. *)
Lemma fetchWithCache_miss (endpoint : string) (ttl : Z) (w : world) :
  stale endpoint ttl w ->
  fetchWithCache endpoint ttl w =
    match fetchApi endpoint w with
    | (w', Ok d) =>
        (with_cache w' (<[endpoint := {| data := d; timestamp := clock w' |}]> (cache w')),
         Ok d)
    | (w', Err e) => (w', Err e)
    end.
Proof.
  unfold stale, fetchWithCache, bind, get, modify, ret.
  destruct (cache w !! endpoint) as [c|] eqn:Hc.
  - intros Hs. apply Z.ltb_ge in Hs. rewrite Hs.
    destruct (fetchApi endpoint w) as [w' [d|e]]; reflexivity.
  - intros _. destruct (fetchApi endpoint w) as [w' [d|e]]; reflexivity.
Qed.

Lemma fresh_or_stale (endpoint : string) (ttl : Z) (w : world) :
  (exists c, cache w !! endpoint = Some c /\ (clock w - timestamp c < ttl)%Z)
  \/ stale endpoint ttl w.
Proof.
  unfold stale. destruct (cache w !! endpoint) as [c|]; [|right; exact I].
  destruct (Z.lt_ge_cases (clock w - timestamp c) ttl); [left; eauto | right; assumption].
Qed.

(** C4: after a call that went to the network and returned [p], the entry
    of the endpoint is [p] with the time the fetch completed; a call made
    less than [ttl] ms later returns [p] and changes nothing, and a call made
    [ttl] ms later or more issues one request and, when it succeeds, stores
    the new payload with the time of its completion. *)
Theorem cache_entry_is_served_until_ttl
    (endpoint : string) (ttl1 : Z) (w w1 : world) (p : payload) :
  fetchWithCache endpoint ttl1 w = (w1, Ok p) ->
  requests w1 <> requests w ->
  cache w1 !! endpoint = Some {| data := p; timestamp := clock w1 |}
  /\ forall (ms : N) (ttl : Z),
       let w2 := advance ms w1 in
       ((Z.of_N ms < ttl)%Z -> fetchWithCache endpoint ttl w2 = (w2, Ok p))
       /\ ((ttl <= Z.of_N ms)%Z ->
           requests (fetchWithCache endpoint ttl w2).1
           = requests w2 ++ [API_BASE w2 +:+ endpoint]
           /\ forall r rest status text p',
                replies w2 = r :: rest ->
                answer r = Http true status text (Some p') ->
                (fetchWithCache endpoint ttl w2).2 = Ok p'
                /\ cache (fetchWithCache endpoint ttl w2).1 !! endpoint
                   = Some {| data := p'; timestamp := (clock w2 + Z.of_N (latency r))%Z |}).
Proof.
  intros Hcall Hreq.
  assert (cache w1 !! endpoint = Some {| data := p; timestamp := clock w1 |}) as Hentry.
  { destruct (fresh_or_stale endpoint ttl1 w) as [(c & Hc & Hf)|Hs].
    - rewrite (fetchWithCache_hit _ _ _ _ Hc Hf) in Hcall.
      injection Hcall as <- _. congruence.
    - rewrite (fetchWithCache_miss _ _ _ Hs) in Hcall.
      destruct (fetchApi endpoint w) as [w' [d|e]]; [|discriminate].
      injection Hcall as <- <-. simpl. apply lookup_insert_eq. }
  split; [exact Hentry|]. intros ms ttl w2. split.
  - intros Hms. apply (fetchWithCache_hit endpoint ttl w2 _ Hentry).
    simpl. lia.
  - intros Hms.
    assert (stale endpoint ttl w2) as Hs.
    { unfold stale. change (cache w2) with (cache w1). rewrite Hentry. simpl. lia. }
    rewrite (fetchWithCache_miss _ _ _ Hs).
    destruct (fetchApi_effects endpoint w2) as (Hr & _).
    split.
    + destruct (fetchApi endpoint w2) as [w' [d|e]]; exact Hr.
    + intros r rest status text p' Hrep Hans.
      unfold fetchApi. rewrite Hrep, Hans. simpl. split; [reflexivity|].
      apply lookup_insert_eq.
Qed.

Lemma cache_entry_is_served_until_ttl_witness :
  let w := Sample.tab [Sample.ok_reply 40 "first"; Sample.ok_reply 25 "second"] in
  let w1 := (fetchWithCache "/x" 1000 w).1 in
  fetchWithCache "/x" 1000 w = (w1, Ok "first")
  /\ requests w1 <> requests w
  /\ fetchWithCache "/x" 1000 (advance 999 w1) = (advance 999 w1, Ok "first")
  /\ requests (fetchWithCache "/x" 1000 (advance 1000 w1)).1
     = requests w1 ++ [API_BASE w1 +:+ "/x"].
Proof.
  intros w w1.
  assert (fetchWithCache "/x" 1000 w = (w1, Ok "first")) as H1 by (vm_compute; reflexivity).
  assert (requests w1 <> requests w) as H2 by (vm_compute; discriminate).
  destruct (cache_entry_is_served_until_ttl "/x" 1000 w w1 "first" H1 H2) as (_ & H).
  split; [exact H1|]. split; [exact H2|]. split.
  - destruct (H 999%N 1000%Z) as (Hhit & _). apply Hhit. reflexivity.
  - destruct (H 1000%N 1000%Z) as (_ & Hmiss). destruct Hmiss as (Hr & _); [reflexivity|].
    exact Hr.
Defined.

(** C5, as amended: a call that fails leaves the cache map as it was.  The
    next call for the same endpoint, whenever it is made and with whatever
    ttl, goes to the network when the endpoint has no entry or its entry is
    at least that ttl old, which is so whenever the ttl is not larger than
    that of the failed call; with a larger ttl, and an entry younger than
    it, the call returns the old entry and sends nothing. *)
Theorem failed_fetch_is_not_cached (endpoint : string) (ttl : Z) (w w1 : world) (e : string) :
  fetchWithCache endpoint ttl w = (w1, Err e) ->
  cache w1 = cache w
  /\ forall (ms : N) (ttl' : Z),
       let w2 := advance ms w1 in
       (stale endpoint ttl' w2 ->
          requests (fetchWithCache endpoint ttl' w2).1
          = requests w1 ++ [API_BASE w1 +:+ endpoint])
       /\ ((ttl' <= ttl)%Z -> stale endpoint ttl' w2)
       /\ (forall c, cache w !! endpoint = Some c ->
             (clock w2 - timestamp c < ttl')%Z ->
             fetchWithCache endpoint ttl' w2 = (w2, Ok (data c))).
Proof.
  intros Hcall.
  destruct (fresh_or_stale endpoint ttl w) as [(c & Hc & Hf)|Hs];
    [rewrite (fetchWithCache_hit _ _ _ _ Hc Hf) in Hcall; discriminate|].
  rewrite (fetchWithCache_miss _ _ _ Hs) in Hcall.
  destruct (fetchApi_effects endpoint w) as (_ & Hcache & _ & Hclock).
  destruct (fetchApi endpoint w) as [w' [d|e']]; [discriminate|].
  injection Hcall as <- <-. simpl in Hcache, Hclock.
  split; [exact Hcache|]. intros ms ttl' w2. split; [|split].
  - intros Hs'. rewrite (fetchWithCache_miss _ _ _ Hs').
    destruct (fetchApi_effects endpoint w2) as (Hr & _).
    destruct (fetchApi endpoint w2) as [w'' [d|e'']]; exact Hr.
  - intros Hle. unfold stale in *. change (cache w2) with (cache w'). rewrite Hcache.
    destruct (cache w !! endpoint) as [c|]; [|exact I].
    change (clock w2) with (clock w' + Z.of_N ms)%Z. lia.
  - intros c Hc Hf. apply (fetchWithCache_hit endpoint ttl' w2 c); [|exact Hf].
    change (cache w2) with (cache w'). rewrite Hcache. exact Hc.
Qed.

Lemma failed_fetch_is_not_cached_witness :
  let w := Sample.tab [Sample.failed_reply 10; Sample.ok_reply 25 "second"] in
  let w1 := (fetchWithCache "/x" 1000 w).1 in
  fetchWithCache "/x" 1000 w = (w1, Err "Failed to fetch")
  /\ cache w1 = cache w
  /\ requests (fetchWithCache "/x" 1000 (advance 0 w1)).1
     = requests w1 ++ [API_BASE w1 +:+ "/x"].
Proof.
  intros w w1.
  assert (fetchWithCache "/x" 1000 w = (w1, Err "Failed to fetch")) as H1
    by (vm_compute; reflexivity).
  destruct (failed_fetch_is_not_cached "/x" 1000 w w1 _ H1) as (Hc & Hn).
  split; [exact H1|]. split; [exact Hc|].
  destruct (Hn 0%N 1000%Z) as (Hreq & Hstale & _).
  apply Hreq. apply Hstale. lia.
Defined.

(** C5, counterexample: the stats entry is 28960 ms old; the poller's call
    with a ttl of 5 s goes to the network and fails; 980 ms later the
    portal's call for the same endpoint, with its ttl of 30 s, sends nothing
    and returns the old entry. *)
Lemma failed_fetch_then_an_old_entry :
  let w := Sample.tab_with_old_stats [Sample.failed_reply 10] in
  let w1 := (fetchWithCache "/dashboard/stats" 5000 w).1 in
  let w2 := advance 980 w1 in
  (fetchWithCache "/dashboard/stats" 5000 w).2 = Err "Failed to fetch"
  /\ requests w1 = requests w ++ [API_BASE w +:+ "/dashboard/stats"]
  /\ fetchWithCache "/dashboard/stats" 30000 w2 = (w2, Ok "old")
  /\ requests (fetchWithCache "/dashboard/stats" 30000 w2).1 = requests w1.
Proof.
  intros w w1 w2.
  assert (fetchWithCache "/dashboard/stats" 30000 w2 = (w2, Ok "old")) as H
    by (vm_compute; reflexivity).
  split; [vm_compute; reflexivity|]. split; [vm_compute; reflexivity|].
  split; [exact H|]. rewrite H. reflexivity.
Qed.

(** ** The poller *)


(** C7: when the body of the update throws, [updateDashboardData] handles
    the error, adds exactly one timer to those present at the throw (10000
    ms, one shot, running the same update), and the sync indicator, if it is
    in the document, reads "Sync failed - Retrying...". *)
Theorem failed_update_schedules_one_retry (cycle : M unit) (w w1 : world) (e : string) :
  cycle w = (w1, Err e) ->
  let after := updateDashboardData_of cycle w in
  after.2 = Ok tt
  /\ timers after.1 = timers w1 ++ [retry_timer]
  /\ content after.1 !! "lastSync"
     = (fun _ => Text sync_failed) <$> (content w1 !! "lastSync")
  /\ fire (action retry_timer) = updateDashboardData_of update_cycle
  /\ fire (action retry_timer) = updateDashboardData.
Proof.
  intros Hc after. subst after.
  unfold updateDashboardData_of, try_catch. rewrite Hc.
  unfold handleUpdateError, log, bind, modify, get, setTimeout, set_content.
  cbn [fst snd console content with_console].
  destruct (content w1 !! "lastSync") as [m|] eqn:Hm; cbn.
  - rewrite Hm. cbn. repeat split. apply lookup_insert_eq.
  - repeat split. exact Hm.
Qed.

Lemma failed_update_schedules_one_retry_witness :
  let w := Sample.tab [] in
  let after := updateDashboardData_of (throw "update failed") w in
  @throw unit "update failed" w = (w, Err "update failed")
  /\ timers after.1 = [retry_timer]
  /\ content after.1 !! "lastSync" = Some (Text sync_failed).
Proof.
  intros w after.
  destruct (failed_update_schedules_one_retry (throw "update failed") w w "update failed"
              eq_refl) as (_ & Ht & Hc & _).
  split; [reflexivity|]. split; [exact Ht|].
  etransitivity; [exact Hc|]. vm_compute. reflexivity.
Defined.

(** ** Writers of the current page *)

(** C9, counterexample: on page 3 of the schools list, the search button
    sets the page to 1 without any page control being used. *)
Lemma search_resets_the_page :
  let w := Sample.tab [Sample.ok_reply 40 "rows"] in
  currentPage w !! "schools" = Some (Js.Num (Js.Int 3))
  /\ currentPage (handle ClickSearchSchools w).1 !! "schools" = Some (Js.Num (Js.Int 1))
  /\ currentPage (handle ClickSearchSchools w).1 <> currentPage w.
Proof.
  intros w. split; [vm_compute; reflexivity|].
  assert (currentPage (handle ClickSearchSchools w).1 !! "schools"
          = Some (Js.Num (Js.Int 1))) as H by (vm_compute; reflexivity).
  split; [exact H|]. intros Heq. rewrite Heq in H. vm_compute in H. discriminate.
Qed.


(** ** Loads that settle *)

Lemma set_content_effects id m w :
  (forall s, is_Some (content (set_content id m w).1 !! s) <-> is_Some (content w !! s))
  /\ requests (set_content id m w).1 = requests w
  /\ cache (set_content id m w).1 = cache w
  /\ loading (set_content id m w).1 = loading w
  /\ timers (set_content id m w).1 = timers w
  /\ clock (set_content id m w).1 = clock w.
Proof.
  unfold set_content. destruct (content w !! id) as [old|] eqn:E; cbn; [|tauto].
  repeat split; try reflexivity.
  - destruct (decide (id = s)) as [<-|Hne].
    + rewrite lookup_insert_eq. rewrite E. intros _. eauto.
    + rewrite lookup_insert_ne by exact Hne. tauto.
  - destruct (decide (id = s)) as [<-|Hne].
    + rewrite lookup_insert_eq. eauto.
    + rewrite lookup_insert_ne by exact Hne. tauto.
Qed.

Lemma fetchApi_keeps endpoint w :
  content (fetchApi endpoint w).1 = content w
  /\ loading (fetchApi endpoint w).1 = loading w
  /\ timers (fetchApi endpoint w).1 = timers w
  /\ inputs (fetchApi endpoint w).1 = inputs w
  /\ active_nav (fetchApi endpoint w).1 = active_nav w.
Proof.
  unfold fetchApi. destruct (replies w) as [|r rest]; [cbn; tauto|].
  destruct (answer r) as [msg|ok st tx body]; [|destruct ok; [destruct body|]];
    cbn; tauto.
Qed.

(** The pattern of the three loads: the body, the logging handler, the
    loading class removed at the end. *)
Lemma settle (body : M unit) (msg s : string) (w : world) :
  is_Some (content (body w).1 !! s) ->
  let r := finally (try_catch body (handleError msg)) (setLoadingState s false) w in
  r.2 = Ok tt
  /\ loading r.1 = loading (body w).1 ∖ {[s]}
  /\ cache r.1 = cache (body w).1
  /\ requests r.1 = requests (body w).1.
Proof.
  intros [m Hm].
  unfold finally, try_catch, handleError, log, modify, setLoadingState.
  destruct (body w) as [w1 [[]|e]]; cbn in *; rewrite Hm; cbn; auto.
Qed.

Lemma two_writes id1 m1 id2 m2 s w :
  let r := bind (set_content id1 m1) (fun _ => set_content id2 m2) w in
  (is_Some (content r.1 !! s) <-> is_Some (content w !! s))
  /\ requests r.1 = requests w
  /\ cache r.1 = cache w
  /\ loading r.1 = loading w.
Proof.
  unfold bind.
  destruct (set_content_effects id1 m1 w) as (Hd1 & Hr1 & Hc1 & Hl1 & _).
  destruct (set_content id1 m1 w) as [w1 [[]|e]]; cbn [fst snd] in *.
  - destruct (set_content_effects id2 m2 w1) as (Hd2 & Hr2 & Hc2 & Hl2 & _).
    destruct (set_content id2 m2 w1) as [w2 r2]; cbn [fst snd] in *.
    rewrite Hd2, Hd1, Hr2, Hr1, Hc2, Hc1, Hl2, Hl1. tauto.
  - rewrite Hd1, Hr1, Hc1, Hl1. tauto.
Qed.

(** A list load whose section element exists: the loading class is set,
    one request is sent, and the two elements are written. *)
Lemma list_body (s url : string) (rows controls : payload -> markup) (id1 id2 : string)
    (w : world) :
  is_Some (content w !! s) ->
  let body :=
    fun w0 =>
      match fetchApi url w0 with
      | (w1, Ok p) =>
          bind (set_content id1 (rows p)) (fun _ => set_content id2 (controls p)) w1
      | (w1, Err e) => (w1, Err e)
      end in
  let w0 := with_classes w ({[s]} ∪ loading w) (hidden w) in
  is_Some (content (body w0).1 !! s)
  /\ cache (body w0).1 = cache w
  /\ requests (body w0).1 = requests w ++ [API_BASE w +:+ url].
Proof.
  intros Hs body w0. unfold body.
  destruct (fetchApi_effects url w0) as (Hreq & Hcache & _ & _).
  destruct (fetchApi_keeps url w0) as (Hcont & _).
  destruct (fetchApi url w0) as [w1 [p|e]]; cbn [fst snd] in *.
  - destruct (two_writes id1 (rows p) id2 (controls p) s w1) as (Hd & Hr & Hc & _).
    rewrite Hd, Hr, Hc, Hcont, Hreq, Hcache. auto.
  - rewrite Hcont, Hreq, Hcache. auto.
Qed.

Lemma loadSchools_eq w m0 :
  content w !! "schools" = Some m0 ->
  loadSchools w
  = finally
      (try_catch
         (fun _ =>
            match
              fetchApi
                ("/schools?"
                 +:+ search_params
                       (append_if "district_id" (inputs w !! "districtFilter")
                          (append_if "search" (inputs w !! "schoolSearch")
                             [("page", page_of w "schools"); ("limit", "20")])))
                (with_classes w ({["schools"]} ∪ loading w) (hidden w))
            with
            | (w1, Ok p) =>
                bind (set_content "schoolsTableBody" (SchoolRows p))
                  (fun _ => set_content "schoolsPagination" (PageControls "schools" p)) w1
            | (w1, Err e) => (w1, Err e)
            end)
         (handleError "Failed to load schools"))
      (setLoadingState "schools" false) w.
Proof.
  intros Hs.
  unfold loadSchools, finally, try_catch.
  unfold bind at 1. unfold setLoadingState at 1. rewrite Hs. reflexivity.
Qed.

Lemma loadStudents_eq w m0 :
  content w !! "students" = Some m0 ->
  loadStudents w
  = finally
      (try_catch
         (fun _ =>
            match
              fetchApi
                ("/students?"
                 +:+ search_params
                       (append_if "class_number" (inputs w !! "classFilter")
                          (append_if "school_id" (inputs w !! "schoolFilter")
                             (append_if "search" (inputs w !! "studentSearch")
                                [("page", page_of w "students"); ("limit", "50")]))))
                (with_classes w ({["students"]} ∪ loading w) (hidden w))
            with
            | (w1, Ok p) =>
                bind (set_content "studentsTableBody" (StudentRows p))
                  (fun _ => set_content "studentsPagination" (PageControls "students" p)) w1
            | (w1, Err e) => (w1, Err e)
            end)
         (handleError "Failed to load students"))
      (setLoadingState "students" false) w.
Proof.
  intros Hs.
  unfold loadStudents, finally, try_catch.
  unfold bind at 1. unfold setLoadingState at 1. rewrite Hs. reflexivity.
Qed.

Lemma keeps_has_set_content s id m :
  keeps (fun w => bool_decide (is_Some (content w !! s))) (set_content id m).
Proof. intros w. apply bool_decide_ext. apply set_content_effects. Qed.

Lemma keeps_has_fetchApi s e :
  keeps (fun w => bool_decide (is_Some (content w !! s))) (fetchApi e).
Proof. intros w. destruct (fetchApi_keeps e w) as (-> & _). reflexivity. Qed.

Lemma keeps_has_setLoadingState s x b :
  keeps (fun w => bool_decide (is_Some (content w !! s))) (setLoadingState x b).
Proof. intros w. unfold setLoadingState. destruct (content w !! x); reflexivity. Qed.

Ltac keeps_has :=
  keeps_with ltac:(first
    [ apply keeps_has_set_content | apply keeps_has_fetchApi
    | apply keeps_has_setLoadingState ]).

Lemma keeps_has_dashboard_body s :
  keeps (fun w => bool_decide (is_Some (content w !! s)))
    (setLoadingState "dashboard" true;;
     let* sk := both (fetchWithCache "/dashboard/stats" default_ttl)
                     (fetchWithCache "/dashboard/kpis" default_ttl) in
     set_content "kpiGrid" (KpiCards (fst sk));;
     set_content "systemStatus" (SystemStatus (fst sk));;
     updateLastSync).
Proof. unfold fetchWithCache, updateLastSync. keeps_has. Qed.

Lemma loadSchools_settles (w : world) :
  is_Some (content w !! "schools") ->
     (loadSchools w).2 = Ok tt
     /\ "schools" ∉ loading (loadSchools w).1
     /\ cache (loadSchools w).1 = cache w
     /\ requests (loadSchools w).1
        = requests w
          ++ [API_BASE w +:+ "/schools?"
              +:+ search_params
                    (append_if "district_id" (inputs w !! "districtFilter")
                       (append_if "search" (inputs w !! "schoolSearch")
                          [("page", page_of w "schools"); ("limit", "20")]))].
Proof.
  intros Hs. destruct Hs as [m0 Hm0]. rewrite (loadSchools_eq w m0 Hm0).
  match goal with
  | |- context [fetchApi ?u ?w0] =>
      destruct (list_body "schools" u SchoolRows (PageControls "schools")
                  "schoolsTableBody" "schoolsPagination" w (ex_intro _ m0 Hm0))
        as (Hd & Hc & Hr)
  end.
  match goal with
  | |- context [finally (try_catch ?b ?h) ?c w] =>
      destruct (settle b "Failed to load schools" "schools" w Hd) as (H1 & H2 & H3 & H4)
  end.
  split; [exact H1|]. split; [rewrite H2; set_solver|].
  split; [rewrite H3; exact Hc | rewrite H4; exact Hr].
Qed.

Lemma loadStudents_settles (w : world) :
  is_Some (content w !! "students") ->
     (loadStudents w).2 = Ok tt
     /\ "students" ∉ loading (loadStudents w).1
     /\ cache (loadStudents w).1 = cache w
     /\ requests (loadStudents w).1
        = requests w
          ++ [API_BASE w +:+ "/students?"
              +:+ search_params
                    (append_if "class_number" (inputs w !! "classFilter")
                       (append_if "school_id" (inputs w !! "schoolFilter")
                          (append_if "search" (inputs w !! "studentSearch")
                             [("page", page_of w "students"); ("limit", "50")])))].
Proof.
  intros Hs. destruct Hs as [m0 Hm0]. rewrite (loadStudents_eq w m0 Hm0).
  match goal with
  | |- context [fetchApi ?u ?w0] =>
      destruct (list_body "students" u StudentRows (PageControls "students")
                  "studentsTableBody" "studentsPagination" w (ex_intro _ m0 Hm0))
        as (Hd & Hc & Hr)
  end.
  match goal with
  | |- context [finally (try_catch ?b ?h) ?c w] =>
      destruct (settle b "Failed to load students" "students" w Hd) as (H1 & H2 & H3 & H4)
  end.
  split; [exact H1|]. split; [rewrite H2; set_solver|].
  split; [rewrite H3; exact Hc | rewrite H4; exact Hr].
Qed.

Lemma loadDashboard_settles (w : world) :
  is_Some (content w !! "dashboard") ->
  (loadDashboard w).2 = Ok tt /\ "dashboard" ∉ loading (loadDashboard w).1.
Proof.
  intros Hs. unfold loadDashboard.
  match goal with
  | |- context [finally (try_catch ?b ?h) ?c w] =>
      assert (is_Some (content (b w).1 !! "dashboard")) as Hd;
      [ pose proof (keeps_has_dashboard_body "dashboard" w) as Hk; cbv beta in Hk;
        rewrite (bool_decide_eq_true_2 _ Hs) in Hk;
        apply bool_decide_eq_true_1 in Hk; exact Hk
      | destruct (settle b "Failed to load dashboard" "dashboard" w Hd) as (H1 & H2 & _) ]
  end.
  split; [exact H1 | rewrite H2; set_solver].
Qed.

(** X12: a load of a section whose element exists never rejects and
    leaves the section without the loading class, whatever the network
    answers; a list load sends exactly one request, for the current page
    and the values of its inputs, and neither reads nor writes the
    cache. *)
Theorem loads_always_settle (w : world) :
  (is_Some (content w !! "schools") ->
     (loadSchools w).2 = Ok tt
     /\ "schools" ∉ loading (loadSchools w).1
     /\ cache (loadSchools w).1 = cache w
     /\ requests (loadSchools w).1
        = requests w
          ++ [API_BASE w +:+ "/schools?"
              +:+ search_params
                    (append_if "district_id" (inputs w !! "districtFilter")
                       (append_if "search" (inputs w !! "schoolSearch")
                          [("page", page_of w "schools"); ("limit", "20")]))])
  /\ (is_Some (content w !! "students") ->
     (loadStudents w).2 = Ok tt
     /\ "students" ∉ loading (loadStudents w).1
     /\ cache (loadStudents w).1 = cache w
     /\ requests (loadStudents w).1
        = requests w
          ++ [API_BASE w +:+ "/students?"
              +:+ search_params
                    (append_if "class_number" (inputs w !! "classFilter")
                       (append_if "school_id" (inputs w !! "schoolFilter")
                          (append_if "search" (inputs w !! "studentSearch")
                             [("page", page_of w "students"); ("limit", "50")])))])
  /\ (is_Some (content w !! "dashboard") ->
     (loadDashboard w).2 = Ok tt
     /\ "dashboard" ∉ loading (loadDashboard w).1).
Proof.
  split; [|split].
  - apply loadSchools_settles.
  - apply loadStudents_settles.
  - apply loadDashboard_settles.
Qed.

Lemma loads_always_settle_witness :
  let w := Sample.tab [Sample.failed_reply 30] in
  (loadSchools w).2 = Ok tt
  /\ cache (loadSchools w).1 = cache w
  /\ (loadDashboard w).2 = Ok tt.
Proof.
  intros w.
  assert (is_Some (content w !! "schools")) as H1 by (eexists; vm_compute; reflexivity).
  assert (is_Some (content w !! "dashboard")) as H2 by (eexists; vm_compute; reflexivity).
  destruct (loads_always_settle w) as (Hs & _ & Hd).
  destruct (Hs H1) as (Hok & _ & Hc & _). destruct (Hd H2) as (Hok' & _).
  split; [exact Hok|]. split; [exact Hc | exact Hok'].
Defined.


(** ** The request of a page control *)

Lemma form_encode_kept (s : string) :
  all_chars (fun c => is_digit c || Ascii.eqb c "-") s = true -> form_encode s = s.
Proof.
  induction s as [|c s IH]; [reflexivity|].
  cbn [all_chars]. intros H. apply andb_true_iff in H as [Hc Hs].
  cbn [form_encode]. rewrite (IH Hs).
  assert (Sql.is_word_char c && negb (nat_of_ascii c =? 36)%nat || (nat_of_ascii c =? 45)%nat
          = true) as ->; [|reflexivity].
  apply orb_true_iff in Hc as [Hd|Hm].
  - apply orb_true_iff. left. unfold Sql.is_word_char. rewrite Hd.
    rewrite !orb_true_r. cbn [orb andb].
    unfold is_digit in Hd. apply andb_true_iff in Hd as [H1 H2].
    apply Nat.leb_le in H1, H2.
    apply negb_true_iff, Nat.eqb_neq. lia.
  - apply Ascii.eqb_eq in Hm. subst c. reflexivity.
Qed.

Lemma all_chars_weaken (p q : ascii -> bool) s :
  (forall c, p c = true -> q c = true) -> all_chars p s = true -> all_chars q s = true.
Proof.
  intros Hpq. induction s as [|c s IH]; [reflexivity|].
  cbn [all_chars]. intros H. apply andb_true_iff in H as [Hc Hs].
  rewrite (Hpq c Hc), (IH Hs). reflexivity.
Qed.

Lemma form_encode_dec (z : Z) : form_encode (dec_of_Z z) = dec_of_Z z.
Proof.
  apply form_encode_kept. unfold dec_of_Z.
  destruct (z <? 0)%Z.
  - change ("-" +:+ dec_of_nat (Z.to_nat (- z)))
      with (String "-" (dec_of_nat (Z.to_nat (- z)))).
    cbn [all_chars]. change (Ascii.eqb "-" "-") with true. rewrite orb_true_r. cbn [andb].
    apply (all_chars_weaken is_digit); [intros c ->; reflexivity|].
    apply numeral_digits, dec_of_nat_numeral.
  - apply (all_chars_weaken is_digit); [intros c ->; reflexivity|].
    apply numeral_digits, dec_of_nat_numeral.
Qed.

(** X13: a click on the control of page [n] of a list sends one request,
    for [page=n] with the limit of that list (20 for schools, 50 for
    students) when the inputs are empty, and with the encoded search text
    after them when the search box holds one. *)
Theorem page_control_requests_its_page (w : world) (n : Z) :
  is_Some (content w !! "schools") -> is_Some (content w !! "students") ->
  (inputs w !! "schoolSearch" = Some "" -> inputs w !! "districtFilter" = Some "" ->
     requests (handle (ClickPageControl "schools" (Js.Num (Js.Int n))) w).1
     = requests w ++ [API_BASE w +:+ "/schools?page=" +:+ dec_of_Z n +:+ "&limit=20"])
  /\ (inputs w !! "studentSearch" = Some "" -> inputs w !! "schoolFilter" = Some "" ->
      inputs w !! "classFilter" = Some "" ->
     requests (handle (ClickPageControl "students" (Js.Num (Js.Int n))) w).1
     = requests w ++ [API_BASE w +:+ "/students?page=" +:+ dec_of_Z n +:+ "&limit=50"])
  /\ (forall text, text <> "" ->
      inputs w !! "schoolSearch" = Some text -> inputs w !! "districtFilter" = Some "" ->
     requests (handle (ClickPageControl "schools" (Js.Num (Js.Int n))) w).1
     = requests w ++ [API_BASE w +:+ "/schools?page=" +:+ dec_of_Z n +:+ "&limit=20&search="
                      +:+ form_encode text]).
Proof.
  intros Hsc Hst. split; [|split].
  - intros H1 H2.
    change (handle (ClickPageControl "schools" (Js.Num (Js.Int n))) w)
      with (loadSchools (with_currentPage w (<["schools" := Js.Num (Js.Int n)]> (currentPage w)))).
    destruct (loadSchools_settles
                (with_currentPage w (<["schools" := Js.Num (Js.Int n)]> (currentPage w))) Hsc)
      as (_ & _ & _ & ->).
    cbn [requests with_currentPage API_BASE inputs]. rewrite H1, H2.
    unfold page_of. cbn [currentPage with_currentPage]. rewrite lookup_insert_eq.
    cbn [append_if String.eqb Ascii.eqb search_params Js.to_string].
    rewrite form_encode_dec. reflexivity.
  - intros H1 H2 H3.
    change (handle (ClickPageControl "students" (Js.Num (Js.Int n))) w)
      with (loadStudents (with_currentPage w (<["students" := Js.Num (Js.Int n)]> (currentPage w)))).
    destruct (loadStudents_settles
                (with_currentPage w (<["students" := Js.Num (Js.Int n)]> (currentPage w))) Hst)
      as (_ & _ & _ & ->).
    cbn [requests with_currentPage API_BASE inputs]. rewrite H1, H2, H3.
    unfold page_of. cbn [currentPage with_currentPage]. rewrite lookup_insert_eq.
    cbn [append_if String.eqb Ascii.eqb search_params Js.to_string].
    rewrite form_encode_dec. reflexivity.
  - intros text Hne H1 H2.
    change (handle (ClickPageControl "schools" (Js.Num (Js.Int n))) w)
      with (loadSchools (with_currentPage w (<["schools" := Js.Num (Js.Int n)]> (currentPage w)))).
    destruct (loadSchools_settles
                (with_currentPage w (<["schools" := Js.Num (Js.Int n)]> (currentPage w))) Hsc)
      as (_ & _ & _ & ->).
    cbn [requests with_currentPage API_BASE inputs]. rewrite H1, H2.
    unfold page_of. cbn [currentPage with_currentPage]. rewrite lookup_insert_eq.
    unfold append_if at 2. replace (String.eqb text "") with false
      by (symmetry; apply String.eqb_neq; exact Hne).
    cbn [append_if String.eqb Ascii.eqb search_params Js.to_string app].
    rewrite form_encode_dec.
    change (form_encode "page") with "page". change (form_encode "limit") with "limit".
    change (form_encode "20") with "20". change (form_encode "search") with "search".
    rewrite !append_cons, !append_nil_l.
    reflexivity.
Qed.

Lemma page_control_requests_its_page_witness :
  let w := Sample.tab_with [Sample.ok_reply 30 "page 4"]
             [("schoolSearch", ""); ("districtFilter", "")] in
  requests (handle (ClickPageControl "schools" (Js.Num (Js.Int 4))) w).1
  = requests w ++ [API_BASE w +:+ "/schools?page=" +:+ dec_of_Z 4 +:+ "&limit=20"].
Proof.
  intros w.
  assert (is_Some (content w !! "schools")) as H1 by (eexists; vm_compute; reflexivity).
  assert (is_Some (content w !! "students")) as H2 by (eexists; vm_compute; reflexivity).
  destruct (page_control_requests_its_page w 4 H1 H2) as (H & _).
  apply H; vm_compute; reflexivity.
Defined.


(** ** The real-time update *)

Lemma bind_succeeds {A} (m : M unit) (k : unit -> M A) (w : world) :
  (m w).2 = Ok tt -> bind m k w = k tt (m w).1.
Proof. unfold bind. destruct (m w) as [w' r]. cbn. intros ->. reflexivity. Qed.

Lemma try_catch_logged (m : M unit) (line : string -> string) (w : world) :
  (try_catch m (fun e => log (line e)) w).2 = Ok tt.
Proof. unfold try_catch, log, modify. destruct (m w) as [w' [[]|e]]; reflexivity. Qed.

Lemma keeps_content_fetchApi e : keeps content (fetchApi e).
Proof. intros w. apply fetchApi_keeps. Qed.

Lemma keeps_timers_fetchApi e : keeps timers (fetchApi e).
Proof. intros w. apply fetchApi_keeps. Qed.

Lemma keeps_content_fetchWithCache e ttl : keeps content (fetchWithCache e ttl).
Proof. unfold fetchWithCache. keeps_with ltac:(apply keeps_content_fetchApi). Qed.

Lemma keeps_timers_fetchWithCache e ttl : keeps timers (fetchWithCache e ttl).
Proof. unfold fetchWithCache. keeps_with ltac:(apply keeps_timers_fetchApi). Qed.

(** The statements of the cycle before the sync status is written. *)
Lemma fetches_of_the_cycle (w : world) :
  let m := log "Real-time update";; updateKPIsAnimated;; updateChartsData;;
           updateSystemMetrics in
  (m w).2 = Ok tt /\ content (m w).1 = content w /\ timers (m w).1 = timers w.
Proof.
  intros m. split; [|split].
  - unfold m. rewrite bind_succeeds by reflexivity.
    rewrite bind_succeeds by apply try_catch_logged.
    rewrite bind_succeeds by apply try_catch_logged.
    apply try_catch_logged.
  - assert (keeps content m) as H; [|apply H].
    unfold m, updateKPIsAnimated, updateChartsData, updateSystemMetrics, log.
    keeps_with ltac:(apply keeps_content_fetchWithCache).
  - assert (keeps timers m) as H; [|apply H].
    unfold m, updateKPIsAnimated, updateChartsData, updateSystemMetrics, log.
    keeps_with ltac:(apply keeps_timers_fetchWithCache).
Qed.

Lemma update_cycle_eq (w : world) :
  update_cycle w
  = updateSyncStatus (clock w)
      ((log "Real-time update";; updateKPIsAnimated;; updateChartsData;;
        updateSystemMetrics) w).1.
Proof.
  destruct (fetches_of_the_cycle w) as (Hok & _).
  cbv zeta in Hok.
  rewrite <- (bind_succeeds _ (fun _ => updateSyncStatus (clock w)) w Hok).
  unfold update_cycle. unfold bind at 1. unfold get at 1.
  unfold bind. destruct (log "Real-time update" w) as [w1 [[]|e]]; [|reflexivity].
  destruct (updateKPIsAnimated w1) as [w2 [[]|e]]; [|reflexivity].
  destruct (updateChartsData w2) as [w3 [[]|e]]; [|reflexivity].
  destruct (updateSystemMetrics w3) as [w4 [[]|e]]; reflexivity.
Qed.


Lemma update_is_its_cycle (w : world) :
  updateDashboardData w = update_cycle w.
Proof.
  assert ((update_cycle w).2 = Ok tt) as Hok.
  { rewrite update_cycle_eq.
    destruct (fetches_of_the_cycle w) as (_ & Hc & _). cbv zeta in Hc.
    set (w4 := ((log "Real-time update";; updateKPIsAnimated;; updateChartsData;;
                 updateSystemMetrics) w).1) in *.
    unfold updateSyncStatus, bind, get, set_content, modify, setTimeout.
    rewrite Hc. destruct (content w !! "lastSync") as [old|] eqn:E; [|reflexivity].
    cbn. rewrite Hc, E. reflexivity. }
  unfold updateDashboardData, updateDashboardData_of, try_catch.
  destruct (update_cycle w) as [w' [[]|e]]; [reflexivity|discriminate Hok].
Qed.

(** X14: the statements in the [try] of [updateDashboardData] never throw,
    whatever the network answers, so its [catch] is not reached: the update
    resolves, no timer that retries the update is scheduled, and the sync
    element shows the time at which the update started, in the colour of
    success, also when both fetches failed. *)
Theorem update_never_reaches_its_handler (w : world) :
  updateDashboardData w = update_cycle w
  /\ (update_cycle w).2 = Ok tt
  /\ (forall t, In t (timers (update_cycle w).1) -> action t = RetryUpdate ->
        In t (timers w))
  /\ (is_Some (content w !! "lastSync") ->
      content (update_cycle w).1 !! "lastSync" = Some (LastSyncAt (clock w))
      /\ sync_color (update_cycle w).1 = "#10b981").
Proof.
  assert ((update_cycle w).2 = Ok tt
          /\ timers (update_cycle w).1
             = timers w ++ match content w !! "lastSync" with
                           | Some _ => [color_reset]
                           | None => []
                           end
          /\ (is_Some (content w !! "lastSync") ->
              content (update_cycle w).1 !! "lastSync" = Some (LastSyncAt (clock w))
              /\ sync_color (update_cycle w).1 = "#10b981")) as H.
  { rewrite update_cycle_eq.
    destruct (fetches_of_the_cycle w) as (_ & Hc & Ht). cbv zeta in Hc, Ht.
    set (w4 := ((log "Real-time update";; updateKPIsAnimated;; updateChartsData;;
                 updateSystemMetrics) w).1) in *.
    unfold updateSyncStatus, bind, get, set_content, modify, setTimeout.
    rewrite Hc. destruct (content w !! "lastSync") as [old|] eqn:E.
    - cbn. rewrite Hc, E. cbn. rewrite Ht. split; [reflexivity|]. split; [reflexivity|].
      intros _. split; [apply lookup_insert_eq | reflexivity].
    - cbn. rewrite Ht, app_nil_r. split; [reflexivity|]. split; [reflexivity|].
      intros [x Hx]. discriminate Hx. }
  destruct H as (Hok & Ht & Hs).
  split; [apply update_is_its_cycle|]. split; [exact Hok|]. split; [|exact Hs].
  intros t Hin Ha. rewrite Ht in Hin. apply in_app_or in Hin as [Hin|Hin]; [exact Hin|].
  destruct (content w !! "lastSync"); [|destruct Hin].
  destruct Hin as [<-|[]]. discriminate Ha.
Qed.

Lemma update_never_reaches_its_handler_witness :
  let w := Sample.tab [Sample.failed_reply 5; Sample.failed_reply 5] in
  content (update_cycle w).1 !! "lastSync" = Some (LastSyncAt (clock w))
  /\ sync_color (update_cycle w).1 = "#10b981".
Proof.
  intros w.
  assert (is_Some (content w !! "lastSync")) as H by (eexists; vm_compute; reflexivity).
  destruct (update_never_reaches_its_handler w) as (_ & _ & _ & Hs).
  exact (Hs H).
Defined.


(** ** Ticks away from the dashboard *)

(** X15: a click that names no navigation item throws after the active
    mark has been taken off every item; while no item is active the sync
    tick and the refresh button throw and change nothing, and the poll does
    nothing; while another section than the dashboard is active, or
    real-time updates are off, a tick sends no request. *)
Theorem ticks_need_an_active_dashboard (w : world) :
  (forall s, s ∉ nav_items w ->
     showSection s w
     = (with_nav w None (active_content w),
        Err "Cannot read properties of null (reading 'classList')"))
  /\ (active_nav w = None ->
      fire SyncTick w = (w, Err "Cannot read properties of null (reading 'dataset')")
      /\ fire PollTick w = (w, Ok tt)
      /\ refreshCurrentSection w
         = (w, Err "Cannot read properties of null (reading 'dataset')"))
  /\ (forall s, active_nav w = Some s -> s <> "dashboard" ->
      fire SyncTick w = (w, Ok tt) /\ fire PollTick w = (w, Ok tt))
  /\ (realTimeUpdates w = false -> fire PollTick w = (w, Ok tt)).
Proof.
  split; [|split; [|split]].
  - intros s Hs. unfold showSection, bind, modify, get. cbn [nav_items with_nav].
    rewrite bool_decide_eq_false_2 by exact Hs. reflexivity.
  - intros Hn. split; [|split].
    + unfold fire, active_section, bind, get. rewrite Hn. reflexivity.
    + unfold fire, isOnDashboard, bind, get. rewrite Hn, andb_false_r. reflexivity.
    + unfold refreshCurrentSection, active_section, bind, get. rewrite Hn. reflexivity.
  - intros s Hn Hs. apply String.eqb_neq in Hs. split.
    + unfold fire, active_section, bind, get. rewrite Hn. cbn. rewrite Hs. reflexivity.
    + unfold fire, isOnDashboard, bind, get. rewrite Hn, Hs, andb_false_r. reflexivity.
  - intros Hr. unfold fire, isOnDashboard, bind, get. rewrite Hr. reflexivity.
Qed.

Lemma ticks_need_an_active_dashboard_witness :
  let w := Sample.tab [] in
  showSection "undefined" w
  = (with_nav w None (active_content w),
     Err "Cannot read properties of null (reading 'classList')")
  /\ fire SyncTick (with_nav w None (active_content w))
     = (with_nav w None (active_content w),
        Err "Cannot read properties of null (reading 'dataset')").
Proof.
  intros w.
  assert ("undefined" ∉ nav_items w) as Hs
    by (apply (bool_decide_unpack _); vm_compute; exact I).
  destruct (ticks_need_an_active_dashboard w) as (H1 & _).
  destruct (ticks_need_an_active_dashboard (with_nav w None (active_content w)))
    as (_ & H2 & _).
  split; [exact (H1 "undefined" Hs)|].
  destruct (H2 eq_refl) as (Ht & _). exact Ht.
Defined.


(** ** One cache for the two timers *)

Lemma fetch_answered endpoint ttl w r rest st tx p :
  replies w = r :: rest -> answer r = Http true st tx (Some p) ->
  stale endpoint ttl w ->
  fetchWithCache endpoint ttl w
  = (with_cache
       (with_env w (clock w + Z.of_N (latency r)) rest
          (requests w ++ [API_BASE w +:+ endpoint]))
       (<[endpoint := {| data := p; timestamp := clock w + Z.of_N (latency r) |}]> (cache w)),
     Ok p).
Proof.
  intros Hr Ha Hs. rewrite (fetchWithCache_miss _ _ _ Hs).
  unfold fetchApi. rewrite Hr, Ha. reflexivity.
Qed.

Lemma keeps_requests_set_content id m : keeps requests (set_content id m).
Proof. intros w. apply set_content_effects. Qed.

Lemma keeps_cache_set_content id m : keeps cache (set_content id m).
Proof. intros w. apply set_content_effects. Qed.

Lemma keeps_requests_setLoadingState s b : keeps requests (setLoadingState s b).
Proof. intros w. unfold setLoadingState. destruct (content w !! s); reflexivity. Qed.

Lemma keeps_requests_updateSyncStatus ts : keeps requests (updateSyncStatus ts).
Proof.
  unfold updateSyncStatus, setTimeout.
  keeps_with ltac:(apply keeps_requests_set_content).
Qed.

Lemma keeps_cache_updateSyncStatus ts : keeps cache (updateSyncStatus ts).
Proof.
  unfold updateSyncStatus, setTimeout.
  keeps_with ltac:(apply keeps_cache_set_content).
Qed.

Lemma keeps_clock_updateSyncStatus ts : keeps clock (updateSyncStatus ts).
Proof.
  unfold updateSyncStatus, setTimeout.
  keeps_with ltac:(intros w0; apply set_content_effects).
Qed.

(** A dashboard load that finds both entries fresh sends nothing. *)
Lemma loadDashboard_from_cache (w : world) (c1 c2 : cache_entry) :
  cache w !! "/dashboard/stats" = Some c1 -> (clock w - timestamp c1 < default_ttl)%Z ->
  cache w !! "/dashboard/kpis" = Some c2 -> (clock w - timestamp c2 < default_ttl)%Z ->
  requests (loadDashboard w).1 = requests w.
Proof.
  intros H1 F1 H2 F2.
  assert (forall w0, cache w0 = cache w -> clock w0 = clock w ->
            both (fetchWithCache "/dashboard/stats" default_ttl)
                 (fetchWithCache "/dashboard/kpis" default_ttl) w0
            = (w0, Ok (data c1, data c2))) as Hboth.
  { intros w0 Hc Hk. unfold both.
    rewrite (fetchWithCache_hit _ _ w0 c1) by (rewrite ?Hc, ?Hk; assumption).
    rewrite (fetchWithCache_hit _ _ w0 c2) by (rewrite ?Hc, ?Hk; assumption).
    reflexivity. }
  unfold loadDashboard, finally, try_catch.
  unfold bind at 1. unfold setLoadingState at 1.
  destruct (content w !! "dashboard") as [m|] eqn:E.
  - cbv beta iota. unfold bind at 1. rewrite Hboth by reflexivity. cbv beta iota.
    set (w0 := with_classes w ({["dashboard"]} ∪ loading w) (hidden w)).
    assert (keeps requests
              (set_content "kpiGrid" (KpiCards (data c1, data c2).1);;
               set_content "systemStatus" (SystemStatus (data c1, data c2).1);;
               updateLastSync)) as Hk.
    { unfold updateLastSync. keeps_with ltac:(apply keeps_requests_set_content). }
    specialize (Hk w0).
    destruct ((set_content "kpiGrid" (KpiCards (data c1, data c2).1);;
               set_content "systemStatus" (SystemStatus (data c1, data c2).1);;
               updateLastSync) w0) as [w1 [[]|e]]; cbn [fst snd] in *.
    + rewrite <- (keeps_requests_setLoadingState "dashboard" false w1) in Hk.
      destruct (setLoadingState "dashboard" false w1) as [w2 [[]|e2]]; exact Hk.
    + unfold handleError, log, modify. cbn [fst snd].
      pose proof (keeps_requests_setLoadingState "dashboard" false
                    (with_console w1 (console w1 ++ ["Failed to load dashboard" +:+ " " +:+ e])))
        as Hl.
      destruct (setLoadingState "dashboard" false _) as [w2 [[]|e2]];
        exact (eq_trans Hl Hk).
  - cbv beta iota. unfold handleError, log, modify. cbn [fst snd].
    unfold setLoadingState. cbn [content with_console]. rewrite E. reflexivity.
Qed.

(** X16: a poll whose two fetches are answered sends the two requests, in
    the order stats, kpis, and stores both bodies in the cache of the portal
    object with the times of their arrival; a dashboard load that starts
    less than 30 s after the first of them arrived is served from these
    entries and sends nothing. *)
Theorem a_poll_feeds_the_sync_tick
    (w : world) (r1 r2 : reply) (rest : list reply)
    (st1 st2 : nat) (tx1 tx2 : string) (p1 p2 : payload) :
  replies w = r1 :: r2 :: rest ->
  answer r1 = Http true st1 tx1 (Some p1) ->
  answer r2 = Http true st2 tx2 (Some p2) ->
  stale "/dashboard/stats" 5000 w -> stale "/dashboard/kpis" 10000 w ->
  let w1 := (updateDashboardData w).1 in
  requests w1
  = requests w ++ [API_BASE w +:+ "/dashboard/stats"; API_BASE w +:+ "/dashboard/kpis"]
  /\ cache w1 !! "/dashboard/stats"
     = Some {| data := p1; timestamp := clock w + Z.of_N (latency r1) |}
  /\ cache w1 !! "/dashboard/kpis"
     = Some {| data := p2;
               timestamp := clock w + Z.of_N (latency r1) + Z.of_N (latency r2) |}
  /\ forall ms : N,
       (Z.of_N ms + Z.of_N (latency r2) < 30000)%Z ->
       requests (loadDashboard (advance ms w1)).1 = requests w1.
Proof.
  intros Hr Ha1 Ha2 Hs1 Hs2 w1.
  assert (clock w1 = (clock w + Z.of_N (latency r1) + Z.of_N (latency r2))%Z
          /\ requests w1
             = requests w ++ [API_BASE w +:+ "/dashboard/stats"; API_BASE w +:+ "/dashboard/kpis"]
          /\ cache w1
             = <["/dashboard/kpis" :=
                   {| data := p2;
                      timestamp := clock w + Z.of_N (latency r1) + Z.of_N (latency r2) |}]>
                 (<["/dashboard/stats" :=
                      {| data := p1; timestamp := clock w + Z.of_N (latency r1) |}]> (cache w)))
    as (Hclock & Hreq & Hcache).
  { unfold w1.
    rewrite (update_is_its_cycle w).
    rewrite update_cycle_eq.
    rewrite (keeps_clock_updateSyncStatus _ _), (keeps_requests_updateSyncStatus _ _),
      (keeps_cache_updateSyncStatus _ _).
    rewrite bind_succeeds by reflexivity.
    set (w0 := (log "Real-time update" w).1).
    assert (updateKPIsAnimated w0
            = (with_cache
                 (with_env w0 (clock w + Z.of_N (latency r1)) (r2 :: rest)
                    (requests w ++ [API_BASE w +:+ "/dashboard/stats"]))
                 (<["/dashboard/stats" :=
                      {| data := p1; timestamp := clock w + Z.of_N (latency r1) |}]> (cache w)),
               Ok tt)) as HK.
    { unfold updateKPIsAnimated, try_catch. unfold bind at 1.
      rewrite (fetch_answered _ _ w0 r1 (r2 :: rest) st1 tx1 p1 Hr Ha1 Hs1). reflexivity. }
    rewrite bind_succeeds by (rewrite HK; reflexivity). rewrite HK. cbn [fst].
    set (wA := with_cache _ _).
    assert (stale "/dashboard/kpis" 10000 wA) as Hs2'.
    { unfold stale in *. unfold wA. cbn [cache with_cache clock with_env].
      rewrite lookup_insert_ne by discriminate.
      change (cache w0) with (cache w).
      destruct (cache w !! "/dashboard/kpis") as [c|]; [|exact I].
      change (clock w0) with (clock w) in *. lia. }
    assert (updateChartsData wA
            = (with_cache
                 (with_env wA (clock w + Z.of_N (latency r1) + Z.of_N (latency r2)) rest
                    ((requests w ++ [API_BASE w +:+ "/dashboard/stats"])
                     ++ [API_BASE w +:+ "/dashboard/kpis"]))
                 (<["/dashboard/kpis" :=
                      {| data := p2;
                         timestamp := clock w + Z.of_N (latency r1) + Z.of_N (latency r2) |}]>
                    (cache wA)),
               Ok tt)) as HC.
    { unfold updateChartsData, try_catch. unfold bind at 1.
      rewrite (fetch_answered _ _ wA r2 rest st2 tx2 p2 eq_refl Ha2 Hs2'). reflexivity. }
    rewrite bind_succeeds by (rewrite HC; reflexivity). rewrite HC. cbn [fst].
    unfold updateSystemMetrics, try_catch, ret. cbn [fst].
    cbn [clock requests cache with_cache with_env].
    rewrite <- app_assoc. repeat split. }
  split; [exact Hreq|]. split; [|split].
  - rewrite Hcache. rewrite lookup_insert_ne by discriminate. apply lookup_insert_eq.
  - rewrite Hcache. apply lookup_insert_eq.
  - intros ms Hms.
    rewrite (loadDashboard_from_cache (advance ms w1)
               {| data := p1; timestamp := clock w + Z.of_N (latency r1) |}
               {| data := p2;
                  timestamp := clock w + Z.of_N (latency r1) + Z.of_N (latency r2) |}).
    + reflexivity.
    + change (cache (advance ms w1)) with (cache w1). rewrite Hcache.
      rewrite lookup_insert_ne by discriminate. apply lookup_insert_eq.
    + change (clock (advance ms w1)) with (clock w1 + Z.of_N ms)%Z. rewrite Hclock.
      unfold default_ttl. cbn [timestamp]. lia.
    + change (cache (advance ms w1)) with (cache w1). rewrite Hcache.
      apply lookup_insert_eq.
    + change (clock (advance ms w1)) with (clock w1 + Z.of_N ms)%Z. rewrite Hclock.
      unfold default_ttl. cbn [timestamp]. lia.
Qed.

Lemma a_poll_feeds_the_sync_tick_witness :
  let w := Sample.tab [Sample.ok_reply 40 "stats"; Sample.ok_reply 25 "kpis"] in
  let w1 := (updateDashboardData w).1 in
  requests w1
  = requests w ++ [API_BASE w +:+ "/dashboard/stats"; API_BASE w +:+ "/dashboard/kpis"]
  /\ requests (loadDashboard (advance 29000 w1)).1 = requests w1.
Proof.
  intros w w1.
  assert (stale "/dashboard/stats" 5000 w) as H1 by (vm_compute; exact I).
  assert (stale "/dashboard/kpis" 10000 w) as H2 by (vm_compute; exact I).
  destruct (a_poll_feeds_the_sync_tick w (Sample.ok_reply 40 "stats")
              (Sample.ok_reply 25 "kpis") [] 200 200 "OK" "OK" "stats" "kpis"
              eq_refl eq_refl eq_refl H1 H2) as (Hr & _ & _ & Hl).
  split; [exact Hr|].
  apply Hl. vm_compute. reflexivity.
Defined.


(** ** A dashboard load with one failed fetch *)

Lemma fetch_refused endpoint ttl w r rest e :
  replies w = r :: rest -> answer r = NetworkError e ->
  stale endpoint ttl w ->
  fetchWithCache endpoint ttl w
  = (with_env w (clock w + Z.of_N (latency r)) rest
       (requests w ++ [API_BASE w +:+ endpoint]),
     Err e).
Proof.
  intros Hr Ha Hs. rewrite (fetchWithCache_miss _ _ _ Hs).
  unfold fetchApi. rewrite Hr, Ha. reflexivity.
Qed.

(** X17: when the stats fetch of a dashboard load fails and the kpis fetch
    is answered, the two requests have been sent, stats first; nothing is
    stored for stats, no element is written, the failure is logged once, the
    load resolves, and the section is left without the loading class. *)
Theorem a_failed_stats_fetch_renders_nothing
    (w : world) (r1 r2 : reply) (rest : list reply)
    (e : string) (st2 : nat) (tx2 : string) (p2 : payload) :
  is_Some (content w !! "dashboard") ->
  replies w = r1 :: r2 :: rest ->
  answer r1 = NetworkError e ->
  answer r2 = Http true st2 tx2 (Some p2) ->
  stale "/dashboard/stats" default_ttl w -> stale "/dashboard/kpis" default_ttl w ->
  (loadDashboard w).2 = Ok tt
  /\ requests (loadDashboard w).1
     = requests w ++ [API_BASE w +:+ "/dashboard/stats"; API_BASE w +:+ "/dashboard/kpis"]
  /\ cache (loadDashboard w).1 !! "/dashboard/stats" = cache w !! "/dashboard/stats"
  /\ content (loadDashboard w).1 = content w
  /\ console (loadDashboard w).1 = console w ++ ["Failed to load dashboard" +:+ " " +:+ e]
  /\ "dashboard" ∉ loading (loadDashboard w).1.
Proof.
  intros [m Hm] Hr Ha1 Ha2 Hs1 Hs2.
  set (w0 := with_classes w ({["dashboard"]} ∪ loading w) (hidden w)).
  set (wA := with_env w0 (clock w + Z.of_N (latency r1)) (r2 :: rest)
               (requests w ++ [API_BASE w +:+ "/dashboard/stats"])).
  assert (stale "/dashboard/kpis" default_ttl wA) as Hs2'.
  { unfold stale in *. change (cache wA) with (cache w).
    destruct (cache w !! "/dashboard/kpis") as [c|]; [|exact I].
    change (clock wA) with (clock w + Z.of_N (latency r1))%Z. lia. }
  assert (both (fetchWithCache "/dashboard/stats" default_ttl)
               (fetchWithCache "/dashboard/kpis" default_ttl) w0
          = (with_cache
               (with_env wA (clock w + Z.of_N (latency r1) + Z.of_N (latency r2)) rest
                  ((requests w ++ [API_BASE w +:+ "/dashboard/stats"])
                   ++ [API_BASE w +:+ "/dashboard/kpis"]))
               (<["/dashboard/kpis" :=
                    {| data := p2;
                       timestamp := clock w + Z.of_N (latency r1) + Z.of_N (latency r2) |}]>
                  (cache w)),
             Err e)) as Hboth.
  { unfold both.
    rewrite (fetch_refused _ _ w0 r1 (r2 :: rest) e Hr Ha1 Hs1).
    cbv beta iota.
    change (with_env w0 (clock w0 + Z.of_N (latency r1)) (r2 :: rest)
              (requests w0 ++ [API_BASE w0 +:+ "/dashboard/stats"])) with wA.
    rewrite (fetch_answered _ _ wA r2 rest st2 tx2 p2 eq_refl Ha2 Hs2'). reflexivity. }
  assert (exists wF,
            loadDashboard w = (wF, Ok tt)
            /\ requests wF
               = requests w
                 ++ [API_BASE w +:+ "/dashboard/stats"; API_BASE w +:+ "/dashboard/kpis"]
            /\ cache wF !! "/dashboard/stats" = cache w !! "/dashboard/stats"
            /\ content wF = content w
            /\ console wF = console w ++ ["Failed to load dashboard" +:+ " " +:+ e]
            /\ "dashboard" ∉ loading wF) as (wF & Heq & H).
  { eexists. split.
    { unfold loadDashboard, finally, try_catch.
      unfold bind at 1. unfold setLoadingState at 1. rewrite Hm. cbv beta iota.
      fold w0. unfold bind at 1. rewrite Hboth. cbv beta iota.
      unfold handleError, log, modify, setLoadingState.
      unfold wA, w0.
      cbn [content with_console with_cache with_env with_classes fst snd].
      rewrite Hm. reflexivity. }
    cbn [requests cache content console loading with_console with_cache with_env
         with_classes].
    rewrite <- app_assoc.
    split; [reflexivity|]. split; [apply lookup_insert_ne; discriminate|].
    split; [reflexivity|]. split; [reflexivity|]. set_solver. }
  rewrite Heq. exact (conj eq_refl H).
Qed.

Lemma a_failed_stats_fetch_renders_nothing_witness :
  let w := Sample.tab [Sample.failed_reply 40; Sample.ok_reply 25 "kpis"] in
  requests (loadDashboard w).1
  = requests w ++ [API_BASE w +:+ "/dashboard/stats"; API_BASE w +:+ "/dashboard/kpis"]
  /\ content (loadDashboard w).1 = content w.
Proof.
  intros w.
  assert (is_Some (content w !! "dashboard")) as H0 by (eexists; vm_compute; reflexivity).
  assert (stale "/dashboard/stats" default_ttl w) as H1 by (vm_compute; exact I).
  assert (stale "/dashboard/kpis" default_ttl w) as H2 by (vm_compute; exact I).
  destruct (a_failed_stats_fetch_renders_nothing w (Sample.failed_reply 40)
              (Sample.ok_reply 25 "kpis") [] "Failed to fetch" 200 "OK" "kpis"
              H0 eq_refl eq_refl eq_refl H1 H2) as (_ & Hr & _ & Hc & _).
  split; [exact Hr | exact Hc].
Defined.
